(** * Log parsing, bot filtering and session derivation of [transform_logs.py]

    A shallow embedding of the pipeline of [src/transform_logs.py]
    (line parsers, ingestion loop, bot filter, session builder and session
    statistics), followed by the properties established about it.

    Modelling conventions.
    - A Python [str] is a [string]; every character stands for the code point
      of the same number, so the texts covered are those of code points below
      U+0100.  The character classes below (white space, digits, case) are
      the ones CPython assigns to these code points.
    - A JSON/Python value is a [value]; a [dict] is a [gmap string value].
    - Exceptions are modelled by [option]: [None] is "raised", and the
      handler that catches it is written where the source has its [except].
    - [datetime.now()] is the parameter [now] of the functions that read the
      clock.
    - [int] is unbounded (the interpreter's optional limit on the number of
      digits of a numeral is not modelled). *)

From Stdlib Require Import ZArith NArith QArith String Ascii List Lia Bool.
From Stdlib Require Import OrdersEx Sorting.Sorted Sorting.Permutation.
From Stdlib Require Floats.
From stdpp Require Import base gmap strings list sorting.

Set Warnings "-register-all".
Local Open Scope Z_scope.

(** ** Python strings *)

Module PyStr.

Definition code (c : ascii) : N := N_of_ascii c.

(** The double quote, and a way to write texts that contain it: [dq s]
    is [s] with every apostrophe replaced by a double quote. *)
Definition dquote : ascii := ascii_of_N 34.

Fixpoint dq (s : string) : string :=
  match s with
  | EmptyString => EmptyString
  | String c r => String (if Ascii.eqb c "'" then dquote else c) (dq r)
  end.

Definition in_range (lo hi : N) (c : ascii) : bool :=
  (N.leb lo (code c) && N.leb (code c) hi)%bool.

(** [str.isspace] on one character, which is also the class [\s] of [re]
    on [str] patterns: TAB..CR, FS..US, SPACE, NEL and NBSP. *)
Definition is_space (c : ascii) : bool :=
  (in_range 9 13 c || in_range 28 32 c || N.eqb (code c) 133
   || N.eqb (code c) 160)%bool.

(** Decimal digits (category Nd): the only ones below U+0100 are 0..9. *)
Definition is_decimal (c : ascii) : bool := in_range 48 57 c.

(** [str.isdigit] on one character: the decimal digits and the
    superscripts two, three and one. *)
Definition is_digit_char (c : ascii) : bool :=
  (is_decimal c || N.eqb (code c) 178 || N.eqb (code c) 179
   || N.eqb (code c) 185)%bool.

Definition is_upper (c : ascii) : bool :=
  (in_range 65 90 c || in_range 192 214 c || in_range 216 222 c)%bool.

(** [str.lower] on one character. *)
Definition lower_char (c : ascii) : ascii :=
  if is_upper c then ascii_of_N (code c + 32) else c.

Fixpoint lower (s : string) : string :=
  match s with
  | EmptyString => EmptyString
  | String c r => String (lower_char c) (lower r)
  end.

Fixpoint all_chars (p : ascii -> bool) (s : string) : bool :=
  match s with
  | EmptyString => true
  | String c r => (p c && all_chars p r)%bool
  end.

Definition is_empty (s : string) : bool :=
  match s with EmptyString => true | _ => false end.

(** [s.isdigit()]: non-empty and every character a digit. *)
Definition isdigit (s : string) : bool :=
  (negb (is_empty s) && all_chars is_digit_char s)%bool.

Definition digit_val (c : ascii) : Z := Z.of_N (code c) - 48.

Fixpoint decimal_acc (acc : Z) (s : string) : Z :=
  match s with
  | EmptyString => acc
  | String c r => decimal_acc (10 * acc + digit_val c) r
  end.

(** [int(s)] for a string [s] on which [isdigit] holds: the value of the
    numeral when every character is a decimal digit, ValueError (a
    superscript digit is no numeral) otherwise. *)
Definition int_of_digits (s : string) : option Z :=
  if (negb (is_empty s) && all_chars is_decimal s)%bool
  then Some (decimal_acc 0 s) else None.

Fixpoint lstrip (s : string) : string :=
  match s with
  | String c r => if is_space c then lstrip r else s
  | EmptyString => EmptyString
  end.

Fixpoint rstrip (s : string) : string :=
  match s with
  | EmptyString => EmptyString
  | String c r =>
      match rstrip r with
      | EmptyString => if is_space c then EmptyString else String c EmptyString
      | r' => String c r'
      end
  end.

(** [s.strip()] *)
Definition strip (s : string) : string := rstrip (lstrip s).

(** [s.split()]: the maximal runs of characters that are not white space.
    [cur] is the run being read, in reverse. *)
Fixpoint split_acc (cur : list ascii) (s : string) : list string :=
  match s with
  | EmptyString =>
      match cur with
      | [] => []
      | _ => [string_of_list_ascii (rev cur)]
      end
  | String c r =>
      if is_space c
      then match cur with
           | [] => split_acc [] r
           | _ => string_of_list_ascii (rev cur) :: split_acc [] r
           end
      else split_acc (c :: cur) r
  end.

Definition split (s : string) : list string := split_acc [] s.

(** [sub in s] *)
Fixpoint contains (sub s : string) : bool :=
  (String.prefix sub s
   || match s with
      | EmptyString => false
      | String _ r => contains sub r
      end)%bool.

(** [str(n)] for an integer: the decimal digits, the last one first;
    [fuel] is one more than the binary length of [n], which is at least
    the number of its decimal digits. *)
Fixpoint str_of_pos_fuel (fuel : nat) (n : N) (acc : string) : string :=
  match fuel with
  | O => acc
  | S f =>
      let acc' := String (ascii_of_N (48 + N.modulo n 10)) acc in
      if N.ltb n 10 then acc' else str_of_pos_fuel f (N.div n 10) acc'
  end.

Definition str_of_N (n : N) : string :=
  str_of_pos_fuel (S (N.to_nat (N.log2 n))) n EmptyString.

Definition str_of_Z (z : Z) : string :=
  if Z.ltb z 0 then String "-" (str_of_N (Z.to_N (- z)))
  else str_of_N (Z.to_N z).

End PyStr.

(** ** Backtracking regular expressions

    The fragment of [re] that the patterns of the program and of
    [datetime.strptime] use.  [matches] lists the ways a pattern matches a
    prefix of the subject, in the order in which a backtracking matcher
    tries them; [re.match] returns the first. *)

Module Re.

Inductive regex :=
| Eps
| Chr (p : ascii -> bool)
| Rep (p : ascii -> bool) (lo : nat) (hi : option nat)
| Cat (r1 r2 : regex)
| Alt (r1 r2 : regex)
| Opt (r : regex)
| Grp (name : string) (r : regex).

(** What a match consumed, its groups in order of appearance, and the
    rest of the subject. *)
Record result := Result {
  consumed : string;
  groups : list (string * string);
  rest : string
}.

Definition below (n : nat) (hi : option nat) : bool :=
  match hi with
  | None => true
  | Some h => Nat.ltb n h
  end.

(** Greedy repetition of one character class: the longest run first,
    then the shorter ones, down to [lo] characters. [n] characters,
    [acc] in reverse, have been taken already. *)
Fixpoint rep (p : ascii -> bool) (lo : nat) (hi : option nat)
         (n : nat) (acc : list ascii) (s : string) : list result :=
  let here :=
    if Nat.leb lo n
    then [Result (string_of_list_ascii (rev acc)) [] s]
    else [] in
  match s with
  | String c r =>
      if (p c && below n hi)%bool
      then rep p lo hi (S n) (c :: acc) r ++ here
      else here
  | EmptyString => here
  end.

Fixpoint matches (r : regex) (s : string) : list result :=
  match r with
  | Eps => [Result EmptyString [] s]
  | Chr p =>
      match s with
      | String c t =>
          if p c then [Result (String c EmptyString) [] t] else []
      | EmptyString => []
      end
  | Rep p lo hi => rep p lo hi 0%nat [] s
  | Cat r1 r2 =>
      concat
        (map (fun m1 =>
                map (fun m2 =>
                       Result (consumed m1 +:+ consumed m2)
                              (groups m1 ++ groups m2) (rest m2))
                    (matches r2 (rest m1)))
             (matches r1 s))
  | Alt r1 r2 => matches r1 s ++ matches r2 s
  | Opt r1 => matches r1 s ++ [Result EmptyString [] s]
  | Grp name r1 =>
      map (fun m => Result (consumed m) ((name, consumed m) :: groups m)
                           (rest m))
          (matches r1 s)
  end.

(** [re.match(r, s)] *)
Definition re_match (r : regex) (s : string) : option result :=
  head (matches r s).

Fixpoint seq (rs : list regex) : regex :=
  match rs with
  | [] => Eps
  | [r] => r
  | r :: rs' => Cat r (seq rs')
  end.

Fixpoint alts (rs : list regex) : regex :=
  match rs with
  | [] => Chr (fun _ => false)
  | [r] => r
  | r :: rs' => Alt r (alts rs')
  end.

Definition is_char (c : ascii) : ascii -> bool := fun x => Ascii.eqb x c.
Definition not_char (c : ascii) : ascii -> bool :=
  fun x => negb (Ascii.eqb x c).
Definition non_space : ascii -> bool := fun x => negb (PyStr.is_space x).

(** A literal character under [re.IGNORECASE]. *)
Definition is_char_ci (c : ascii) : ascii -> bool :=
  fun x => Ascii.eqb (PyStr.lower_char x) (PyStr.lower_char c).

Definition lit (c : ascii) : regex := Chr (is_char c).

Fixpoint lits_ci (s : string) : regex :=
  match s with
  | EmptyString => Eps
  | String c EmptyString => Chr (is_char_ci c)
  | String c r => Cat (Chr (is_char_ci c)) (lits_ci r)
  end.

Definition digit : regex := Chr PyStr.is_decimal.
Definition range (lo hi : ascii) : regex :=
  Chr (PyStr.in_range (N_of_ascii lo) (N_of_ascii hi)).

End Re.

(** ** Python values and [json.loads] *)

Module Json.

(** The values a decoded JSON text is made of.  A float is kept as the
    numeral it was read from. *)
Inductive value :=
| VNone
| VBool (b : bool)
| VInt (z : Z)
| VFloat (numeral : string)
| VStr (s : string)
| VList (l : list value)
| VDict (m : gmap string value).

(** Whether a float numeral denotes zero: its mantissa has no digit but
    0.  (A numeral that only rounds to zero is not told apart; the program
    never depends on the truth value of a float: a float as [time] is
    rejected whether it is zero or not.) *)
Definition float_is_zero (numeral : string) : bool :=
  let fix mantissa (s : string) : bool :=
    match s with
    | EmptyString => true
    | String c r =>
        if (Ascii.eqb c "e" || Ascii.eqb c "E")%bool then true
        else if (Ascii.eqb c "0" || Ascii.eqb c "." || Ascii.eqb c "-")%bool
             then mantissa r
             else false
    end in
  mantissa numeral.

(** Truth value of a Python object ([if x:], [not x]). *)
Definition truthy (v : value) : bool :=
  match v with
  | VNone => false
  | VBool b => b
  | VInt z => negb (Z.eqb z 0)
  | VFloat n => negb (float_is_zero n)
  | VStr s => negb (PyStr.is_empty s)
  | VList l => match l with [] => false | _ => true end
  | VDict m => negb (bool_decide (m = ∅))
  end.

(** [d.get(key, default)] *)
Definition get (d : gmap string value) (key : string) (default : value)
  : value :=
  match d !! key with
  | Some v => v
  | None => default
  end.

(** The white space of JSON: space, TAB, LF, CR. *)
Definition is_ws (c : ascii) : bool :=
  (Ascii.eqb c " " || N.eqb (PyStr.code c) 9 || N.eqb (PyStr.code c) 10
   || N.eqb (PyStr.code c) 13)%bool.

Fixpoint skip_ws (s : string) : string :=
  match s with
  | String c r => if is_ws c then skip_ws r else s
  | EmptyString => EmptyString
  end.

Definition hex_val (c : ascii) : option N :=
  if PyStr.in_range 48 57 c then Some (PyStr.code c - 48)%N
  else if PyStr.in_range 97 102 c then Some (PyStr.code c - 87)%N
  else if PyStr.in_range 65 70 c then Some (PyStr.code c - 55)%N
  else None.

Definition hex4 (a b c d : ascii) : option N :=
  match hex_val a, hex_val b, hex_val c, hex_val d with
  | Some x, Some y, Some z, Some w => Some (((x * 16 + y) * 16 + z) * 16 + w)%N
  | _, _, _, _ => None
  end.

(** The character an escape letter denotes. *)
Definition unescape (c : ascii) : option ascii :=
  if Ascii.eqb c PyStr.dquote then Some PyStr.dquote
  else if Ascii.eqb c "\" then Some "\"%char
  else if Ascii.eqb c "/" then Some "/"%char
  else if Ascii.eqb c "b" then Some (ascii_of_N 8)
  else if Ascii.eqb c "f" then Some (ascii_of_N 12)
  else if Ascii.eqb c "n" then Some (ascii_of_N 10)
  else if Ascii.eqb c "r" then Some (ascii_of_N 13)
  else if Ascii.eqb c "t" then Some (ascii_of_N 9)
  else None.

Definition cons_char (c : ascii) (r : option (string * string))
  : option (string * string) :=
  match r with
  | Some (s, t) => Some (String c s, t)
  | None => None
  end.

(** A string literal, read from just after its opening quote (strict
    mode: a control character ends the decoding with an error).  An
    escape [\uXXXX] above U+00FF has no counterpart among the modelled
    characters and is an error of the model. *)
Fixpoint scanstring (s : string) : option (string * string) :=
  match s with
  | EmptyString => None
  | String c r =>
      if Ascii.eqb c PyStr.dquote then Some (EmptyString, r)
      else if Ascii.eqb c "\" then
        match r with
        | String e r1 =>
            if Ascii.eqb e "u" then
              match r1 with
              | String h1 (String h2 (String h3 (String h4 r2))) =>
                  match hex4 h1 h2 h3 h4 with
                  | Some n =>
                      if N.ltb n 256
                      then cons_char (ascii_of_N n) (scanstring r2)
                      else None
                  | None => None
                  end
              | _ => None
              end
            else
              match unescape e with
              | Some x => cons_char x (scanstring r1)
              | None => None
              end
        | EmptyString => None
        end
      else if N.ltb (PyStr.code c) 32 then None
      else cons_char c (scanstring r)
  end.

(** The longest prefix of decimal digits, and what follows it. *)
Fixpoint span_digits (s : string) : string * string :=
  match s with
  | String c r =>
      if PyStr.is_decimal c
      then let '(d, t) := span_digits r in (String c d, t)
      else (EmptyString, s)
  | EmptyString => (EmptyString, EmptyString)
  end.

(** [s] without its first character, when that is [c]. *)
Definition after (c : ascii) (s : string) : option string :=
  match s with
  | String x r => if Ascii.eqb x c then Some r else None
  | EmptyString => None
  end.

(** The integer part of a numeral: an optional minus sign, then either
    a single 0 or a digit 1..9 followed by any digits. *)
Definition scan_int (s : string) : option (string * string) :=
  let '(sign, s1) :=
    match after "-" s with
    | Some r => (String "-" EmptyString, r)
    | None => (EmptyString, s)
    end in
  match s1 with
  | String c r =>
      if Ascii.eqb c "0" then Some (sign +:+ "0", r)
      else if PyStr.is_decimal c
           then let '(d, t) := span_digits s1 in Some (sign +:+ d, t)
           else None
  | EmptyString => None
  end.

(** The optional fraction: a dot and at least one digit. *)
Definition scan_frac (s : string) : string * string :=
  match after "." s with
  | Some r =>
      match span_digits r with
      | (EmptyString, _) => (EmptyString, s)
      | (d, t) => (String "." d, t)
      end
  | None => (EmptyString, s)
  end.

(** The optional exponent: e or E, an optional sign, at least one
    digit. *)
Definition scan_exp (s : string) : string * string :=
  match s with
  | String e r =>
      if (Ascii.eqb e "e" || Ascii.eqb e "E")%bool then
        let '(sign, r1) :=
          match r with
          | String x r' =>
              if (Ascii.eqb x "-" || Ascii.eqb x "+")%bool
              then (String x EmptyString, r')
              else (EmptyString, r)
          | EmptyString => (EmptyString, r)
          end in
        match span_digits r1 with
        | (EmptyString, _) => (EmptyString, s)
        | (d, t) => (String e (sign +:+ d), t)
        end
      else (EmptyString, s)
  | EmptyString => (EmptyString, s)
  end.

Definition int_of_numeral (n : string) : Z :=
  match after "-" n with
  | Some d => - PyStr.decimal_acc 0 d
  | None => PyStr.decimal_acc 0 n
  end.

Definition scan_number (s : string) : option (value * string) :=
  match scan_int s with
  | Some (i, s1) =>
      let '(f, s2) := scan_frac s1 in
      let '(e, s3) := scan_exp s2 in
      if (PyStr.is_empty f && PyStr.is_empty e)%bool
      then Some (VInt (int_of_numeral i), s3)
      else Some (VFloat (i +:+ f +:+ e), s3)
  | None => None
  end.

(** [s] without the prefix [p], when it starts with it. *)
Fixpoint drop_prefix (p s : string) : option string :=
  match p, s with
  | EmptyString, _ => Some s
  | String a p', String b s' =>
      if Ascii.eqb a b then drop_prefix p' s' else None
  | _, EmptyString => None
  end.

Definition scan_constant (s : string) : option (value * string) :=
  match drop_prefix "null" s with
  | Some r => Some (VNone, r)
  | None =>
  match drop_prefix "true" s with
  | Some r => Some (VBool true, r)
  | None =>
  match drop_prefix "false" s with
  | Some r => Some (VBool false, r)
  | None =>
  match drop_prefix "NaN" s with
  | Some r => Some (VFloat "NaN", r)
  | None =>
  match drop_prefix "Infinity" s with
  | Some r => Some (VFloat "Infinity", r)
  | None =>
  match drop_prefix "-Infinity" s with
  | Some r => Some (VFloat "-Infinity", r)
  | None => scan_number s
  end end end end end end.

(** The scanner.  [scan_once] reads one value; [members] reads the
    members of an object from the quote of a key on, [elements] the
    elements of an array from the first character of an element on.
    [fuel] bounds the depth of the calls: a value, a member and an element
    each take one unit and at least one character of a text that can be
    decoded, and [loads] gives one unit more than the text has
    characters. *)
Fixpoint scan_once (fuel : nat) (s : string) {struct fuel}
  : option (value * string) :=
  match fuel with
  | O => None
  | S f =>
      match s with
      | EmptyString => None
      | String c r =>
          if Ascii.eqb c PyStr.dquote then
            match scanstring r with
            | Some (t, r1) => Some (VStr t, r1)
            | None => None
            end
          else if Ascii.eqb c "{" then
            match after "}" (skip_ws r) with
            | Some r1 => Some (VDict ∅, r1)
            | None => members f ∅ (skip_ws r)
            end
          else if Ascii.eqb c "[" then
            match after "]" (skip_ws r) with
            | Some r1 => Some (VList [], r1)
            | None => elements f [] (skip_ws r)
            end
          else scan_constant s
      end
  end
with members (fuel : nat) (acc : gmap string value) (s : string)
             {struct fuel} : option (value * string) :=
  match fuel with
  | O => None
  | S f =>
      match after PyStr.dquote s with
      | None => None
      | Some r =>
          match scanstring r with
          | None => None
          | Some (key, r1) =>
              match after ":" (skip_ws r1) with
              | None => None
              | Some r2 =>
                  match scan_once f (skip_ws r2) with
                  | None => None
                  | Some (v, r3) =>
                      let acc' := <[key := v]> acc in
                      match after "}" (skip_ws r3) with
                      | Some r4 => Some (VDict acc', r4)
                      | None =>
                          match after "," (skip_ws r3) with
                          | Some r4 => members f acc' (skip_ws r4)
                          | None => None
                          end
                      end
                  end
              end
          end
      end
  end
with elements (fuel : nat) (acc : list value) (s : string)
              {struct fuel} : option (value * string) :=
  match fuel with
  | O => None
  | S f =>
      match scan_once f s with
      | None => None
      | Some (v, r1) =>
          match after "]" (skip_ws r1) with
          | Some r2 => Some (VList (acc ++ [v]), r2)
          | None =>
              match after "," (skip_ws r1) with
              | Some r2 => elements f (acc ++ [v]) (skip_ws r2)
              | None => None
              end
          end
      end
  end.

(** [json.loads(s)]: one value, white space allowed around it and
    nothing else; [None] is JSONDecodeError. *)
Definition loads (s : string) : option value :=
  match scan_once (S (String.length s)) (skip_ws s) with
  | Some (v, r) => if PyStr.is_empty (skip_ws r) then Some v else None
  | None => None
  end.

End Json.

(** ** [datetime] and [datetime.strptime] *)

Module PyTime.

Import Re.

(** A [datetime]; [tzinfo] is the offset from UTC in microseconds of an
    aware value, [None] for a naive one. *)
Record datetime := Datetime {
  year : Z; month : Z; day : Z;
  hour : Z; minute : Z; second : Z; microsecond : Z;
  tzinfo : option Z
}.

Record pydate := Date { d_year : Z; d_month : Z; d_day : Z }.

Record pytime := Time {
  t_hour : Z; t_minute : Z; t_second : Z; t_microsecond : Z
}.

(** [dt.date()] and [dt.time()] (the latter drops the time zone). *)
Definition date_of (dt : datetime) : pydate :=
  Date (year dt) (month dt) (day dt).

Definition time_of (dt : datetime) : pytime :=
  Time (hour dt) (minute dt) (second dt) (microsecond dt).

Definition is_leap (y : Z) : bool :=
  (Z.eqb (y mod 4) 0 && (negb (Z.eqb (y mod 100) 0) || Z.eqb (y mod 400) 0))%bool.

Definition days_in_month (y m : Z) : Z :=
  if Z.eqb m 2 then (if is_leap y then 29 else 28)
  else if (Z.eqb m 4 || Z.eqb m 6 || Z.eqb m 9 || Z.eqb m 11)%bool then 30
  else 31.

Definition between (lo x hi : Z) : bool := (Z.leb lo x && Z.leb x hi)%bool.

Definition day_us : Z := 86400 * 1000000.

(** The constructor [datetime(y, m, d, H, M, S, us, tz)]; [None] is the
    ValueError of a field out of range (for the zone: an offset that is
    not strictly between minus and plus one day). *)
Definition make_datetime (y m d H M S us : Z) (tz : option Z)
  : option datetime :=
  if (between 1 y 9999 && between 1 m 12 && between 1 d (days_in_month y m)
      && between 0 H 23 && between 0 M 59 && between 0 S 59
      && between 0 us 999999
      && match tz with
         | Some off => Z.ltb (- day_us) off && Z.ltb off day_us
         | None => true
         end)%bool
  then Some (Datetime y m d H M S us tz)
  else None.

Definition month_abbr : list string :=
  ["jan"; "feb"; "mar"; "apr"; "may"; "jun";
   "jul"; "aug"; "sep"; "oct"; "nov"; "dec"].

(** The pattern of one directive of a format (English month names). *)
Definition directive (c : ascii) : option regex :=
  if Ascii.eqb c "d" then
    Some (Grp "d" (alts [Cat (lit "3") (range "0" "1");
                         Cat (range "1" "2") digit;
                         Cat (lit "0") (range "1" "9");
                         range "1" "9";
                         Cat (lit " ") (range "1" "9")]))
  else if Ascii.eqb c "b" then
    Some (Grp "b" (alts (map lits_ci month_abbr)))
  else if Ascii.eqb c "Y" then
    Some (Grp "Y" (seq [digit; digit; digit; digit]))
  else if Ascii.eqb c "m" then
    Some (Grp "m" (alts [Cat (lit "1") (range "0" "2");
                         Cat (lit "0") (range "1" "9");
                         range "1" "9"]))
  else if Ascii.eqb c "H" then
    Some (Grp "H" (alts [Cat (lit "2") (range "0" "3");
                         Cat (range "0" "1") digit;
                         digit]))
  else if Ascii.eqb c "M" then
    Some (Grp "M" (alts [Cat (range "0" "5") digit; digit]))
  else if Ascii.eqb c "S" then
    Some (Grp "S" (alts [Cat (lit "6") (range "0" "1");
                         Cat (range "0" "5") digit;
                         digit]))
  else if Ascii.eqb c "z" then
    Some (Grp "z"
            (Alt (seq [Chr (fun x => Ascii.eqb x "+" || Ascii.eqb x "-")%bool;
                       digit; digit; Opt (lit ":"); range "0" "5"; digit;
                       Opt (seq [Opt (lit ":"); range "0" "5"; digit;
                                 Opt (Cat (lit ".")
                                          (Rep PyStr.is_decimal 1 (Some 6%nat)))])])
                 (lit "Z")))
  else None.

(** The pattern of a format: a directive after each percent sign, one or
    more white space characters for each run of white space, and every
    other character for itself, whatever its case.  [in_ws] tells that
    the previous character of the format was white space. *)
Fixpoint format_regex (in_ws : bool) (fmt : string) : option (list regex) :=
  match fmt with
  | EmptyString => Some []
  | String c r =>
      if Ascii.eqb c "%" then
        match r with
        | String d r' =>
            match directive d, format_regex false r' with
            | Some x, Some xs => Some (x :: xs)
            | _, _ => None
            end
        | EmptyString => None
        end
      else if PyStr.is_space c then
        if in_ws then format_regex true r
        else match format_regex true r with
             | Some xs => Some (Rep PyStr.is_space 1 None :: xs)
             | None => None
             end
      else match format_regex false r with
           | Some xs => Some (Chr (is_char_ci c) :: xs)
           | None => None
           end
  end.

Definition group (name : string) (gs : list (string * string))
  : option string :=
  match find (fun g => String.eqb (fst g) name) gs with
  | Some g => Some (snd g)
  | None => None
  end.

(** [int(s)] on the text of a numeric group (white space around the
    digits is allowed). *)
Definition int_of_group (s : string) : option Z :=
  PyStr.int_of_digits (PyStr.strip s).

(** The field of a group, [default] when the format has no such group. *)
Definition field (name : string) (gs : list (string * string))
           (default : Z) : option Z :=
  match group name gs with
  | Some s => int_of_group s
  | None => Some default
  end.

Fixpoint index_of (s : string) (l : list string) (i : Z) : option Z :=
  match l with
  | [] => None
  | x :: l' => if String.eqb x s then Some i else index_of s l' (i + 1)
  end.

Definition month_field (gs : list (string * string)) : option Z :=
  match group "b" gs with
  | Some s => index_of (PyStr.lower s) month_abbr 1
  | None => field "m" gs 1
  end.

(** [s[i:]], [s[i:j]] and [s[i]] for indices within the modelled uses. *)
Fixpoint drop (n : nat) (s : string) : string :=
  match n, s with
  | O, _ => s
  | S n', String _ r => drop n' r
  | S _, EmptyString => EmptyString
  end.

Fixpoint take (n : nat) (s : string) : string :=
  match n, s with
  | O, _ => EmptyString
  | S n', String c r => String c (take n' r)
  | S _, EmptyString => EmptyString
  end.

Definition slice (i j : nat) (s : string) : string :=
  take (j - i) (drop i s).

Definition char_at (i : nat) (s : string) : option ascii :=
  match drop i s with
  | String c _ => Some c
  | EmptyString => None
  end.

Definition is_colon (c : option ascii) : bool :=
  match c with
  | Some x => Ascii.eqb x ":"
  | None => false
  end.

Fixpoint zeros (n : nat) : string :=
  match n with
  | O => EmptyString
  | S n' => String "0" (zeros n')
  end.

(** The offset, in microseconds, that the text of a [%z] group denotes. *)
Definition offset_of (z0 : string) : option Z :=
  if String.eqb z0 "Z" then Some 0
  else
    let step1 :=
      if is_colon (char_at 3 z0) then
        let z := take 3 z0 +:+ drop 4 z0 in
        if Nat.ltb 5 (String.length z) then
          if is_colon (char_at 5 z)
          then Some (take 5 z +:+ drop 6 z)
          else None
        else Some z
      else Some z0 in
    match step1 with
    | None => None
    | Some z =>
        let secs :=
          match slice 5 7 z with
          | EmptyString => Some 0
          | s => int_of_group s
          end in
        let rem := drop 8 z in
        match int_of_group (slice 1 3 z), int_of_group (slice 3 5 z), secs,
              int_of_group (rem +:+ zeros (6 - String.length rem)) with
        | Some h, Some m, Some s, Some frac =>
            let off := (h * 3600 + m * 60 + s) * 1000000 + frac in
            Some (if String.prefix "-" z then - off else off)
        | _, _, _, _ => None
        end
    end.

Definition zone_field (gs : list (string * string)) : option (option Z) :=
  match group "z" gs with
  | Some z =>
      match offset_of z with
      | Some off => Some (Some off)
      | None => None
      end
  | None => Some None
  end.

(** [datetime.strptime(s, fmt)]; [None] is ValueError: no match of the
    pattern, text left over after the match, or field values that make
    no [datetime]. *)
Definition strptime (s : string) (fmt : string) : option datetime :=
  match format_regex false fmt with
  | None => None
  | Some rs =>
      match re_match (seq rs) s with
      | None => None
      | Some m =>
          if negb (PyStr.is_empty (rest m)) then None
          else
            let gs := groups m in
            match field "Y" gs 1900, month_field gs, field "d" gs 1,
                  field "H" gs 0, field "M" gs 0, field "S" gs 0,
                  zone_field gs with
            | Some y, Some mo, Some d, Some hh, Some mm, Some ss, Some tz =>
                make_datetime y mo d hh mm ss 0 tz
            | _, _, _, _, _, _, _ => None
            end
      end
  end.

End PyTime.

(** ** The line parsers *)

Module Log.

Import Json PyTime.

(** The dictionary a parser returns for one line. *)
Record LogRecord := {
  timestamp : datetime;
  date : pydate;
  time : pytime;
  ip : value;
  method : value;
  path : value;
  version : value;
  status_code : Z;
  size : Z;
  referer : value;
  user_agent : value;
  raw_line : string
}.

(** [extract_json_block]: the suffixes of the line that start with an
    opening brace are tried from left to right; [line] is the text from
    offset [start] on. *)
Fixpoint extract_json_block (line : string) : option value :=
  match line with
  | EmptyString => None
  | String c r =>
      if Ascii.eqb c "{" then
        match Json.loads (PyStr.strip line) with
        | Some json_data => Some json_data
        | None => extract_json_block r
        end
      else extract_json_block r
  end.

Definition field_sp : Re.regex := Re.Rep Re.non_space 1 None.
Definition quoted (name : string) : list Re.regex :=
  [Re.lit PyStr.dquote;
   Re.Grp name (Re.Rep (Re.not_char PyStr.dquote) 0 None);
   Re.lit PyStr.dquote].

(** The part the two patterns share: the address, two skipped fields,
    the bracketed time stamp, the quoted request, status and size. *)
Definition simple_pattern_items : list Re.regex :=
  [Re.Grp "1" field_sp; Re.lit " "; field_sp; Re.lit " "; field_sp;
   Re.lit " "; Re.lit "["; Re.Grp "2" (Re.Rep (Re.not_char "]") 1 None);
   Re.lit "]"; Re.lit " "]
  ++ quoted "3"
  ++ [Re.lit " "; Re.Grp "4" field_sp; Re.lit " "; Re.Grp "5" field_sp].

Definition simple_pattern : Re.regex := Re.seq simple_pattern_items.

Definition pattern : Re.regex :=
  Re.seq (simple_pattern_items
          ++ [Re.lit " "] ++ quoted "6" ++ [Re.lit " "] ++ quoted "7").

(** [match.groups()] of the first pattern that matches, if any. *)
Definition match_groups (s : string) : option (list string) :=
  match Re.re_match pattern s with
  | Some m => Some (map snd (Re.groups m))
  | None =>
      match Re.re_match simple_pattern s with
      | Some m => Some (map snd (Re.groups m))
      | None => None
      end
  end.

(** [groups[i] if len(groups) > i else default] *)
Definition item_or (groups : list string) (i : nat) (default : string)
  : string :=
  if Nat.ltb i (length groups) then nth i groups default else default.

(** The time stamp of an Apache line; the outer [None] is the IndexError
    of [timestamp_str.split()[0]], which no inner handler catches. *)
Definition apache_timestamp (now : datetime) (timestamp_str : string)
  : option datetime :=
  match strptime timestamp_str "%d/%b/%Y:%H:%M:%S %z" with
  | Some dt => Some dt
  | None =>
      match PyStr.split timestamp_str with
      | [] => None
      | first :: _ =>
          match strptime first "%d/%b/%Y:%H:%M:%S" with
          | Some dt => Some dt
          | None => Some now
          end
      end
  end.

(** [int(s) if s != "-" and s.isdigit() else 0], with ValueError giving 0 *)
Definition int_or_zero (s : string) : Z :=
  if (negb (String.eqb s "-") && PyStr.isdigit s)%bool
  then match PyStr.int_of_digits s with
       | Some n => n
       | None => 0
       end
  else 0.

Definition none_if_dash (s : string) : value :=
  if String.eqb s "-" then VNone else VStr s.

Definition parse_apache_log_line (now : datetime) (line : string)
  : option LogRecord :=
  match match_groups (PyStr.strip line) with
  | None => None
  | Some groups =>
      match nth_error groups 0, nth_error groups 1 with
      | Some ip, Some timestamp_str =>
          let request := item_or groups 2 EmptyString in
          let status := item_or groups 3 "0" in
          let size := item_or groups 4 "0" in
          let referer := item_or groups 5 "-" in
          let user_agent := item_or groups 6 "-" in
          match apache_timestamp now timestamp_str with
          | None => None
          | Some dt =>
              let request_parts :=
                if PyStr.is_empty request then [] else PyStr.split request in
              let method := nth 0 request_parts "-" in
              let path := nth 1 request_parts "-" in
              let version := nth 2 request_parts "-" in
              Some {| timestamp := dt;
                      date := date_of dt;
                      time := time_of dt;
                      ip := VStr ip;
                      method := VStr method;
                      path := VStr path;
                      version := VStr version;
                      status_code := int_or_zero status;
                      size := int_or_zero size;
                      referer := none_if_dash referer;
                      user_agent := none_if_dash user_agent;
                      raw_line := PyStr.strip line |}
          end
      | _, _ => None
      end
  end.

Definition time_formats : list string :=
  ["%d/%b/%Y:%H:%M:%S %z";
   "%d/%b/%Y:%H:%M:%S";
   "%Y-%m-%d %H:%M:%S";
   "%Y-%m-%dT%H:%M:%S"].

(** The loop over the formats: the first that parses the text wins. *)
Fixpoint first_format (time_str : string) (formats : list string)
  : option datetime :=
  match formats with
  | [] => None
  | fmt :: rest =>
      match strptime time_str fmt with
      | Some dt => Some dt
      | None => first_format time_str rest
      end
  end.

(** [str(x).isdigit()]: the text of a float, of None, of a truth value,
    of a list or of a dictionary always has a character that is no
    digit. *)
Definition str_isdigit (x : value) : bool :=
  match x with
  | VInt z => PyStr.isdigit (PyStr.str_of_Z z)
  | VStr s => PyStr.isdigit s
  | _ => false
  end.

(** [int(x)]: [None] is the exception for None, a list or a dictionary.
    The program calls it only after [str(x).isdigit()] held, that is for a
    natural number or a text of digits: a text is read as such a text
    ([PyStr.int_of_digits]), and the truncation of a float is left out. *)
Definition int_of_value (x : value) : option Z :=
  match x with
  | VInt z => Some z
  | VBool b => Some (if b then 1 else 0)
  | VStr s => PyStr.int_of_digits s
  | _ => None
  end.

(** [int(x) if str(y).isdigit() else 0] *)
Definition int_if_digits (x y : value) : option Z :=
  if str_isdigit y then int_of_value x else Some 0.

(** The entries ['status_code'] and ['size'] of the JSON branch. *)
Definition json_status_code (d : gmap string value) : option Z :=
  int_if_digits (get d "code" (get d "status" (VInt 0)))
                (get d "code" (get d "status" (VStr EmptyString))).

Definition json_size (d : gmap string value) : option Z :=
  int_if_digits (get d "size" (get d "bytes" (VInt 0)))
                (get d "size" (get d "bytes" (VStr EmptyString))).

(** The JSON branch of [parse_log_to_dict], the body of its [try]:
    [None] is either [return None] or an exception caught by the
    [except] of the branch. *)
Definition parse_json_record (now : datetime) (json_result : value)
           (raw_line : string) : option LogRecord :=
  match json_result with
  | VDict d =>
      let time_str := get d "time" (VStr EmptyString) in
      if negb (truthy time_str) then None
      else
        match time_str with
        | VStr s =>
            let dt :=
              match first_format s time_formats with
              | Some dt => dt
              | None => now
              end in
            match json_status_code d, json_size d with
            | Some status_code, Some size =>
                Some {| timestamp := dt;
                        date := date_of dt;
                        time := time_of dt;
                        ip := get d "forwardedfor"
                                  (get d "remote_addr" (VStr "-"));
                        method := get d "method" (VStr "-");
                        path := get d "path" (get d "request" (VStr "-"));
                        version := get d "version" (VStr "-");
                        status_code := status_code;
                        size := size;
                        referer := get d "referer" (VStr "-");
                        user_agent := get d "agent"
                                          (get d "user_agent" (VStr "-"));
                        raw_line := PyStr.strip raw_line |}
            | _, _ => None
            end
        | _ => None
        end
  | _ => None
  end.

(** [parse_log_to_dict] *)
Definition parse_log_to_dict (now : datetime) (raw_line : string)
  : option LogRecord :=
  match extract_json_block raw_line with
  | Some json_result =>
      if truthy json_result
      then parse_json_record now json_result raw_line
      else parse_apache_log_line now raw_line
  | None => parse_apache_log_line now raw_line
  end.

End Log.

(** ** Tables, the bot filter and the session builder *)

Module Frame.

Import PyTime.

(** A row of the table built from the parsed records.  [timestamp] is the
    instant of a [datetime64] cell, in microseconds since the epoch; text
    cells that may be missing are options. *)
Record Row := {
  timestamp : Z;
  date : pydate;
  time : pytime;
  ip : string;
  method : option string;
  path : option string;
  version : option string;
  status_code : Z;
  size : Z;
  referer : option string;
  user_agent : option string;
  raw_line : string
}.

(** A row together with the three columns [create_sessions] adds;
    [time_diff] is [None] for NaT. *)
Record SessionRow := {
  row : Row;
  time_diff : option Z;
  new_session : bool;
  session_id : string
}.

(** A [DataFrame]: [pd.DataFrame()] without columns, a table with the
    columns of the records, or such a table with the session columns. *)
Inductive DataFrame :=
| Empty
| Table (rows : list Row)
| SessionTable (rows : list SessionRow).

(** [df.empty] *)
Definition empty (df : DataFrame) : bool :=
  match df with
  | Empty => true
  | Table rows => match rows with [] => true | _ => false end
  | SessionTable rows => match rows with [] => true | _ => false end
  end.

(** ['user_agent' in df.columns] and ['session_id' in df.columns] *)
Definition has_user_agent (df : DataFrame) : bool :=
  match df with
  | Empty => false
  | _ => true
  end.

Definition has_session_id (df : DataFrame) : bool :=
  match df with
  | SessionTable _ => true
  | _ => false
  end.

(** [len(df)] *)
Definition len (df : DataFrame) : nat :=
  match df with
  | Empty => 0%nat
  | Table rows => length rows
  | SessionTable rows => length rows
  end.

Definition bot_patterns : list string :=
  ["googlebot"; "bingbot"; "slurp"; "duckduckbot"; "baiduspider";
   "yandexbot"; "facebookexternalhit"; "twitterbot"; "linkedinbot";
   "whatsapp"; "telegram"; "crawler"; "spider"; "scraper";
   "bot"; "crawl"; "fetch"; "monitor"; "check"; "test";
   "pingdom"; "uptime"; "robot"; "wget"; "curl";
   "python-requests"; "scrapy"; "selenium"; "phantomjs";
   "headless"; "apache-httpclient"; "java/"; "go-http-client"].

Definition is_bot_user_agent (user_agent : option string) : bool :=
  match user_agent with
  | None => false
  | Some ua =>
      if (PyStr.is_empty ua || String.eqb ua "-")%bool then false
      else
        let user_agent_lower := PyStr.lower ua in
        existsb (fun pattern => PyStr.contains pattern user_agent_lower)
                bot_patterns
  end.

Definition count_true (mask : list bool) : Z :=
  Z.of_nat (length (List.filter (fun b : bool => b) mask)).

(** [df[~bot_mask]] on rows of either kind. *)
Definition drop_bots {A} (ua : A -> option string) (rows : list A)
  : list A :=
  List.filter (fun r => negb (is_bot_user_agent (ua r))) rows.

Definition filter_bots (df : DataFrame) (exclude_bots : bool)
  : DataFrame * Z :=
  if (exclude_bots && has_user_agent df)%bool then
    match df with
    | Empty => (df, 0)
    | Table rows =>
        let bot_mask := map (fun r => is_bot_user_agent (user_agent r)) rows in
        (Table (drop_bots user_agent rows), count_true bot_mask)
    | SessionTable rows =>
        let bot_mask :=
          map (fun r => is_bot_user_agent (user_agent (row r))) rows in
        (SessionTable (drop_bots (fun r => user_agent (row r)) rows),
         count_true bot_mask)
    end
  else (df, 0).

(** The order of [sort_values(['ip', 'timestamp'])]: by address, in the
    order of the code points, then by instant. *)
Definition key_le (a b : Row) : bool :=
  match String_as_OT.compare (ip a) (ip b) with
  | Lt => true
  | Eq => Z.leb (timestamp a) (timestamp b)
  | Gt => false
  end.

(** A sort on several columns is stable; there is one stable sort, the
    one below, which puts every row before the first row that is not
    smaller. *)
Fixpoint insert_by {A} (le : A -> A -> bool) (x : A) (l : list A) : list A :=
  match l with
  | [] => [x]
  | y :: l' => if le x y then x :: l else y :: insert_by le x l'
  end.

Definition sort_by {A} (le : A -> A -> bool) (l : list A) : list A :=
  foldr (insert_by le) [] l.

(** [groupby('ip')['timestamp'].diff()]: the difference to the previous
    row of the same address; [last] holds the instant of the latest row
    of every address met so far. *)
Fixpoint group_diff (last : gmap string Z) (rows : list Row)
  : list (option Z) :=
  match rows with
  | [] => []
  | r :: rest =>
      (match last !! ip r with
       | Some t => Some (timestamp r - t)
       | None => None
       end)
      :: group_diff (<[ip r := timestamp r]> last) rest
  end.

(** [groupby('ip')['new_session'].cumsum()]: the running number of marks
    of every address. *)
Fixpoint group_cumsum (sums : gmap string Z) (cells : list (string * bool))
  : list Z :=
  match cells with
  | [] => []
  | (k, b) :: rest =>
      let n := (match sums !! k with Some n => n | None => 0 end)
               + (if b then 1 else 0) in
      n :: group_cumsum (<[k := n]> sums) rest
  end.

(** [pd.Timedelta(minutes=m)], in microseconds. *)
Definition timedelta_minutes (m : Z) : Z := m * 60000000.

(** [time_diff.isna() | (time_diff > timeout)] *)
Definition starts_session (timeout : Z) (time_diff : option Z) : bool :=
  match time_diff with
  | None => true
  | Some d => Z.ltb timeout d
  end.

Definition make_session_id (ip : string) (n : Z) : string :=
  ip +:+ "_" +:+ PyStr.str_of_Z n.

(** The three column assignments of [create_sessions] on sorted rows. *)
Definition assign_sessions (session_timeout_minutes : Z) (rows : list Row)
  : list SessionRow :=
  let time_diffs := group_diff ∅ rows in
  let timeout := timedelta_minutes session_timeout_minutes in
  let marks := map (starts_session timeout) time_diffs in
  let numbers := group_cumsum ∅ (combine (map ip rows) marks) in
  map (fun '(r, d, b, n) =>
         {| row := r; time_diff := d; new_session := b;
            session_id := make_session_id (ip r) n |})
      (combine (combine (combine rows time_diffs) marks) numbers).

Definition create_sessions (df : DataFrame) (session_timeout_minutes : Z)
  : DataFrame :=
  if empty df then df
  else
    match df with
    | Empty => df
    | Table rows =>
        SessionTable
          (assign_sessions session_timeout_minutes (sort_by key_le rows))
    | SessionTable rows =>
        let df_sorted := sort_by (fun a b => key_le (row a) (row b)) rows in
        SessionTable
          (assign_sessions session_timeout_minutes (map row df_sorted))
    end.

End Frame.

(** ** Session statistics *)

Module Sessions.

Import PyTime.

(** A row of [session_details]; the duration is the exact quotient whose
    floating-point rounding the program stores. *)
Record SessionDetail := {
  session_id : string;
  session_start : Z;
  session_end : Z;
  pageviews : Z;
  ip : string;
  date : pydate;
  session_duration : Q
}.

(** The dictionary [get_session_stats] returns when it is not empty. *)
Record SessionStats := {
  total_sessions : Z;
  unique_users : Z;
  avg_pageviews_per_session : Q;
  avg_session_duration_minutes : Q;
  sessions_by_date : list (pydate * Z);
  session_details : list SessionDetail
}.

(** What [agg] keeps of a group: min, max and count of [timestamp], the
    first [ip] and the first [date]. *)
Record Agg := {
  agg_min : Z; agg_max : Z; agg_count : Z;
  agg_ip : string; agg_date : pydate
}.

Definition agg_first (r : Frame.SessionRow) : Agg :=
  let b := Frame.row r in
  {| agg_min := Frame.timestamp b; agg_max := Frame.timestamp b;
     agg_count := 1; agg_ip := Frame.ip b; agg_date := Frame.date b |}.

Definition agg_next (r : Frame.SessionRow) (a : Agg) : Agg :=
  let t := Frame.timestamp (Frame.row r) in
  {| agg_min := Z.min (agg_min a) t; agg_max := Z.max (agg_max a) t;
     agg_count := agg_count a + 1;
     agg_ip := agg_ip a; agg_date := agg_date a |}.

(** One more row in the groups of a [groupby], which are kept in the
    order of their keys. *)
Fixpoint group_update {K V} (cmp : K -> K -> comparison) (k : K)
         (first : V) (next : V -> V) (groups : list (K * V))
  : list (K * V) :=
  match groups with
  | [] => [(k, first)]
  | (k', v) :: rest =>
      match cmp k k' with
      | Lt => (k, first) :: groups
      | Eq => (k', next v) :: rest
      | Gt => (k', v) :: group_update cmp k first next rest
      end
  end.

(** [df.groupby('session_id').agg(...)] *)
Definition aggregate (rows : list Frame.SessionRow) : list (string * Agg) :=
  fold_left
    (fun groups r =>
       group_update String_as_OT.compare (Frame.session_id r)
                    (agg_first r) (agg_next r) groups)
    rows [].

Definition detail_of (g : string * Agg) : SessionDetail :=
  let '(sid, a) := g in
  {| session_id := sid;
     session_start := agg_min a;
     session_end := agg_max a;
     pageviews := agg_count a;
     ip := agg_ip a;
     date := agg_date a;
     session_duration := Qmake (agg_max a - agg_min a) 60000000 |}.

Definition date_compare (a b : pydate) : comparison :=
  match Z.compare (d_year a) (d_year b) with
  | Eq =>
      match Z.compare (d_month a) (d_month b) with
      | Eq => Z.compare (d_day a) (d_day b)
      | c => c
      end
  | c => c
  end.

(** [session_stats.groupby('date').size()] *)
Definition sizes_by_date (details : list SessionDetail)
  : list (pydate * Z) :=
  fold_left
    (fun groups d =>
       group_update date_compare (date d) 1 (fun n => n + 1) groups)
    details [].

Definition sum_Z (l : list Z) : Z := fold_right Z.add 0 l.
Definition sum_Q (l : list Q) : Q := fold_right Qplus (0 # 1)%Q l.

(** [column.mean()] *)
Definition mean_Q (l : list Q) : Q :=
  Qdiv (sum_Q l) (inject_Z (Z.of_nat (length l))).

(** [get_session_stats]; [None] is the empty dictionary. *)
Definition get_session_stats (df_with_sessions : Frame.DataFrame)
  : option SessionStats :=
  if (Frame.empty df_with_sessions
      || negb (Frame.has_session_id df_with_sessions))%bool
  then None
  else
    match df_with_sessions with
    | Frame.SessionTable rows =>
        let session_stats := map detail_of (aggregate rows) in
        Some
          {| total_sessions := Z.of_nat (length session_stats);
             unique_users :=
               Z.of_nat (length (remove_dups (map ip session_stats)));
             avg_pageviews_per_session :=
               mean_Q (map (fun d => inject_Z (pageviews d)) session_stats);
             avg_session_duration_minutes :=
               mean_Q (map session_duration session_stats);
             sessions_by_date := sizes_by_date session_stats;
             session_details := session_stats |}
    | _ => None
    end.

End Sessions.

(** ** Ingestion *)

Module Ingest.

Import Json PyTime.

(** What the program can observe of the file it is given: it cannot be
    opened, or it yields [lines] and then either ends or fails to be read
    further. *)
Inductive LogFile :=
| Unreadable
| Readable (lines : list string) (read_fails : bool).

(** The variables of the loop of [crear_dataframe]. *)
Record State := {
  datos : list Log.LogRecord;
  chunk_datos : list Log.LogRecord;
  errores : Z;
  lineas_procesadas : Z;
  lineas_exitosas : Z
}.

Definition initial : State :=
  {| datos := []; chunk_datos := []; errores := 0;
     lineas_procesadas := 0; lineas_exitosas := 0 |}.

(** The truth value of [max_lines], which is [None] or an integer. *)
Definition limit_reached (max_lines : option Z) (line_num : Z) : bool :=
  match max_lines with
  | Some n => (negb (Z.eqb n 0) && Z.leb n line_num)%bool
  | None => false
  end.

(** The body of the loop for a line that is processed. *)
Definition process_line (now : datetime) (chunk_size : Z) (line : string)
           (st : State) : State :=
  let st1 :=
    match Log.parse_log_to_dict now line with
    | Some parsed =>
        {| datos := datos st;
           chunk_datos := chunk_datos st ++ [parsed];
           errores := errores st;
           lineas_procesadas := lineas_procesadas st + 1;
           lineas_exitosas := lineas_exitosas st + 1 |}
    | None =>
        {| datos := datos st;
           chunk_datos := chunk_datos st;
           errores := errores st + 1;
           lineas_procesadas := lineas_procesadas st + 1;
           lineas_exitosas := lineas_exitosas st |}
    end in
  if Z.leb chunk_size (Z.of_nat (length (chunk_datos st1)))
  then {| datos := datos st1 ++ chunk_datos st1;
          chunk_datos := [];
          errores := errores st1;
          lineas_procesadas := lineas_procesadas st1;
          lineas_exitosas := lineas_exitosas st1 |}
  else st1.

(** [for line_num, line in enumerate(file)]: the state when the loop is
    left, and whether it was left by an exception of the read.  [clock]
    gives the time read while the line of a given number is parsed. *)
Fixpoint read_loop (clock : Z -> datetime) (max_lines : option Z)
         (chunk_size : Z) (line_num : Z) (lines : list string)
         (read_fails : bool) (st : State) : State * bool :=
  match lines with
  | [] => (st, read_fails)
  | line :: rest =>
      if limit_reached max_lines line_num then (st, false)
      else read_loop clock max_lines chunk_size (line_num + 1) rest
                     read_fails
                     (process_line (clock line_num) chunk_size line st)
  end.

(** Days from 1970-01-01 to a date of the proleptic Gregorian calendar. *)
Definition days_from_civil (y m d : Z) : Z :=
  let y' := if Z.leb m 2 then y - 1 else y in
  let era := y' / 400 in
  let yoe := y' - era * 400 in
  let mp := if Z.leb m 2 then m + 9 else m - 3 in
  let doy := (153 * mp + 2) / 5 + d - 1 in
  let doe := yoe * 365 + yoe / 4 - yoe / 100 + doy in
  era * 146097 + doe - 719468.

(** The instant of a [datetime], in microseconds since the epoch (a
    naive value is read as it stands). *)
Definition instant (dt : datetime) : Z :=
  ((days_from_civil (year dt) (month dt) (day dt) * 86400
    + hour dt * 3600 + minute dt * 60 + second dt) * 1000000
   + microsecond dt)
  - match tzinfo dt with Some off => off | None => 0 end.

Definition aware (dt : datetime) : bool :=
  match tzinfo dt with Some _ => true | None => false end.

(** [pd.to_datetime(column)]: [None] is the ValueError for a column that
    mixes naive and aware values. *)
Definition to_datetime (column : list datetime) : option (list Z) :=
  if (forallb aware column || forallb (fun dt => negb (aware dt)) column)%bool
  then Some (map instant column)
  else None.

(** A text cell of the table: a text or a missing value. *)
Definition text_cell (v : value) : option (option string) :=
  match v with
  | VNone => Some None
  | VStr s => Some (Some s)
  | _ => None
  end.

(** The row of a record with its instant; [None] when a text cell of the
    record holds a number, a truth value, a list or a dictionary, or the
    address is missing: such records are outside the tables modelled. *)
Definition row_of (t : Z) (r : Log.LogRecord) : option Frame.Row :=
  match Log.ip r, text_cell (Log.method r), text_cell (Log.path r),
        text_cell (Log.version r), text_cell (Log.referer r),
        text_cell (Log.user_agent r) with
  | VStr a, Some m, Some p, Some v, Some rf, Some ua =>
      Some {| Frame.timestamp := t;
              Frame.date := Log.date r;
              Frame.time := Log.time r;
              Frame.ip := a;
              Frame.method := m;
              Frame.path := p;
              Frame.version := v;
              Frame.status_code := Log.status_code r;
              Frame.size := Log.size r;
              Frame.referer := rf;
              Frame.user_agent := ua;
              Frame.raw_line := Log.raw_line r |}
  | _, _, _, _, _, _ => None
  end.

Fixpoint rows_of (ts : list Z) (rs : list Log.LogRecord)
  : option (list Frame.Row) :=
  match ts, rs with
  | t :: ts', r :: rs' =>
      match row_of t r, rows_of ts' rs' with
      | Some x, Some xs => Some (x :: xs)
      | _, _ => None
      end
  | _, _ => Some []
  end.

(** [crear_dataframe] without a progress callback.  The outer [None]
    marks records outside the tables modelled (see [row_of]); the result
    of the program is the pair inside.  The exception of a file that
    cannot be opened or read, and the one of [pd.to_datetime], end in
    the [except] of the function, which returns an empty frame and the
    errors counted so far. *)
Definition crear_dataframe (clock : Z -> datetime) (archivo_log : LogFile)
           (max_lines : option Z) (chunk_size : Z)
  : option (Frame.DataFrame * Z) :=
  match archivo_log with
  | Unreadable => Some (Frame.Empty, errores initial)
  | Readable lines read_fails =>
      let '(st, raised) :=
        read_loop clock max_lines chunk_size 0 lines read_fails initial in
      if raised then Some (Frame.Empty, errores st)
      else
        let datos := datos st ++ chunk_datos st in
        match datos with
        | [] => Some (Frame.Empty, errores st)
        | _ =>
            match to_datetime (map Log.timestamp datos) with
            | None => Some (Frame.Empty, errores st)
            | Some ts =>
                match rows_of ts datos with
                | Some rows => Some (Frame.Table rows, errores st)
                | None => None
                end
            end
        end
  end.

End Ingest.

(** The records and the failures of a run over [lines], the first of
    which has number [n]: what the loop of [crear_dataframe] accumulates
    when it reads every line. *)
Fixpoint parsed_lines (clock : Z -> PyTime.datetime) (n : Z)
         (lines : list string) : list Log.LogRecord :=
  match lines with
  | [] => []
  | line :: rest =>
      match Log.parse_log_to_dict (clock n) line with
      | Some r => r :: parsed_lines clock (n + 1) rest
      | None => parsed_lines clock (n + 1) rest
      end
  end.

Fixpoint failed_lines (clock : Z -> PyTime.datetime) (n : Z)
         (lines : list string) : Z :=
  match lines with
  | [] => 0
  | line :: rest =>
      match Log.parse_log_to_dict (clock n) line with
      | Some _ => failed_lines clock (n + 1) rest
      | None => 1 + failed_lines clock (n + 1) rest
      end
  end.

(** A clock and a wall-clock time for the examples. *)
Definition example_now : PyTime.datetime :=
  PyTime.Datetime 2026 1 2 3 4 5 678 None.

Definition example_clock : Z -> PyTime.datetime := fun _ => example_now.

(** The integer a numeric field of a log line stands for, in the words
    of the specification: the value of the numeral when the field is one
    (a non-empty run of the digits 0..9), and 0 otherwise, in particular
    for a dash. *)
Definition spec_numeric_field (field : string) : Z :=
  if (negb (PyStr.is_empty field) && PyStr.all_chars PyStr.is_decimal field)%bool
  then PyStr.decimal_acc 0 field
  else 0.

(** The number of groups of a pattern, and the patterns in which every
    match has that many: those without a group under a choice. *)
Fixpoint group_count (r : Re.regex) : nat :=
  match r with
  | Re.Grp _ r1 => S (group_count r1)
  | Re.Cat r1 r2 => (group_count r1 + group_count r2)%nat
  | Re.Alt r1 r2 => (group_count r1 + group_count r2)%nat
  | Re.Opt r1 => group_count r1
  | _ => 0%nat
  end.

Fixpoint groups_fixed (r : Re.regex) : bool :=
  match r with
  | Re.Grp _ r1 => groups_fixed r1
  | Re.Cat r1 r2 => (groups_fixed r1 && groups_fixed r2)%bool
  | Re.Alt r1 r2 =>
      (Nat.eqb (group_count r1) 0 && Nat.eqb (group_count r2) 0
       && groups_fixed r1 && groups_fixed r2)%bool
  | Re.Opt r1 => (Nat.eqb (group_count r1) 0 && groups_fixed r1)%bool
  | _ => true
  end.

(** The line of the scenario of the specification. *)
Definition scenario_line : string :=
  PyStr.dq "203.0.113.5 - - [26/May/2025:00:01:08 +0000] 'GET /index.html HTTP/1.1' 200 512 '-' 'Mozilla/5.0'".

(** A line of the combined format whose bracketed time stamp is a single
    space. *)
Definition blank_timestamp_line : string :=
  PyStr.dq "1.2.3.4 - - [ ] 'GET / HTTP/1.1' 200 512".

(** A line with a JSON object whose time matches none of the formats, and
    a line of the combined format whose last field is a JSON object with
    an empty time. *)
Definition unmatched_time_line : string :=
  PyStr.dq "{'time': 'garbage', 'code': 404}".

Definition apache_line_with_json : string :=
  PyStr.dq "1.2.3.4 - - [26/May/2025:00:01:08 +0000] 'GET / HTTP/1.1' 200 {'time':''}".

(** The groups and the record of the line of the scenario. *)
Definition scenario_groups : list string :=
  ["203.0.113.5"; "26/May/2025:00:01:08 +0000"; "GET /index.html HTTP/1.1";
   "200"; "512"; "-"; "Mozilla/5.0"].

Definition scenario_record : Log.LogRecord :=
  {| Log.timestamp := PyTime.Datetime 2025 5 26 0 1 8 0 (Some 0);
     Log.date := PyTime.Date 2025 5 26;
     Log.time := PyTime.Time 0 1 8 0;
     Log.ip := Json.VStr "203.0.113.5";
     Log.method := Json.VStr "GET";
     Log.path := Json.VStr "/index.html";
     Log.version := Json.VStr "HTTP/1.1";
     Log.status_code := 200;
     Log.size := 512;
     Log.referer := Json.VNone;
     Log.user_agent := Json.VStr "Mozilla/5.0";
     Log.raw_line := scenario_line |}.

(** The objects [extract_json_block] finds in these two lines. *)
Definition unmatched_time_object : gmap string Json.value :=
  <["time" := Json.VStr "garbage"]> (<["code" := Json.VInt 404]> ∅).

Definition empty_time_object : gmap string Json.value :=
  <["time" := Json.VStr EmptyString]> ∅.

(** The column assignments of [create_sessions] as one pass over the
    rows, with the state of the two [groupby] operations made explicit:
    [last] holds the instant of the latest row of every address, [sums]
    the number of session starts of every address. *)
Fixpoint annotate (timeout : Z) (last sums : gmap string Z)
         (rows : list Frame.Row) : list Frame.SessionRow :=
  match rows with
  | [] => []
  | r :: rest =>
      let d := match last !! Frame.ip r with
               | Some t => Some (Frame.timestamp r - t)
               | None => None
               end in
      let b := Frame.starts_session timeout d in
      let n := (match sums !! Frame.ip r with Some n => n | None => 0 end)
               + (if b then 1 else 0) in
      {| Frame.row := r; Frame.time_diff := d; Frame.new_session := b;
         Frame.session_id := Frame.make_session_id (Frame.ip r) n |}
      :: annotate timeout (<[Frame.ip r := Frame.timestamp r]> last)
                  (<[Frame.ip r := n]> sums) rest
  end.

(** The address of a row of a table with sessions. *)
Definition ip_of (s : Frame.SessionRow) : string := Frame.ip (Frame.row s).

(** [s], which comes after the rows [pre], is the first row of its
    address. *)
Definition first_of_ip (pre : list Frame.SessionRow) (s : Frame.SessionRow)
  : Prop :=
  Forall (fun q => ip_of q <> ip_of s) pre.

(** [q] is the previous row of the address of [s] among the rows [pre]
    that come before [s]. *)
Definition previous_of_ip (pre : list Frame.SessionRow)
           (q s : Frame.SessionRow) : Prop :=
  exists pre1 mid,
    pre = pre1 ++ q :: mid /\ ip_of q = ip_of s
    /\ Forall (fun x => ip_of x <> ip_of s) mid.

(** The last row of address [a] in [pre], and the number of session
    starts of address [a] in [pre]. *)
Definition latest (a : string) (pre : list Frame.SessionRow)
  : option Frame.SessionRow :=
  find (fun q => String.eqb (ip_of q) a) (rev pre).

Definition starts_of (a : string) (pre : list Frame.SessionRow) : Z :=
  Z.of_nat (length (List.filter
                      (fun q => (String.eqb (ip_of q) a
                                 && Frame.new_session q)%bool) pre)).

(** Rows for the scenarios of the session builder: requests of one
    address on 2025-05-26 at the given time of day. *)
Definition request_at (h m : Z) : Frame.Row :=
  {| Frame.timestamp :=
       Ingest.instant (PyTime.Datetime 2025 5 26 h m 0 0 None);
     Frame.date := PyTime.Date 2025 5 26;
     Frame.time := PyTime.Time h m 0 0;
     Frame.ip := "203.0.113.5";
     Frame.method := Some "GET";
     Frame.path := Some "/index.html";
     Frame.version := Some "HTTP/1.1";
     Frame.status_code := 200;
     Frame.size := 512;
     Frame.referer := None;
     Frame.user_agent := Some "Mozilla/5.0";
     Frame.raw_line := scenario_line |}.

(** The state of the pass after the rows [pre]. *)
Definition state_ok (pre : list Frame.SessionRow) (last sums : gmap string Z)
  : Prop :=
  (forall a, last !! a
             = option_map (fun q => Frame.timestamp (Frame.row q))
                          (latest a pre))
  /\ (forall a, match sums !! a with Some n => n | None => 0 end
                = starts_of a pre).

(** The number of rows of a table that carry a session identifier. *)
Definition rows_with (sid : string) (rows : list Frame.SessionRow) : Z :=
  Z.of_nat (length (List.filter
                      (fun s => String.eqb (Frame.session_id s) sid) rows)).

(** The groups of [aggregate] after the rows [processed]: their keys
    increase strictly, every group counts the rows of its key, every row
    has its group, and the counts add up to the number of rows. *)
Definition groups_ok (groups : list (string * Sessions.Agg))
           (processed : list Frame.SessionRow) : Prop :=
  StronglySorted String_as_OT.lt (map fst groups)
  /\ (forall k a, In (k, a) groups ->
                  Sessions.agg_count a = rows_with k processed
                  /\ 0 < Sessions.agg_count a)
  /\ (forall s, In s processed -> In (Frame.session_id s) (map fst groups))
  /\ Sessions.sum_Z (map (fun g => Sessions.agg_count (snd g)) groups)
     = Z.of_nat (length processed).

(** The rows of the two scenarios after [create_sessions]. *)
Definition first_request : Frame.SessionRow :=
  {| Frame.row := request_at 10 0; Frame.time_diff := None;
     Frame.new_session := true; Frame.session_id := "203.0.113.5_1" |}.

Definition late_request : Frame.SessionRow :=
  {| Frame.row := request_at 10 45; Frame.time_diff := Some 2700000000;
     Frame.new_session := true; Frame.session_id := "203.0.113.5_2" |}.

Definition early_request : Frame.SessionRow :=
  {| Frame.row := request_at 10 20; Frame.time_diff := Some 1200000000;
     Frame.new_session := false; Frame.session_id := "203.0.113.5_1" |}.

(** The session of the two requests of the second scenario. *)
Definition scenario_detail : Sessions.SessionDetail :=
  {| Sessions.session_id := "203.0.113.5_1";
     Sessions.session_start := Frame.timestamp (request_at 10 0);
     Sessions.session_end := Frame.timestamp (request_at 10 20);
     Sessions.pageviews := 2;
     Sessions.ip := "203.0.113.5";
     Sessions.date := PyTime.Date 2025 5 26;
     Sessions.session_duration := Qmake 1200000000 60000000 |}.

(** ** Definitions for the further properties *)

(** The lines that the loop of [crear_dataframe] reads under a limit: the
    first [p] for a positive limit [p], none for a negative one, all of
    them for no limit and for a limit of 0. *)
Definition lines_read (max_lines : option Z) (lines : list string)
  : list string :=
  match max_lines with
  | Some (Z.pos p) => firstn (Pos.to_nat p) lines
  | Some (Z.neg _) => []
  | _ => lines
  end.

(** A file of two lines for the examples: the line of the scenario and a
    line that no parser accepts. *)
Definition two_line_file : list string := [scenario_line; "junk"].

(** The row of the table that the record of the scenario becomes. *)
Definition scenario_row : Frame.Row :=
  {| Frame.timestamp := Ingest.instant (Log.timestamp scenario_record);
     Frame.date := PyTime.Date 2025 5 26;
     Frame.time := PyTime.Time 0 1 8 0;
     Frame.ip := "203.0.113.5";
     Frame.method := Some "GET";
     Frame.path := Some "/index.html";
     Frame.version := Some "HTTP/1.1";
     Frame.status_code := 200;
     Frame.size := 512;
     Frame.referer := None;
     Frame.user_agent := Some "Mozilla/5.0";
     Frame.raw_line := scenario_line |}.

(** ** [diagnosticar_archivo]

    Of what the function prints, the summary is kept: the two counts and
    the recommendation. *)

Module Diagnosis.

Import Json.

Inductive Recommendation :=
| UseApacheParser
| UseJsonParser
| NoKnownFormat.

Record Summary := {
  json_count : Z;
  apache_count : Z;
  recommendation : Recommendation
}.

(** The first loop: the lines before number [num_lineas], stripped, and
    whether the loop was left by an exception of the read. *)
Fixpoint first_lines (num_lineas : Z) (i : Z) (lines : list string)
         (read_fails : bool) : list string * bool :=
  match lines with
  | [] => ([], read_fails)
  | line :: rest =>
      if Z.leb num_lineas i then ([], false)
      else
        let '(lineas, raised) :=
          first_lines num_lineas (i + 1) rest read_fails in
        (PyStr.strip line :: lineas, raised)
  end.

(** The check for JSON of one line: whether it counts; [None] is the
    AttributeError of [keys] on a block that is no dictionary. *)
Definition json_check (linea : string) : option bool :=
  if PyStr.contains "{" linea then
    match Log.extract_json_block linea with
    | Some json_data =>
        if truthy json_data then
          match json_data with
          | VDict _ => Some true
          | _ => None
          end
        else Some false
    | None => Some false
    end
  else Some false.

(** The check for the Apache format of one line. *)
Definition apache_check (now : PyTime.datetime) (linea : string) : bool :=
  match Log.parse_apache_log_line now linea with
  | Some _ => true
  | None => false
  end.

(** The second loop: the two counts; [clock] gives the time read while
    the line of a given number is checked. *)
Fixpoint count_formats (clock : Z -> PyTime.datetime) (i : Z)
         (lineas : list string) (json_count apache_count : Z)
  : option (Z * Z) :=
  match lineas with
  | [] => Some (json_count, apache_count)
  | linea :: rest =>
      match json_check linea with
      | None => None
      | Some j =>
          count_formats clock (i + 1) rest
                        (if j then json_count + 1 else json_count)
                        (if apache_check (clock i) linea
                         then apache_count + 1 else apache_count)
      end
  end.

Definition recommend (json_count apache_count : Z) : Recommendation :=
  if Z.ltb json_count apache_count then UseApacheParser
  else if Z.ltb 0 json_count then UseJsonParser
  else NoKnownFormat.

(** [diagnosticar_archivo]: the list returned, and the summary printed
    when no exception was caught. *)
Definition diagnosticar_archivo (clock : Z -> PyTime.datetime)
           (archivo_log : Ingest.LogFile) (num_lineas : Z)
  : list string * option Summary :=
  match archivo_log with
  | Ingest.Unreadable => ([], None)
  | Ingest.Readable lines read_fails =>
      let '(lineas, raised) := first_lines num_lineas 0 lines read_fails in
      if raised then ([], None)
      else
        match count_formats clock 1 lineas 0 0 with
        | None => ([], None)
        | Some (json_count, apache_count) =>
            (lineas,
             Some {| json_count := json_count;
                     apache_count := apache_count;
                     recommendation := recommend json_count apache_count |})
        end
  end.

End Diagnosis.


(** The row of the scenario, sent by a crawler. *)
Definition bot_row : Frame.Row :=
  {| Frame.timestamp := Frame.timestamp scenario_row;
     Frame.date := Frame.date scenario_row;
     Frame.time := Frame.time scenario_row;
     Frame.ip := Frame.ip scenario_row;
     Frame.method := Frame.method scenario_row;
     Frame.path := Frame.path scenario_row;
     Frame.version := Frame.version scenario_row;
     Frame.status_code := Frame.status_code scenario_row;
     Frame.size := Frame.size scenario_row;
     Frame.referer := Frame.referer scenario_row;
     Frame.user_agent := Some "Mozilla/5.0 (compatible; Googlebot/2.1)";
     Frame.raw_line := Frame.raw_line scenario_row |}.

(** The rows of a table that carry a session identifier, in the order of
    the table, and what [agg] computes from the rows of one group: for
    the first row the aggregate of [Sessions.agg_first], updated by each
    of the following rows. *)
Definition session_rows (sid : string) (rows : list Frame.SessionRow)
  : list Frame.SessionRow :=
  List.filter (fun s => String.eqb (Frame.session_id s) sid) rows.

Definition agg_of (group : list Frame.SessionRow) : option Sessions.Agg :=
  match group with
  | [] => None
  | s0 :: rest =>
      Some (fold_left (fun a r => Sessions.agg_next r a) rest
                      (Sessions.agg_first s0))
  end.

(** The number of rows of a table that start a session. *)
Definition session_starts (rows : list Frame.SessionRow) : Z :=
  Z.of_nat (length (List.filter Frame.new_session rows)).

(** The instant of a row of a table with sessions. *)
Definition instant_of (s : Frame.SessionRow) : Z :=
  Frame.timestamp (Frame.row s).

(** The rows of a frame, without the session columns. *)
Definition rows_of_frame (df : Frame.DataFrame) : list Frame.Row :=
  match df with
  | Frame.Empty => []
  | Frame.Table rows => rows
  | Frame.SessionTable rows => map Frame.row rows
  end.

(** ** [get_log_stats] *)

Module Stats.

Import PyTime.

(** The dictionary [get_log_stats] returns when it is not empty.  The
    mean is the exact quotient whose floating-point rounding the program
    stores. *)
Record LogStats := {
  total_requests : Z;
  unique_ips : Z;
  date_range : pydate * pydate;
  status_codes : gmap Z Z;
  methods : gmap string Z;
  total_size : Z;
  avg_size : Q;
  errors : Z
}.

(** One more occurrence of [k] in the counts [m]. *)
Definition count_into `{Countable K} (m : gmap K Z) (k : K) : gmap K Z :=
  <[k := match m !! k with Some n => n + 1 | None => 1 end]> m.

(** [column.value_counts().to_dict()]: how often every value of the
    column occurs; missing values are not counted.  [init] holds the
    entries that are there before any value is counted: none for a plain
    column, a zero for every category of a categorical one. *)
Definition value_counts `{Countable K} (init : gmap K Z) (column : list K)
  : gmap K Z :=
  fold_left count_into column init.

(** The zero counts of the categories of a categorical column. *)
Definition zero_counts (categories : list string) : gmap string Z :=
  fold_left (fun m c => <[c := 0]> m) categories ∅.

(** The order of [date] objects. *)
Definition date_le (a b : pydate) : bool :=
  match Sessions.date_compare a b with
  | Gt => false
  | _ => true
  end.

(** [column.min()] and [column.max()] of a column of dates that is not
    empty. *)
Definition min_date (d0 : pydate) (ds : list pydate) : pydate :=
  fold_left (fun m d => if date_le m d then m else d) ds d0.

Definition max_date (d0 : pydate) (ds : list pydate) : pydate :=
  fold_left (fun m d => if date_le d m then m else d) ds d0.

(** The values of a column that are not missing. *)
Definition present {A} (column : list (option A)) : list A :=
  omap (fun x => x) column.

(** [get_log_stats]; [None] is the empty dictionary.  A frame does not
    tell which categories its column [method] has beside the methods of
    its rows (a frame cut out of another keeps the categories of that
    one): they are the parameter [method_categories], empty for a column
    that is not categorical and for a frame as [crear_dataframe] returns
    it. *)
Definition get_log_stats (method_categories : list string)
           (df : Frame.DataFrame) : option LogStats :=
  if Frame.empty df then None
  else
    match rows_of_frame df with
    | [] => None
    | r0 :: rest =>
        let rows := r0 :: rest in
        Some
          {| total_requests := Z.of_nat (length rows);
             unique_ips := Z.of_nat (length (remove_dups (map Frame.ip rows)));
             date_range :=
               (min_date (Frame.date r0) (map Frame.date rest),
                max_date (Frame.date r0) (map Frame.date rest));
             status_codes := value_counts ∅ (map Frame.status_code rows);
             methods :=
               value_counts (zero_counts method_categories)
                            (present (map Frame.method rows));
             total_size := Sessions.sum_Z (map Frame.size rows);
             avg_size :=
               Qdiv (inject_Z (Sessions.sum_Z (map Frame.size rows)))
                    (inject_Z (Z.of_nat (length rows)));
             errors :=
               Z.of_nat
                 (length (List.filter
                            (fun r => Z.leb 400 (Frame.status_code r))
                            rows)) |}
    end.

End Stats.

(** How often a value occurs in a column. *)
Definition occurrences `{EqDecision K} (k : K) (column : list K) : Z :=
  Z.of_nat (length (List.filter (fun x => bool_decide (x = k)) column)).

(** The order of dates, spelled out. *)
Definition date_before (a b : PyTime.pydate) : Prop :=
  PyTime.d_year a < PyTime.d_year b
  \/ (PyTime.d_year a = PyTime.d_year b
      /\ (PyTime.d_month a < PyTime.d_month b
          \/ (PyTime.d_month a = PyTime.d_month b
              /\ PyTime.d_day a <= PyTime.d_day b))).

(** ** [comparar_periodos] of [streamlit_app.py]

    The dates of the rows and of the periods are compared as dates (they
    are taken within the range of pandas' time stamps); a percentage is
    the exact quotient whose floating-point rounding the program
    stores. *)

Module Compare.

Import PyTime.

Record Period := {
  inicio : pydate;
  fin : pydate;
  requests : Z;
  ips : Z;
  errors : Z;
  size : Z;
  stats : option Stats.LogStats;
  bots_filtrados : Z;
  sessions_stats : option Sessions.SessionStats
}.

Record Change := {
  absoluta : Z;
  porcentual : Q
}.

Record Differences := {
  requests_change : Change;
  ips_change : Change;
  errors_change : Change;
  size_change : Change
}.

Record Configuration := {
  exclude_bots : bool;
  use_sessions : bool;
  session_timeout : Z
}.

Record Comparison := {
  periodo1 : Period;
  periodo2 : Period;
  diferencias : Differences;
  dataframes : Frame.DataFrame * Frame.DataFrame;
  configuracion : Configuration
}.

Definition in_period (inicio fin d : pydate) : bool :=
  (Stats.date_le inicio d && Stats.date_le d fin)%bool.

(** The rows of a frame with a date in a period; [None] is the KeyError
    of a frame without columns. *)
Definition between_dates (df : Frame.DataFrame) (inicio fin : pydate)
  : option Frame.DataFrame :=
  match df with
  | Frame.Empty => None
  | Frame.Table rows =>
      Some (Frame.Table
              (List.filter (fun r => in_period inicio fin (Frame.date r))
                           rows))
  | Frame.SessionTable rows =>
      Some (Frame.SessionTable
              (List.filter
                 (fun r => in_period inicio fin (Frame.date (Frame.row r)))
                 rows))
  end.

(** [stats.get(key, 0)] *)
Definition stat_or_zero {A} (field : A -> Z) (stats : option A) : Z :=
  match stats with
  | Some s => field s
  | None => 0
  end.

(** The difference of two values and the change in percent of the
    first. *)
Definition change (v1 v2 : Z) : Change :=
  {| absoluta := v2 - v1;
     porcentual :=
       if Z.ltb 0 v1
       then (inject_Z (v2 - v1) / inject_Z v1 * inject_Z 100)%Q
       else inject_Z 0 |}.

(** [comparar_periodos]; [method_categories] are the categories of the
    column [method] of [df], which the frames of the periods keep. *)
Definition comparar_periodos (method_categories : list string)
           (df : Frame.DataFrame)
           (fecha1_inicio fecha1_fin fecha2_inicio fecha2_fin : pydate)
           (exclude_bots use_sessions : bool) (session_timeout : Z)
  : option Comparison :=
  match between_dates df fecha1_inicio fecha1_fin,
        between_dates df fecha2_inicio fecha2_fin with
  | Some df_periodo1, Some df_periodo2 =>
      let '(df_periodo1, bots_filtrados_p1) :=
        if exclude_bots then Frame.filter_bots df_periodo1 true
        else (df_periodo1, 0) in
      let '(df_periodo2, bots_filtrados_p2) :=
        if exclude_bots then Frame.filter_bots df_periodo2 true
        else (df_periodo2, 0) in
      let df_periodo1 :=
        if use_sessions
        then Frame.create_sessions df_periodo1 session_timeout
        else df_periodo1 in
      let df_periodo2 :=
        if use_sessions
        then Frame.create_sessions df_periodo2 session_timeout
        else df_periodo2 in
      let sessions_stats1 :=
        if use_sessions then Sessions.get_session_stats df_periodo1
        else None in
      let sessions_stats2 :=
        if use_sessions then Sessions.get_session_stats df_periodo2
        else None in
      let stats1 := Stats.get_log_stats method_categories df_periodo1 in
      let stats2 := Stats.get_log_stats method_categories df_periodo2 in
      let '(requests1, requests2, ips1, ips2) :=
        match use_sessions, sessions_stats1, sessions_stats2 with
        | true, Some s1, Some s2 =>
            (Sessions.total_sessions s1, Sessions.total_sessions s2,
             Sessions.unique_users s1, Sessions.unique_users s2)
        | _, _, _ =>
            (stat_or_zero Stats.total_requests stats1,
             stat_or_zero Stats.total_requests stats2,
             stat_or_zero Stats.unique_ips stats1,
             stat_or_zero Stats.unique_ips stats2)
        end in
      let errors1 := stat_or_zero Stats.errors stats1 in
      let errors2 := stat_or_zero Stats.errors stats2 in
      let size1 := stat_or_zero Stats.total_size stats1 in
      let size2 := stat_or_zero Stats.total_size stats2 in
      Some
        {| periodo1 :=
             {| inicio := fecha1_inicio; fin := fecha1_fin;
                requests := requests1; ips := ips1;
                errors := errors1; size := size1; stats := stats1;
                bots_filtrados := bots_filtrados_p1;
                sessions_stats := sessions_stats1 |};
           periodo2 :=
             {| inicio := fecha2_inicio; fin := fecha2_fin;
                requests := requests2; ips := ips2;
                errors := errors2; size := size2; stats := stats2;
                bots_filtrados := bots_filtrados_p2;
                sessions_stats := sessions_stats2 |};
           diferencias :=
             {| requests_change := change requests1 requests2;
                ips_change := change ips1 ips2;
                errors_change := change errors1 errors2;
                size_change := change size1 size2 |};
           dataframes := (df_periodo1, df_periodo2);
           configuracion :=
             {| exclude_bots := exclude_bots;
                use_sessions := use_sessions;
                session_timeout := session_timeout |} |}
  | _, _ => None
  end.

End Compare.

(** The rows of a frame with a date in a period, and the rows of a list
    that no bot sent. *)
Definition period_rows (df : Frame.DataFrame)
           (inicio fin : PyTime.pydate) : list Frame.Row :=
  List.filter (fun r => Compare.in_period inicio fin (Frame.date r))
              (rows_of_frame df).

Definition without_bots (rows : list Frame.Row) : list Frame.Row :=
  List.filter (fun r => negb (Frame.is_bot_user_agent (Frame.user_agent r)))
              rows.

(** What one side of [comparar_periodos] is computed from: the frame of
    the period after the bot filter and the session builder, and the
    number of rows the filter removed. *)
Definition period_frame (df : Frame.DataFrame) (inicio fin : PyTime.pydate)
           (exclude_bots use_sessions : bool) (session_timeout : Z)
  : option (Frame.DataFrame * Z) :=
  match Compare.between_dates df inicio fin with
  | Some p =>
      let '(p, bots) :=
        if exclude_bots then Frame.filter_bots p true else (p, 0) in
      Some (if use_sessions then Frame.create_sessions p session_timeout
            else p, bots)
  | None => None
  end.

(** ** [crear_dataframe_sample] *)

Module Sample.

Import PyTime.

(** What a call ends with: an exception that leaves the function, the
    pair it returns, or a run outside of what is modelled (records that
    do not fit the tables, see [Ingest.row_of], or sizes beyond the
    integers that a float holds exactly). *)
Inductive Outcome :=
| Raises
| Returns (df : Frame.DataFrame) (errores : Z)
| Unmodelled.

Definition outcome_of (r : option (Frame.DataFrame * Z)) : Outcome :=
  match r with
  | Some (df, errores) => Returns df errores
  | None => Unmodelled
  end.

(** What the first block reads of the file: an exception, or the size of
    the file in bytes and the number of line ends among its first 100000
    characters. *)
Inductive Probe :=
| ProbeFails
| Probed (file_size lines_in_sample : Z).

(** The float of an integer that a float holds exactly. *)
Definition float_of_int (z : Z) : option PrimFloat.float :=
  if (Z.leb 0 z && Z.ltb z (2 ^ 53))%bool
  then Some (PrimFloat.of_uint63 (Uint63.of_Z z))
  else None.

(** [int(x)] for a float: the integer part; [None] is the exception for
    an infinity or a NaN. *)
Definition int_of_float (x : PrimFloat.float) : option Z :=
  match FloatOps.Prim2SF x with
  | SpecFloat.S754_zero _ => Some 0
  | SpecFloat.S754_finite s m e =>
      let v := if Z.leb 0 e then Z.pos m * 2 ^ e
               else Z.pos m / 2 ^ (- e) in
      Some (if s then - v else v)
  | _ => None
  end.

(** [int((file_size / 100000) * lines_in_sample)], in the arithmetic of
    floats; the outer [None] marks sizes that are not modelled. *)
Definition estimate (file_size lines_in_sample : Z) : option (option Z) :=
  match float_of_int file_size, float_of_int 100000,
        float_of_int lines_in_sample with
  | Some size, Some block, Some n =>
      Some (int_of_float (PrimFloat.mul (PrimFloat.div size block) n))
  | _, _, _ => None
  end.

(** The estimate of the number of lines of the file. *)
Definition total_lines (file_size lines_in_sample : Z)
  : option (option Z) :=
  if Z.ltb 0 lines_in_sample then estimate file_size lines_in_sample
  else Some (Some 100000).

(** The loop over the lines of the second block: the records and the
    errors of the lines whose number is in the sample, and whether the
    loop was left by an exception of the read. *)
Fixpoint sample_loop (clock : Z -> datetime) (sample_set : list Z)
         (line_num : Z) (lines : list string) (read_fails : bool)
         (datos : list Log.LogRecord) (errores : Z)
  : list Log.LogRecord * Z * bool :=
  match lines with
  | [] => (datos, errores, read_fails)
  | line :: rest =>
      if bool_decide (line_num ∈ sample_set) then
        match Log.parse_log_to_dict (clock line_num) line with
        | Some parsed =>
            sample_loop clock sample_set (line_num + 1) rest read_fails
                        (datos ++ [parsed]) errores
        | None =>
            sample_loop clock sample_set (line_num + 1) rest read_fails
                        datos (errores + 1)
        end
      else sample_loop clock sample_set (line_num + 1) rest read_fails
                       datos errores
  end.

(** [crear_dataframe_sample].  [probe] is what the first block reads of
    the file, and [sample_lines] the numbers that [random.sample] draws
    (as many as [sample_size], all different, from the numbers below the
    estimate).  An exception before [errores] is set is caught by the
    [except] of the function, whose [return] then fails on the unbound
    [errores]: it leaves the function. *)
Definition crear_dataframe_sample (clock : Z -> datetime)
           (archivo_log : Ingest.LogFile) (probe : Probe)
           (sample_lines : list Z) (sample_size : Z) : Outcome :=
  match archivo_log, probe with
  | Ingest.Unreadable, _ => Raises
  | Ingest.Readable _ _, ProbeFails => Raises
  | Ingest.Readable lines read_fails, Probed file_size lines_in_sample =>
      match total_lines file_size lines_in_sample with
      | None => Unmodelled
      | Some None => Raises
      | Some (Some total_lines) =>
          if Z.leb total_lines sample_size then
            outcome_of (Ingest.crear_dataframe clock archivo_log
                                               (Some total_lines) 10000)
          else if Z.ltb sample_size 0 then Raises
          else
            let '(datos, errores, raised) :=
              sample_loop clock sample_lines 0 lines read_fails [] 0 in
            if raised then Returns Frame.Empty errores
            else
              match datos with
              | [] => Returns Frame.Empty errores
              | _ =>
                  match Ingest.to_datetime (map Log.timestamp datos) with
                  | None => Returns Frame.Empty errores
                  | Some ts =>
                      match Ingest.rows_of ts datos with
                      | Some rows => Returns (Frame.Table rows) errores
                      | None => Unmodelled
                      end
                  end
              end
      end
  end.

End Sample.

(** The lines of a file whose number is in a sample, with their numbers;
    [n] is the number of the first line. *)
Fixpoint sampled (sample_set : list Z) (n : Z) (lines : list string)
  : list (Z * string) :=
  match lines with
  | [] => []
  | line :: rest =>
      if bool_decide (n ∈ sample_set)
      then (n, line) :: sampled sample_set (n + 1) rest
      else sampled sample_set (n + 1) rest
  end.

(** The records of numbered lines, and the number of those that do not
    parse. *)
Definition records_of (clock : Z -> PyTime.datetime)
           (numbered : list (Z * string)) : list Log.LogRecord :=
  omap (fun '(n, line) => Log.parse_log_to_dict (clock n) line) numbered.

Definition failures_of (clock : Z -> PyTime.datetime)
           (numbered : list (Z * string)) : Z :=
  Z.of_nat
    (length
       (List.filter
          (fun '(n, line) =>
             match Log.parse_log_to_dict (clock n) line with
             | Some _ => false
             | None => true
             end)
          numbered)).

(** * Properties *)

(** ** The fuel of the JSON scanner *)

Section JsonFuel.

Import Json.
Local Open Scope nat_scope.

Lemma skip_ws_length s : String.length (skip_ws s) <= String.length s.
Proof.
  induction s as [|c r IH]; simpl; [lia|].
  destruct (is_ws c); simpl; lia.
Qed.

Lemma after_length c s r :
  after c s = Some r -> String.length s = S (String.length r).
Proof.
  destruct s as [|x t]; simpl; [discriminate|].
  destruct (Ascii.eqb x c); [|discriminate]. intros [= <-]. reflexivity.
Qed.

Lemma cons_char_Some c o t r :
  cons_char c o = Some (t, r) -> exists t', o = Some (t', r).
Proof.
  unfold cons_char. destruct o as [[t' r']|]; [|discriminate].
  intros [= <- <-]. eauto.
Qed.

Lemma scanstring_length_bounded n : forall s t r,
  String.length s <= n ->
  scanstring s = Some (t, r) -> String.length r < String.length s.
Proof.
  induction n as [|n IH]; intros s t r Hn.
  - destruct s; [discriminate|simpl in Hn; lia].
  - destruct s as [|c s1]; simpl; [discriminate|]. simpl in Hn.
    destruct (Ascii.eqb c PyStr.dquote).
    + intros [= <- <-]. lia.
    + destruct (Ascii.eqb c "\").
      * destruct s1 as [|e s2]; [discriminate|].
        destruct (Ascii.eqb e "u").
        -- destruct s2 as [|h1 [|h2 [|h3 [|h4 s3]]]]; try discriminate.
           destruct (hex4 h1 h2 h3 h4) as [k|]; [|discriminate].
           destruct (N.ltb k 256); [|discriminate].
           intros H. apply cons_char_Some in H as (t' & H).
           apply IH in H; simpl in *; lia.
        -- destruct (unescape e); [|discriminate].
           intros H. apply cons_char_Some in H as (t' & H).
           apply IH in H; simpl in *; lia.
      * destruct (N.ltb (PyStr.code c) 32); [discriminate|].
        intros H. apply cons_char_Some in H as (t' & H).
        apply IH in H; simpl in *; lia.
Qed.

Lemma scanstring_length s t r :
  scanstring s = Some (t, r) -> String.length r < String.length s.
Proof. apply (scanstring_length_bounded (String.length s)). lia. Qed.

Lemma span_digits_length s : forall d r,
  span_digits s = (d, r) -> String.length r <= String.length s.
Proof.
  induction s as [|c s1 IH]; simpl; intros d r.
  - intros [= <- <-]. simpl. lia.
  - destruct (PyStr.is_decimal c).
    + destruct (span_digits s1) as [d1 r1] eqn:E. intros [= <- <-].
      specialize (IH _ _ eq_refl). lia.
    + intros [= <- <-]. simpl. lia.
Qed.

Lemma scan_int_length s i r :
  scan_int s = Some (i, r) -> String.length r < String.length s.
Proof.
  unfold scan_int.
  destruct (after "-" s) as [s0|] eqn:Ea.
  - apply after_length in Ea.
    destruct s0 as [|c r0]; [discriminate|].
    destruct (Ascii.eqb c "0"); [intros [= <- <-]; simpl in *; lia|].
    destruct (PyStr.is_decimal c); [|discriminate].
    destruct (span_digits (String c r0)) as [d t] eqn:E.
    intros [= <- <-]. apply span_digits_length in E. lia.
  - destruct s as [|c r0]; [discriminate|].
    destruct (Ascii.eqb c "0"); [intros [= <- <-]; simpl in *; lia|].
    destruct (PyStr.is_decimal c) eqn:Ec; [|discriminate].
    destruct (span_digits (String c r0)) as [d t] eqn:E.
    intros [= <- <-]. simpl in E. rewrite Ec in E.
    destruct (span_digits r0) as [d1 r1] eqn:E1. injection E as <- <-.
    apply span_digits_length in E1. simpl. lia.
Qed.

Lemma scan_frac_length s f r :
  scan_frac s = (f, r) -> String.length r <= String.length s.
Proof.
  unfold scan_frac. destruct (after "." s) as [s0|] eqn:Ea.
  - apply after_length in Ea.
    destruct (span_digits s0) as [d t] eqn:E.
    apply span_digits_length in E.
    destruct d; intros [= <- <-]; lia.
  - intros [= <- <-]. lia.
Qed.

Lemma scan_exp_length s e r :
  scan_exp s = (e, r) -> String.length r <= String.length s.
Proof.
  unfold scan_exp. destruct s as [|c s0]; [intros [= <- <-]; lia|].
  destruct (Ascii.eqb c "e" || Ascii.eqb c "E")%bool;
    [|intros [= <- <-]; lia].
  destruct s0 as [|x s1].
  - simpl. intros [= <- <-]. simpl. lia.
  - destruct (Ascii.eqb x "-" || Ascii.eqb x "+")%bool.
    + destruct (span_digits s1) as [d t] eqn:E.
      apply span_digits_length in E.
      destruct d; intros [= <- <-]; simpl; lia.
    + destruct (span_digits (String x s1)) as [d t] eqn:E.
      apply span_digits_length in E.
      destruct d; intros [= <- <-]; simpl in *; lia.
Qed.

Lemma scan_number_length s v r :
  scan_number s = Some (v, r) -> String.length r < String.length s.
Proof.
  unfold scan_number.
  destruct (scan_int s) as [[i s1]|] eqn:Ei; [|discriminate].
  apply scan_int_length in Ei.
  destruct (scan_frac s1) as [f s2] eqn:Ef. apply scan_frac_length in Ef.
  destruct (scan_exp s2) as [e s3] eqn:Ee. apply scan_exp_length in Ee.
  destruct (PyStr.is_empty f && PyStr.is_empty e)%bool;
    intros [= <- <-]; lia.
Qed.

Lemma drop_prefix_length p : forall s r,
  drop_prefix p s = Some r ->
  String.length s = String.length p + String.length r.
Proof.
  induction p as [|a p IH]; intros s r; simpl.
  - intros [= <-]. reflexivity.
  - destruct s as [|b s']; [discriminate|].
    destruct (Ascii.eqb a b); [|discriminate].
    intros H. apply IH in H. simpl. lia.
Qed.

Lemma scan_constant_length s v r :
  scan_constant s = Some (v, r) -> String.length r < String.length s.
Proof.
  unfold scan_constant.
  repeat match goal with
         | |- context [drop_prefix ?p s] =>
             let E := fresh "E" in
             destruct (drop_prefix p s) eqn:E;
             [apply drop_prefix_length in E; simpl in E;
              intros [= <- <-]; lia|]
         end.
  apply scan_number_length.
Qed.

(** What a scanner returns with some fuel, it returns with any fuel that
    is at least the number of characters it reads. *)
Lemma scanner_fuel fuel :
  (forall s v r,
      scan_once fuel s = Some (v, r) ->
      String.length r < String.length s
      /\ forall fuel', String.length s - String.length r <= fuel' ->
                       scan_once fuel' s = Some (v, r))
  /\ (forall acc s v r,
         members fuel acc s = Some (v, r) ->
         String.length r < String.length s
         /\ forall fuel', String.length s - String.length r <= fuel' ->
                          members fuel' acc s = Some (v, r))
  /\ (forall acc s v r,
         elements fuel acc s = Some (v, r) ->
         String.length r < String.length s
         /\ forall fuel', String.length s - String.length r <= fuel' ->
                          elements fuel' acc s = Some (v, r)).
Proof.
  induction fuel as [|f (IHs & IHm & IHe)];
    [repeat split; intros; discriminate|].
  split; [|split].
  - intros s v r. cbn [scan_once].
    destruct s as [|c s0]; [discriminate|].
    destruct (Ascii.eqb c PyStr.dquote) eqn:Eq.
    { destruct (scanstring s0) as [[t r1]|] eqn:Es; [|discriminate].
      intros [= <- <-]. pose proof (scanstring_length _ _ _ Es) as Hlen.
      split; [simpl; lia|]. intros [|f'] Hf; [simpl in Hf; lia|].
      cbn [scan_once]. rewrite Eq, Es. reflexivity. }
    destruct (Ascii.eqb c "{") eqn:Eo.
    { pose proof (skip_ws_length s0) as Hws.
      destruct (after "}" (skip_ws s0)) as [r1|] eqn:Ea.
      - intros [= <- <-]. pose proof (after_length _ _ _ Ea) as Hlen.
        split; [simpl; lia|]. intros [|f'] Hf; [simpl in Hf; lia|].
        cbn [scan_once]. rewrite Eq, Eo, Ea. reflexivity.
      - intros H. apply IHm in H as [Hlen Hfuel].
        split; [simpl; lia|]. intros [|f'] Hf; [simpl in Hf; lia|].
        cbn [scan_once]. rewrite Eq, Eo, Ea. apply Hfuel. simpl in Hf. lia. }
    destruct (Ascii.eqb c "[") eqn:Eb.
    { pose proof (skip_ws_length s0) as Hws.
      destruct (after "]" (skip_ws s0)) as [r1|] eqn:Ea.
      - intros [= <- <-]. pose proof (after_length _ _ _ Ea) as Hlen.
        split; [simpl; lia|]. intros [|f'] Hf; [simpl in Hf; lia|].
        cbn [scan_once]. rewrite Eq, Eo, Eb, Ea. reflexivity.
      - intros H. apply IHe in H as [Hlen Hfuel].
        split; [simpl; lia|]. intros [|f'] Hf; [simpl in Hf; lia|].
        cbn [scan_once]. rewrite Eq, Eo, Eb, Ea. apply Hfuel. simpl in Hf. lia. }
    intros H. pose proof (scan_constant_length _ _ _ H) as Hlen.
    split; [exact Hlen|]. intros [|f'] Hf; [lia|].
    cbn [scan_once]. rewrite Eq, Eo, Eb. exact H.
  - intros acc s v r. cbn [members].
    destruct (after PyStr.dquote s) as [s0|] eqn:E0; [|discriminate].
    destruct (scanstring s0) as [[key r1]|] eqn:E1; [|discriminate].
    destruct (after ":" (skip_ws r1)) as [r2|] eqn:E2; [|discriminate].
    destruct (scan_once f (skip_ws r2)) as [[v0 r3]|] eqn:E3; [|discriminate].
    pose proof (after_length _ _ _ E0) as H0.
    pose proof (scanstring_length _ _ _ E1) as H1.
    pose proof (after_length _ _ _ E2) as H2.
    pose proof (skip_ws_length r1) as W1.
    pose proof (skip_ws_length r2) as W2.
    pose proof (skip_ws_length r3) as W3.
    apply IHs in E3 as [H3 F3].
    destruct (after "}" (skip_ws r3)) as [r4|] eqn:E4.
    + intros [= <- <-]. pose proof (after_length _ _ _ E4) as H4.
      split; [lia|]. intros [|f'] Hf; [lia|].
      cbn [members]. rewrite E0, E1, E2, F3 by lia. rewrite E4. reflexivity.
    + destruct (after "," (skip_ws r3)) as [r4|] eqn:E5; [|discriminate].
      pose proof (after_length _ _ _ E5) as H5.
      pose proof (skip_ws_length r4) as W4.
      intros H. apply IHm in H as [H6 F6].
      split; [lia|]. intros [|f'] Hf; [lia|].
      cbn [members]. rewrite E0, E1, E2, F3 by lia. rewrite E4, E5.
      apply F6. lia.
  - intros acc s v r. cbn [elements].
    destruct (scan_once f s) as [[v0 r1]|] eqn:E1; [|discriminate].
    apply IHs in E1 as [H1 F1].
    pose proof (skip_ws_length r1) as W1.
    destruct (after "]" (skip_ws r1)) as [r2|] eqn:E2.
    + intros [= <- <-]. pose proof (after_length _ _ _ E2) as H2.
      split; [lia|]. intros [|f'] Hf; [lia|].
      cbn [elements]. rewrite F1 by lia. rewrite E2. reflexivity.
    + destruct (after "," (skip_ws r1)) as [r2|] eqn:E3; [|discriminate].
      pose proof (after_length _ _ _ E3) as H3.
      pose proof (skip_ws_length r2) as W2.
      intros H. apply IHe in H as [H4 F4].
      split; [lia|]. intros [|f'] Hf; [lia|].
      cbn [elements]. rewrite F1 by lia. rewrite E2, E3.
      apply F4. lia.
Qed.

(** The fuel that [loads] gives is enough: whatever the scanner decodes
    with any fuel, it decodes with that of [loads]. *)
Lemma loads_fuel_suffices fuel s v r :
  scan_once fuel (skip_ws s) = Some (v, r) ->
  scan_once (S (String.length s)) (skip_ws s) = Some (v, r).
Proof.
  intros H. destruct (scanner_fuel fuel) as (Hs & _ & _).
  apply Hs in H as [Hlen Hfuel]. apply Hfuel.
  pose proof (skip_ws_length s). lia.
Qed.

End JsonFuel.

(** ** The bot filter *)

(** C8: with [exclude_bots=False], [filter_bots] returns the very table it
    was given (same rows, same order, same cells) and a removed count
    of 0. *)
Theorem filter_bots_disabled_is_identity :
  forall df : Frame.DataFrame, Frame.filter_bots df false = (df, 0).
Proof. intros df. reflexivity. Qed.

(** The bot classifier on the two user agents of the specification, on a
    missing user agent and on a dash. *)
Lemma filter_bots_enabled_example :
  Frame.is_bot_user_agent (Some "Mozilla/5.0 (compatible; Googlebot/2.1)")
  = true
  /\ Frame.is_bot_user_agent
       (Some "Mozilla/5.0 (Windows NT 10.0; Win64; x64)") = false
  /\ Frame.is_bot_user_agent None = false
  /\ Frame.is_bot_user_agent (Some "-") = false.
Proof. repeat split; vm_compute; reflexivity. Qed.

(** ** The ingestion loop *)

Section IngestLoop.

Import Ingest.

Variable clock : Z -> PyTime.datetime.
Variable chunk_size : Z.

Lemma process_line_counts now line st :
  lineas_procesadas (process_line now chunk_size line st)
  = lineas_procesadas st + 1.
Proof.
  unfold process_line.
  destruct (Log.parse_log_to_dict now line); simpl;
    repeat match goal with |- context [if ?b then _ else _] => destruct b end;
    reflexivity.
Qed.

Lemma process_line_records now line st :
  datos (process_line now chunk_size line st)
  ++ chunk_datos (process_line now chunk_size line st)
  = (datos st ++ chunk_datos st)
    ++ match Log.parse_log_to_dict now line with
       | Some r => [r]
       | None => []
       end.
Proof.
  unfold process_line.
  destruct (Log.parse_log_to_dict now line); simpl;
    repeat match goal with |- context [if ?b then _ else _] => destruct b end;
    simpl; rewrite ?app_nil_r, ?app_assoc; reflexivity.
Qed.

Lemma process_line_errors now line st :
  errores (process_line now chunk_size line st)
  = errores st + match Log.parse_log_to_dict now line with
                 | Some _ => 0
                 | None => 1
                 end.
Proof.
  unfold process_line.
  destruct (Log.parse_log_to_dict now line); simpl;
    repeat match goal with |- context [if ?b then _ else _] => destruct b end;
    simpl; lia.
Qed.

(** A limit of 0 is no limit. *)
Lemma read_loop_zero_limit lines : forall n read_fails st,
  read_loop clock (Some 0) chunk_size n lines read_fails st
  = read_loop clock None chunk_size n lines read_fails st.
Proof.
  induction lines as [|line rest IH]; intros n read_fails st; simpl.
  - reflexivity.
  - apply IH.
Qed.

(** Without a limit the loop reads every line. *)
Lemma read_loop_unlimited lines : forall n read_fails st,
  let st' := fst (read_loop clock None chunk_size n lines read_fails st) in
  snd (read_loop clock None chunk_size n lines read_fails st) = read_fails
  /\ lineas_procesadas st' = lineas_procesadas st + Z.of_nat (length lines)
  /\ datos st' ++ chunk_datos st'
     = (datos st ++ chunk_datos st) ++ parsed_lines clock n lines
  /\ errores st' = errores st + failed_lines clock n lines.
Proof.
  induction lines as [|line rest IH]; intros n read_fails st; simpl.
  - rewrite app_nil_r. repeat split; lia.
  - specialize (IH (n + 1) read_fails
                   (process_line (clock n) chunk_size line st)).
    simpl in IH. destruct IH as (Hr & Hp & Hd & He).
    rewrite Hr, Hp, Hd, He.
    rewrite process_line_counts, process_line_records, process_line_errors.
    destruct (Log.parse_log_to_dict (clock n) line); simpl;
      rewrite <- ?app_assoc; simpl; repeat split; lia.
Qed.

(** With a positive limit [p] the loop stops at line number [p]. *)
Lemma read_loop_limited p lines : forall n read_fails st,
  0 <= n ->
  lineas_procesadas
    (fst (read_loop clock (Some (Z.pos p)) chunk_size n lines read_fails st))
  = lineas_procesadas st
    + Z.min (Z.max (Z.pos p - n) 0) (Z.of_nat (length lines)).
Proof.
  induction lines as [|line rest IH]; intros n read_fails st Hn.
  - simpl. lia.
  - cbn [read_loop limit_reached].
    replace (Z.pos p =? 0) with false by reflexivity.
    cbn [negb andb].
    destruct (Z.leb_spec (Z.pos p) n) as [Hle|Hlt].
    + simpl. lia.
    + rewrite IH by lia. rewrite process_line_counts.
      change (length (line :: rest)) with (S (length rest)). lia.
Qed.

End IngestLoop.

(** C10: a [max_lines] of 0 behaves like [None]: the loop reads every line
    (all are counted, parsed and accumulated) and the function returns what
    it returns without a limit; a positive limit [p] stops the loop after
    [p] lines. *)
Theorem max_lines_zero_reads_every_line :
  forall (clock : Z -> PyTime.datetime) (chunk_size : Z)
         (lines : list string) (read_fails : bool),
    let run := Ingest.read_loop clock (Some 0) chunk_size 0 lines read_fails
                                Ingest.initial in
    run = Ingest.read_loop clock None chunk_size 0 lines read_fails
                           Ingest.initial
    /\ Ingest.lineas_procesadas (fst run) = Z.of_nat (length lines)
    /\ Ingest.datos (fst run) ++ Ingest.chunk_datos (fst run)
       = parsed_lines clock 0 lines
    /\ Ingest.errores (fst run) = failed_lines clock 0 lines
    /\ Ingest.crear_dataframe clock (Ingest.Readable lines read_fails)
                              (Some 0) chunk_size
       = Ingest.crear_dataframe clock (Ingest.Readable lines read_fails)
                                None chunk_size
    /\ Ingest.crear_dataframe clock Ingest.Unreadable (Some 0) chunk_size
       = Ingest.crear_dataframe clock Ingest.Unreadable None chunk_size
    /\ forall p : positive,
        Ingest.lineas_procesadas
          (fst (Ingest.read_loop clock (Some (Z.pos p)) chunk_size 0 lines
                                 read_fails Ingest.initial))
        = Z.min (Z.pos p) (Z.of_nat (length lines)).
Proof.
  intros clock chunk_size lines read_fails run. subst run.
  rewrite read_loop_zero_limit.
  pose proof (read_loop_unlimited clock chunk_size lines 0 read_fails
                                  Ingest.initial) as H.
  simpl in H. destruct H as (_ & Hp & Hd & He).
  repeat split; try assumption.
  - unfold Ingest.crear_dataframe. rewrite read_loop_zero_limit. reflexivity.
  - intros p. rewrite read_loop_limited by lia. simpl. lia.
Qed.

(** C6, as stated, fails: a file that cannot be opened gives exactly the
    result of a successful run over an empty file, and a read that fails
    after one line that does not parse gives exactly the result of a
    successful run over that one line. *)
Lemma open_failure_looks_like_empty_file :
  Ingest.crear_dataframe example_clock Ingest.Unreadable None 10000
  = Ingest.crear_dataframe example_clock (Ingest.Readable [] false) None 10000
  /\ Ingest.crear_dataframe example_clock (Ingest.Readable ["junk"] true)
                            None 10000
     = Ingest.crear_dataframe example_clock (Ingest.Readable ["junk"] false)
                              None 10000.
Proof. split; vm_compute; reflexivity. Qed.

(** C6, amended: when the file cannot be opened the result is the frame
    without rows and columns and a count of 0; when a read fails the result
    is that frame and the errors counted up to the failure (without a
    limit: the number of lines read that did not parse).  The result of a
    failure to open is the one of a successful run over an empty file. *)
Theorem ingestion_failure_returns_empty_frame :
  forall (clock : Z -> PyTime.datetime) (max_lines : option Z)
         (chunk_size : Z),
    Ingest.crear_dataframe clock Ingest.Unreadable max_lines chunk_size
    = Some (Frame.Empty, 0)
    /\ (forall lines : list string,
          Ingest.crear_dataframe clock (Ingest.Readable lines true) None
                                 chunk_size
          = Some (Frame.Empty, failed_lines clock 0 lines))
    /\ (forall lines : list string,
          let run := Ingest.read_loop clock max_lines chunk_size 0 lines true
                                      Ingest.initial in
          snd run = true ->
          Ingest.crear_dataframe clock (Ingest.Readable lines true) max_lines
                                 chunk_size
          = Some (Frame.Empty, Ingest.errores (fst run)))
    /\ Ingest.crear_dataframe clock Ingest.Unreadable max_lines chunk_size
       = Ingest.crear_dataframe clock (Ingest.Readable [] false) max_lines
                                chunk_size.
Proof.
  intros clock max_lines chunk_size. repeat split.
  - intros lines. unfold Ingest.crear_dataframe.
    pose proof (read_loop_unlimited clock chunk_size lines 0 true
                                    Ingest.initial) as H.
    simpl in H. destruct H as (Hr & _ & _ & He).
    destruct (Ingest.read_loop clock None chunk_size 0 lines true
                               Ingest.initial) as [st raised].
    simpl in *. subst raised. rewrite He. reflexivity.
  - intros lines run Hrun. subst run. unfold Ingest.crear_dataframe.
    destruct (Ingest.read_loop clock max_lines chunk_size 0 lines true
                               Ingest.initial) as [st raised].
    simpl in *. subst raised. reflexivity.
Qed.

Lemma ingestion_failure_returns_empty_frame_witness :
  snd (Ingest.read_loop example_clock (Some 5) 10000 0 ["junk"; "more junk"]
                        true Ingest.initial) = true
  /\ Ingest.crear_dataframe example_clock
                            (Ingest.Readable ["junk"; "more junk"] true)
                            (Some 5) 10000
     = Some (Frame.Empty, 2).
Proof.
  split.
  - vm_compute. reflexivity.
  - destruct (ingestion_failure_returns_empty_frame example_clock (Some 5) 10000)
      as (_ & _ & H & _).
    rewrite (H ["junk"; "more junk"]).
    + vm_compute. reflexivity.
    + vm_compute. reflexivity.
Defined.

(** ** The Apache/Nginx parser *)

Section Patterns.

Import Re.

Lemma rep_no_groups p lo hi : forall s n acc m,
  In m (rep p lo hi n acc s) -> groups m = [].
Proof.
  induction s as [|c r IH]; intros n acc m; simpl.
  - destruct (Nat.leb lo n); simpl; [intros [<-|[]]; reflexivity | intros []].
  - destruct (p c && below n hi)%bool.
    + rewrite in_app_iff. intros [H|H]; [eapply IH; eassumption|].
      destruct (Nat.leb lo n); simpl in H;
        [destruct H as [<-|[]]; reflexivity | destruct H].
    + destruct (Nat.leb lo n); simpl;
        [intros [<-|[]]; reflexivity | intros []].
Qed.

(** Every match of a pattern with fixed groups has all its groups. *)
Lemma matches_group_count r : forall s m,
  groups_fixed r = true -> In m (matches r s) ->
  length (groups m) = group_count r.
Proof.
  induction r as [|p|p lo hi|r1 IH1 r2 IH2|r1 IH1 r2 IH2|r1 IH1|name r1 IH1];
    intros s m Hf Hin; simpl in *.
  - destruct Hin as [<-|[]]. reflexivity.
  - destruct s as [|c t]; [destruct Hin|].
    destruct (p c); [destruct Hin as [<-|[]]; reflexivity | destruct Hin].
  - apply rep_no_groups in Hin. rewrite Hin. reflexivity.
  - apply andb_prop in Hf as [Hf1 Hf2].
    apply in_concat in Hin as (l & Hl & Hm).
    apply in_map_iff in Hl as (m1 & <- & Hm1).
    apply in_map_iff in Hm as (m2 & <- & Hm2).
    simpl. rewrite length_app.
    rewrite (IH1 _ _ Hf1 Hm1), (IH2 _ _ Hf2 Hm2). reflexivity.
  - apply andb_prop in Hf as [Hf Hf2]. apply andb_prop in Hf as [Hf Hf1].
    apply andb_prop in Hf as [Hc1 Hc2].
    apply Nat.eqb_eq in Hc1, Hc2. rewrite Hc1, Hc2.
    apply in_app_iff in Hin as [Hin|Hin].
    + rewrite (IH1 _ _ Hf1 Hin). exact Hc1.
    + rewrite (IH2 _ _ Hf2 Hin). exact Hc2.
  - apply andb_prop in Hf as [Hc Hf]. apply Nat.eqb_eq in Hc.
    apply in_app_iff in Hin as [Hin|Hin].
    + apply (IH1 _ _ Hf Hin).
    + destruct Hin as [<-|[]]. simpl. symmetry. exact Hc.
  - apply in_map_iff in Hin as (m1 & <- & Hm1). simpl.
    f_equal. apply (IH1 _ _ Hf Hm1).
Qed.

Lemma re_match_In r s m : re_match r s = Some m -> In m (matches r s).
Proof.
  unfold re_match. destruct (matches r s); simpl; [discriminate|].
  intros [= <-]. left. reflexivity.
Qed.

End Patterns.

(** The patterns of the parser give five or seven groups. *)
Lemma match_groups_length s groups :
  Log.match_groups s = Some groups ->
  length groups = 7%nat \/ length groups = 5%nat.
Proof.
  unfold Log.match_groups.
  destruct (Re.re_match Log.pattern s) as [m|] eqn:E1.
  - intros [= <-]. left. rewrite length_map.
    apply re_match_In in E1.
    apply matches_group_count in E1; [exact E1 | reflexivity].
  - destruct (Re.re_match Log.simple_pattern s) as [m|] eqn:E2; [|discriminate].
    intros [= <-]. right. rewrite length_map.
    apply re_match_In in E2.
    apply matches_group_count in E2; [exact E2 | reflexivity].
Qed.

Lemma all_decimal_all_digit s :
  PyStr.all_chars PyStr.is_decimal s = true ->
  PyStr.all_chars PyStr.is_digit_char s = true.
Proof.
  induction s as [|c r IH]; cbn [PyStr.all_chars]; [reflexivity|].
  intros H. apply andb_prop in H as [Hc Hr].
  rewrite (IH Hr). unfold PyStr.is_digit_char. rewrite Hc. reflexivity.
Qed.

(** The conversion of the parser computes the integer the specification
    describes. *)
Lemma int_or_zero_spec s : Log.int_or_zero s = spec_numeric_field s.
Proof.
  unfold Log.int_or_zero, spec_numeric_field, PyStr.int_of_digits, PyStr.isdigit.
  destruct (negb (PyStr.is_empty s) && PyStr.all_chars PyStr.is_decimal s)%bool
    eqn:E.
  - apply andb_prop in E as [Hne Hd].
    rewrite Hne, (all_decimal_all_digit _ Hd).
    destruct (String.eqb_spec s "-") as [->|_]; [discriminate Hd|].
    reflexivity.
  - destruct (negb (s =? "-")%string
              && (negb (PyStr.is_empty s)
                  && PyStr.all_chars PyStr.is_digit_char s))%bool;
      reflexivity.
Qed.

Lemma item_or_nth groups i d :
  (i < length groups)%nat -> Log.item_or groups i d = nth i groups EmptyString.
Proof.
  intros H. unfold Log.item_or.
  destruct (Nat.ltb_spec i (length groups)) as [_|Hge]; [|lia].
  apply nth_indep. exact H.
Qed.

(** A line that matches is parsed as soon as its time stamp has a token. *)
Lemma apache_parse_succeeds now line groups :
  Log.match_groups (PyStr.strip line) = Some groups ->
  PyStr.split (nth 1 groups EmptyString) <> [] ->
  exists r, Log.parse_apache_log_line now line = Some r.
Proof.
  intros Hm Hts. unfold Log.parse_apache_log_line. rewrite Hm.
  destruct (match_groups_length _ _ Hm) as [Hl|Hl];
    (destruct groups as [|g0 [|g1 rest]]; simpl in Hl; try lia);
    simpl in *; unfold Log.apache_timestamp;
    (destruct (PyTime.strptime g1 "%d/%b/%Y:%H:%M:%S %z");
     [eexists; reflexivity|]);
    (destruct (PyStr.split g1) as [|first others]; [congruence|]);
    destruct (PyTime.strptime first "%d/%b/%Y:%H:%M:%S");
    eexists; reflexivity.
Qed.

(** *** The time stamp of an Apache line *)

Lemma split_acc_nonempty s : forall cur,
  cur <> [] -> PyStr.split_acc cur s <> [].
Proof.
  induction s as [|c r IH]; intros cur Hcur; simpl.
  - destruct cur; [contradiction|discriminate].
  - destruct (PyStr.is_space c).
    + destruct cur; [contradiction|discriminate].
    + apply IH. discriminate.
Qed.

Lemma split_nil_inv c r :
  PyStr.split (String c r) = [] ->
  PyStr.is_space c = true /\ PyStr.split r = [].
Proof.
  unfold PyStr.split. simpl. destruct (PyStr.is_space c).
  - auto.
  - intros H. exfalso. revert H. apply split_acc_nonempty. discriminate.
Qed.

(** White space is no digit. *)
Lemma space_not_in_digits c lo hi :
  PyStr.is_space c = true -> (48 <= lo)%N -> (hi <= 57)%N ->
  PyStr.in_range lo hi c = false.
Proof.
  unfold PyStr.is_space, PyStr.in_range. intros H Hlo Hhi.
  destruct (N.leb_spec lo (PyStr.code c)); [|reflexivity].
  destruct (N.leb_spec (PyStr.code c) hi); [|reflexivity].
  exfalso.
  repeat (apply orb_prop in H as [H|H]).
  - apply andb_prop in H as [_ H]. apply N.leb_le in H. lia.
  - apply andb_prop in H as [_ H]. apply N.leb_le in H. lia.
  - apply N.eqb_eq in H. lia.
  - apply N.eqb_eq in H. lia.
Qed.

Lemma space_not_digit_char c d :
  PyStr.is_space c = true -> PyStr.is_decimal d = true ->
  Ascii.eqb c d = false.
Proof.
  intros Hc Hd. destruct (Ascii.eqb_spec c d) as [->|]; [|reflexivity].
  unfold PyStr.is_decimal in Hd.
  rewrite (space_not_in_digits d 48 57 Hc) in Hd by lia. discriminate.
Qed.

Lemma day_no_match s D :
  PyStr.split s = [] -> PyTime.directive "d" = Some D -> Re.matches D s = [].
Proof.
  intros Hs [= <-].
  destruct s as [|c r]; [reflexivity|].
  apply split_nil_inv in Hs as [Hc Hr].
  cbn [Re.matches Re.alts Re.lit Re.range Re.digit map concat app].
  unfold Re.is_char.
  rewrite !(space_not_digit_char c) by (exact Hc || reflexivity).
  rewrite !(space_not_in_digits c) by (exact Hc || (vm_compute; discriminate)).
  cbn [map concat app].
  destruct (Ascii.eqb c " "); [|reflexivity].
  cbn [map concat app Re.rest Re.consumed Re.groups].
  destruct r as [|c2 r2]; [reflexivity|].
  apply split_nil_inv in Hr as [Hc2 _].
  rewrite (space_not_in_digits c2) by (exact Hc2 || (vm_compute; discriminate)).
  reflexivity.
Qed.

Lemma matches_seq_head_nil D rs s :
  Re.matches D s = [] -> Re.matches (Re.seq (D :: rs)) s = [].
Proof.
  intros H. destruct rs as [|y l]; simpl; [exact H|].
  rewrite H. reflexivity.
Qed.

(** A text of white space only is no time stamp. *)
Lemma strptime_blank ts :
  PyStr.split ts = [] ->
  PyTime.strptime ts "%d/%b/%Y:%H:%M:%S %z" = None.
Proof.
  intros Hs. unfold PyTime.strptime.
  change (PyTime.format_regex false "%d/%b/%Y:%H:%M:%S %z")
    with (match PyTime.directive "d",
                PyTime.format_regex false "/%b/%Y:%H:%M:%S %z" with
          | Some x, Some xs => Some (x :: xs)
          | _, _ => None
          end).
  destruct (PyTime.directive "d") as [D|] eqn:ED; [|reflexivity].
  destruct (PyTime.format_regex false "/%b/%Y:%H:%M:%S %z") as [xs|];
    [|reflexivity].
  unfold Re.re_match.
  rewrite (matches_seq_head_nil D xs ts (day_no_match ts D Hs ED)).
  reflexivity.
Qed.

(** The lines that [parse_apache_log_line] rejects are those that match
    neither pattern and those whose time stamp is white space only. *)
Lemma apache_rejection now line :
  Log.parse_apache_log_line now line = None
  <-> Log.match_groups (PyStr.strip line) = None
      \/ exists groups,
          Log.match_groups (PyStr.strip line) = Some groups
          /\ PyStr.split (nth 1 groups EmptyString) = [].
Proof.
  split.
  - intros Hp.
    destruct (Log.match_groups (PyStr.strip line)) as [groups|] eqn:Hm;
      [|left; reflexivity].
    right. exists groups. split; [reflexivity|].
    destruct (PyStr.split (nth 1 groups EmptyString)) as [|t ts] eqn:Hs;
      [reflexivity|].
    destruct (apache_parse_succeeds now line groups Hm) as [r Hr].
    + rewrite Hs. discriminate.
    + congruence.
  - intros [Hm|(groups & Hm & Hs)];
      unfold Log.parse_apache_log_line; rewrite Hm; [reflexivity|].
    destruct (match_groups_length _ _ Hm) as [Hl|Hl];
      (destruct groups as [|g0 [|g1 rest]]; simpl in Hl; try lia);
      simpl in *; unfold Log.apache_timestamp;
      rewrite (strptime_blank g1 Hs), Hs; reflexivity.
Qed.

(** C2: for a line that matches one of the two patterns, the status code
    and the size of the parsed record are the integers of the fourth and
    fifth group of the match, 0 for a dash or a field that is no numeral
    (a record is returned as soon as the time stamp has a token); and the
    line of the scenario parses to the address 203.0.113.5, the method
    GET, the path /index.html, status 200 and size 512. *)
Theorem apache_status_and_size_are_the_fields :
  (forall (now : PyTime.datetime) (line : string) (groups : list string)
          (r : Log.LogRecord),
      Log.match_groups (PyStr.strip line) = Some groups ->
      Log.parse_apache_log_line now line = Some r ->
      Log.status_code r = spec_numeric_field (nth 3 groups EmptyString)
      /\ Log.size r = spec_numeric_field (nth 4 groups EmptyString))
  /\ (forall (now : PyTime.datetime) (line : string) (groups : list string),
         Log.match_groups (PyStr.strip line) = Some groups ->
         PyStr.split (nth 1 groups EmptyString) <> [] ->
         exists r, Log.parse_apache_log_line now line = Some r)
  /\ spec_numeric_field "-" = 0
  /\ Log.match_groups (PyStr.strip scenario_line) = Some scenario_groups
  /\ forall now : PyTime.datetime,
      Log.parse_log_to_dict now scenario_line
      = Log.parse_apache_log_line now scenario_line
      /\ Log.parse_apache_log_line now scenario_line = Some scenario_record.
Proof.
  split; [|split; [exact apache_parse_succeeds|
                   split; [reflexivity|split; [vm_compute; reflexivity|]]]].
  - intros now line groups r Hm Hp.
    pose proof (match_groups_length _ _ Hm) as Hl.
    unfold Log.parse_apache_log_line in Hp. rewrite Hm in Hp.
    destruct (nth_error groups 0) as [ip|]; [|discriminate].
    destruct (nth_error groups 1) as [timestamp_str|]; [|discriminate].
    destruct (Log.apache_timestamp now timestamp_str); [|discriminate].
    injection Hp as <-. simpl.
    rewrite !int_or_zero_spec, !item_or_nth by (destruct Hl; lia).
    split; reflexivity.
  - intros now. split; vm_compute; reflexivity.
Qed.

Lemma apache_status_and_size_are_the_fields_witness :
  Log.match_groups (PyStr.strip scenario_line) = Some scenario_groups
  /\ Log.parse_apache_log_line example_now scenario_line = Some scenario_record
  /\ Log.status_code scenario_record = spec_numeric_field "200"
  /\ Log.size scenario_record = spec_numeric_field "512".
Proof.
  assert (Hm : Log.match_groups (PyStr.strip scenario_line)
               = Some scenario_groups) by (vm_compute; reflexivity).
  assert (Hp : Log.parse_apache_log_line example_now scenario_line
               = Some scenario_record) by (vm_compute; reflexivity).
  split; [exact Hm|split; [exact Hp|]].
  exact (proj1 apache_status_and_size_are_the_fields
               example_now scenario_line scenario_groups scenario_record
               Hm Hp).
Defined.

(** C7, at the failing input: the line matches the simple pattern with a
    time stamp of one space, and the parser returns [None]: the IndexError
    of [split()[0]] is not a ValueError, so neither the retry without
    offset nor the fallback to the clock is reached. *)
Theorem blank_timestamp_is_rejected :
  forall now : PyTime.datetime,
    Log.match_groups (PyStr.strip blank_timestamp_line)
    = Some ["1.2.3.4"; " "; "GET / HTTP/1.1"; "200"; "512"]
    /\ Log.parse_apache_log_line now blank_timestamp_line = None
    /\ Log.parse_log_to_dict now blank_timestamp_line = None.
Proof. intros now. repeat split; vm_compute; reflexivity. Qed.

(** ** The dispatcher and the JSON branch *)

Lemma parse_log_to_dict_json now line d :
  Log.extract_json_block line = Some (Json.VDict d) ->
  Json.truthy (Json.VDict d) = true ->
  Log.parse_log_to_dict now line
  = Log.parse_json_record now (Json.VDict d) line.
Proof.
  intros He Ht. unfold Log.parse_log_to_dict. rewrite He, Ht. reflexivity.
Qed.

(** C1, as stated, fails: the object of the line has a time that matches
    none of the four formats, and the line is parsed, with the time of the
    clock. *)
Lemma unmatched_time_falls_back_to_clock :
  Log.extract_json_block unmatched_time_line
  = Some (Json.VDict unmatched_time_object)
  /\ Log.first_format "garbage" Log.time_formats = None
  /\ exists r : Log.LogRecord,
      Log.parse_log_to_dict example_now unmatched_time_line = Some r
      /\ Log.timestamp r = example_now
      /\ Log.status_code r = 404.
Proof.
  split; [vm_compute; reflexivity|].
  split; [vm_compute; reflexivity|].
  eexists. split; [vm_compute; reflexivity|].
  split; reflexivity.
Qed.

(** C1, amended: for a line whose JSON object is not empty, a time that is
    missing or empty (or any false value) rejects the line, and so does a
    time that is no text; a text that is not empty never rejects it: the
    formats are tried in order, the first that parses the text gives the
    time stamp, and when none does the time stamp is the time of the
    clock.  With such a time, the line is rejected only when the
    conversion of status or size raises. *)
Theorem json_time_policy :
  forall (now : PyTime.datetime) (line : string) (d : gmap string Json.value),
    Log.extract_json_block line = Some (Json.VDict d) ->
    Json.truthy (Json.VDict d) = true ->
    let time_str := Json.get d "time" (Json.VStr EmptyString) in
    (Json.truthy time_str = false -> Log.parse_log_to_dict now line = None)
    /\ ((forall s, time_str <> Json.VStr s) ->
        Log.parse_log_to_dict now line = None)
    /\ (forall s : string,
          time_str = Json.VStr s -> s <> EmptyString ->
          (forall r, Log.parse_log_to_dict now line = Some r ->
                     Log.timestamp r
                     = match Log.first_format s Log.time_formats with
                       | Some dt => dt
                       | None => now
                       end)
          /\ (Log.parse_log_to_dict now line = None
              <-> Log.json_status_code d = None \/ Log.json_size d = None))
    /\ (forall s : string,
          Log.first_format s Log.time_formats
          = match PyTime.strptime s "%d/%b/%Y:%H:%M:%S %z" with
            | Some dt => Some dt
            | None =>
            match PyTime.strptime s "%d/%b/%Y:%H:%M:%S" with
            | Some dt => Some dt
            | None =>
            match PyTime.strptime s "%Y-%m-%d %H:%M:%S" with
            | Some dt => Some dt
            | None => PyTime.strptime s "%Y-%m-%dT%H:%M:%S"
            end end end).
Proof.
  intros now line d He Ht time_str.
  rewrite (parse_log_to_dict_json now line d He Ht).
  unfold Log.parse_json_record. fold time_str.
  repeat split.
  - intros Hf. rewrite Hf. reflexivity.
  - intros Hns. destruct (negb (Json.truthy time_str)); [reflexivity|].
    destruct time_str; try reflexivity. exfalso. eapply Hns. reflexivity.
  - intros r. rewrite H. simpl.
    destruct s; [congruence|]. simpl.
    destruct (Log.json_status_code d); [|discriminate].
    destruct (Log.json_size d); [|discriminate].
    intros [= <-]. reflexivity.
  - rewrite H. destruct s; [congruence|]. simpl.
    destruct (Log.json_status_code d); [|intros _; left; reflexivity].
    destruct (Log.json_size d); [discriminate|intros _; right; reflexivity].
  - rewrite H. destruct s; [congruence|]. simpl.
    destruct (Log.json_status_code d);
      [|intros _; reflexivity].
    destruct (Log.json_size d); [|intros _; reflexivity].
    intros [Hx|Hx]; discriminate Hx.
  - intros s. simpl.
    destruct (PyTime.strptime s "%d/%b/%Y:%H:%M:%S %z"); [reflexivity|].
    destruct (PyTime.strptime s "%d/%b/%Y:%H:%M:%S"); [reflexivity|].
    destruct (PyTime.strptime s "%Y-%m-%d %H:%M:%S"); [reflexivity|].
    destruct (PyTime.strptime s "%Y-%m-%dT%H:%M:%S"); reflexivity.
Qed.

Lemma json_time_policy_witness :
  Log.extract_json_block unmatched_time_line
  = Some (Json.VDict unmatched_time_object)
  /\ Json.truthy (Json.VDict unmatched_time_object) = true
  /\ forall r : Log.LogRecord,
      Log.parse_log_to_dict example_now unmatched_time_line = Some r ->
      Log.timestamp r = example_now.
Proof.
  assert (He : Log.extract_json_block unmatched_time_line
               = Some (Json.VDict unmatched_time_object))
    by (vm_compute; reflexivity).
  assert (Ht : Json.truthy (Json.VDict unmatched_time_object) = true)
    by (vm_compute; reflexivity).
  split; [exact He|split; [exact Ht|]].
  intros r Hr.
  destruct (json_time_policy example_now unmatched_time_line
                             unmatched_time_object He Ht)
    as (_ & _ & Htext & _).
  destruct (Htext "garbage") as [Hts _].
  - vm_compute. reflexivity.
  - discriminate.
  - rewrite (Hts r Hr). vm_compute. reflexivity.
Defined.

(** C9: when the object found in a line is taken by the JSON branch (it
    is not empty) and that branch rejects the record, [parse_log_to_dict]
    returns [None], whatever [parse_apache_log_line] would return for the
    line; the example is a line that the Apache parser accepts and whose
    last field is an object with an empty time. *)
Theorem json_rejection_has_no_fallback :
  (forall (now : PyTime.datetime) (line : string) (json_result : Json.value),
      Log.extract_json_block line = Some json_result ->
      Json.truthy json_result = true ->
      Log.parse_json_record now json_result line = None ->
      Log.parse_log_to_dict now line = None)
  /\ Log.extract_json_block apache_line_with_json
     = Some (Json.VDict empty_time_object)
  /\ (exists r : Log.LogRecord,
         Log.parse_apache_log_line example_now apache_line_with_json = Some r)
  /\ Log.parse_log_to_dict example_now apache_line_with_json = None.
Proof.
  split.
  - intros now line json_result He Ht Hrej.
    unfold Log.parse_log_to_dict. rewrite He, Ht. exact Hrej.
  - split; [vm_compute; reflexivity|].
    split; [eexists; vm_compute; reflexivity|].
    vm_compute. reflexivity.
Qed.

Lemma json_rejection_has_no_fallback_witness :
  Log.extract_json_block apache_line_with_json
  = Some (Json.VDict empty_time_object)
  /\ Json.truthy (Json.VDict empty_time_object) = true
  /\ Log.parse_json_record example_now (Json.VDict empty_time_object)
                           apache_line_with_json = None
  /\ Log.parse_log_to_dict example_now apache_line_with_json = None.
Proof.
  assert (He : Log.extract_json_block apache_line_with_json
               = Some (Json.VDict empty_time_object))
    by (vm_compute; reflexivity).
  assert (Ht : Json.truthy (Json.VDict empty_time_object) = true)
    by (vm_compute; reflexivity).
  assert (Hr : Log.parse_json_record example_now (Json.VDict empty_time_object)
                                     apache_line_with_json = None)
    by (vm_compute; reflexivity).
  repeat (split; [assumption|]).
  exact (proj1 json_rejection_has_no_fallback example_now
               apache_line_with_json (Json.VDict empty_time_object)
               He Ht Hr).
Defined.

(** ** Sorting *)

Section Sorting.

Context {A : Type} (le : A -> A -> bool).
Hypothesis le_total : forall a b, le a b = false -> le b a = true.

Local Abbreviation R := (fun a b => le a b = true).

Lemma insert_by_Permutation x l :
  Permutation (Frame.insert_by le x l) (x :: l).
Proof.
  induction l as [|y l IH]; simpl.
  - reflexivity.
  - destruct (le x y).
    + reflexivity.
    + rewrite IH. apply perm_swap.
Qed.

Lemma sort_by_Permutation l : Permutation (Frame.sort_by le l) l.
Proof.
  induction l as [|x l IH]; simpl.
  - reflexivity.
  - unfold Frame.sort_by in *. simpl.
    rewrite insert_by_Permutation. apply perm_skip. exact IH.
Qed.

Lemma insert_by_HdRel a x l :
  le a x = true -> HdRel R a l -> HdRel R a (Frame.insert_by le x l).
Proof.
  intros Hax Hl. destruct l as [|y l]; simpl.
  - constructor. exact Hax.
  - destruct (le x y); constructor.
    + exact Hax.
    + inversion Hl; assumption.
Qed.

Lemma insert_by_Sorted x l :
  Sorted R l -> Sorted R (Frame.insert_by le x l).
Proof.
  induction 1 as [|y l Hs IH Hhd]; simpl.
  - repeat constructor.
  - destruct (le x y) eqn:E.
    + constructor; [constructor; assumption|]. constructor. exact E.
    + constructor; [exact IH|].
      apply insert_by_HdRel; [|exact Hhd]. apply le_total. exact E.
Qed.

Lemma sort_by_Sorted l : Sorted R (Frame.sort_by le l).
Proof.
  induction l as [|x l IH]; unfold Frame.sort_by in *; simpl.
  - constructor.
  - apply insert_by_Sorted. exact IH.
Qed.

(** Sorting a sorted list changes nothing. *)
Lemma sort_by_sorted_id l : Sorted R l -> Frame.sort_by le l = l.
Proof.
  induction 1 as [|x l Hs IH Hhd]; unfold Frame.sort_by in *; simpl.
  - reflexivity.
  - rewrite IH. destruct Hhd as [|y l' Hxy]; simpl.
    + reflexivity.
    + rewrite Hxy. reflexivity.
Qed.

End Sorting.

Lemma compare_refl a : String_as_OT.compare a a = Eq.
Proof.
  destruct (String_as_OT.compare_spec a a) as [_|H|H]; [reflexivity| |];
    exfalso; exact (irreflexivity String_as_OT.lt a H).
Qed.

Lemma compare_Eq a b : String_as_OT.compare a b = Eq -> a = b.
Proof.
  destruct (String_as_OT.compare_spec a b); [auto|discriminate|discriminate].
Qed.

Lemma compare_Gt a b :
  String_as_OT.compare a b = Gt -> String_as_OT.compare b a = Lt.
Proof.
  destruct (String_as_OT.compare_spec a b) as [|_|H];
    [discriminate|discriminate|intros _; exact H].
Qed.

Lemma key_le_total a b : Frame.key_le a b = false -> Frame.key_le b a = true.
Proof.
  unfold Frame.key_le.
  destruct (String_as_OT.compare (Frame.ip a) (Frame.ip b)) eqn:E.
  - apply compare_Eq in E. rewrite E, compare_refl. lia.
  - discriminate.
  - rewrite (compare_Gt _ _ E). reflexivity.
Qed.

Lemma key_le_trans a b c :
  Frame.key_le a b = true -> Frame.key_le b c = true ->
  Frame.key_le a c = true.
Proof.
  unfold Frame.key_le.
  destruct (String_as_OT.compare (Frame.ip a) (Frame.ip b)) eqn:E1;
    [|intros _|discriminate];
    (destruct (String_as_OT.compare (Frame.ip b) (Frame.ip c)) eqn:E2;
     [| |discriminate]).
  - apply compare_Eq in E1, E2. rewrite E1, E2, compare_refl. lia.
  - apply compare_Eq in E1. rewrite E1, E2. reflexivity.
  - apply compare_Eq in E2. rewrite <- E2, E1. reflexivity.
  - intros _.
    assert (H : String_as_OT.lt (Frame.ip a) (Frame.ip c))
      by (etransitivity; [exact E1|exact E2]).
    unfold String_as_OT.lt in H. rewrite H. reflexivity.
Qed.

(** ** The session builder *)

(** The column-wise assignments are the one-pass annotation. *)
Lemma assign_columns timeout rows : forall last sums,
  map (fun '(r, d, b, n) =>
         {| Frame.row := r; Frame.time_diff := d; Frame.new_session := b;
            Frame.session_id := Frame.make_session_id (Frame.ip r) n |})
      (combine
         (combine (combine rows (Frame.group_diff last rows))
                  (map (Frame.starts_session timeout)
                       (Frame.group_diff last rows)))
         (Frame.group_cumsum
            sums
            (combine (map Frame.ip rows)
                     (map (Frame.starts_session timeout)
                          (Frame.group_diff last rows)))))
  = annotate timeout last sums rows.
Proof.
  induction rows as [|r rest IH]; intros last sums; simpl.
  - reflexivity.
  - f_equal. apply IH.
Qed.

Lemma assign_sessions_annotate minutes rows :
  Frame.assign_sessions minutes rows
  = annotate (Frame.timedelta_minutes minutes) ∅ ∅ rows.
Proof. unfold Frame.assign_sessions. apply assign_columns. Qed.

Lemma annotate_rows timeout rows : forall last sums,
  map Frame.row (annotate timeout last sums rows) = rows.
Proof.
  induction rows as [|r rest IH]; intros last sums; simpl.
  - reflexivity.
  - f_equal. apply IH.
Qed.

Lemma latest_snoc a pre x :
  latest a (pre ++ [x])
  = if String.eqb (ip_of x) a then Some x else latest a pre.
Proof. unfold latest. rewrite rev_unit. reflexivity. Qed.

Lemma starts_of_snoc a pre x :
  starts_of a (pre ++ [x])
  = starts_of a pre
    + (if (String.eqb (ip_of x) a && Frame.new_session x)%bool then 1 else 0).
Proof.
  unfold starts_of. rewrite List.filter_app, length_app. simpl.
  destruct (String.eqb (ip_of x) a && Frame.new_session x)%bool; simpl; lia.
Qed.

Lemma starts_of_app a pre post :
  starts_of a (pre ++ post) = starts_of a pre + starts_of a post.
Proof. unfold starts_of. rewrite List.filter_app, length_app. lia. Qed.

Lemma starts_of_other a l :
  Forall (fun x => ip_of x <> a) l -> starts_of a l = 0.
Proof.
  unfold starts_of. induction 1 as [|x l Hx _ IH]; simpl; [reflexivity|].
  destruct (String.eqb_spec (ip_of x) a); [contradiction|]. exact IH.
Qed.

Lemma latest_None a pre :
  latest a pre = None <-> Forall (fun q => ip_of q <> a) pre.
Proof.
  induction pre as [|x pre IH] using rev_ind.
  - split; [constructor|reflexivity].
  - rewrite latest_snoc, Forall_app.
    destruct (String.eqb_spec (ip_of x) a) as [E|E].
    + split; [discriminate|]. intros [_ H]. inversion H; contradiction.
    + rewrite IH. split; [intros H; split; [exact H|]|intros [H _]; exact H].
      constructor; [exact E|constructor].
Qed.

Lemma latest_Some a pre q :
  latest a pre = Some q
  <-> exists pre1 mid, pre = pre1 ++ q :: mid /\ ip_of q = a
                       /\ Forall (fun x => ip_of x <> a) mid.
Proof.
  induction pre as [|x pre IH] using rev_ind.
  - split; [discriminate|].
    intros (pre1 & mid & H & _). destruct pre1; discriminate.
  - rewrite latest_snoc.
    destruct (String.eqb_spec (ip_of x) a) as [E|E].
    + split.
      * intros [= ->]. exists pre, []. repeat split; [exact E|constructor].
      * intros (pre1 & mid & H & Hq & Hmid).
        destruct mid as [|y mid] using rev_ind.
        -- apply app_inj_tail in H as [_ ->]. reflexivity.
        -- clear IHmid. rewrite app_comm_cons, app_assoc in H.
           apply app_inj_tail in H as [_ ->].
           apply Forall_app in Hmid as [_ Hy]. inversion Hy; contradiction.
    + rewrite IH. split.
      * intros (pre1 & mid & -> & Hq & Hmid).
        exists pre1, (mid ++ [x]). rewrite <- app_assoc. repeat split.
        -- exact Hq.
        -- apply Forall_app. split; [exact Hmid|].
           constructor; [exact E|constructor].
      * intros (pre1 & mid & H & Hq & Hmid).
        destruct mid as [|y mid] using rev_ind.
        -- apply app_inj_tail in H as [_ ->]. contradiction.
        -- clear IHmid. rewrite app_comm_cons, app_assoc in H.
           apply app_inj_tail in H as [-> ->].
           apply Forall_app in Hmid as [Hmid _].
           exists pre1, mid. repeat split; assumption.
Qed.

Lemma state_ok_empty : state_ok [] ∅ ∅.
Proof. split; intros a; rewrite lookup_empty; reflexivity. Qed.

(** What the pass assigns to a row, in terms of the rows before it. *)
Lemma annotate_characterised timeout rows : forall pre last sums,
  state_ok pre last sums ->
  forall pre' s post',
    annotate timeout last sums rows = pre' ++ s :: post' ->
    Frame.time_diff s
    = option_map (fun q => Frame.timestamp (Frame.row s)
                           - Frame.timestamp (Frame.row q))
                 (latest (ip_of s) (pre ++ pre'))
    /\ Frame.new_session s = Frame.starts_session timeout (Frame.time_diff s)
    /\ Frame.session_id s
       = Frame.make_session_id (ip_of s)
                               (starts_of (ip_of s) ((pre ++ pre') ++ [s])).
Proof.
  induction rows as [|r rest IH]; intros pre last sums [Hlast Hsums] pre' s post' H.
  - destruct pre'; discriminate.
  - simpl in H. destruct pre' as [|x pre'].
    + injection H as <- _. rewrite app_nil_r, starts_of_snoc.
      unfold ip_of. simpl.
      rewrite String.eqb_refl, Hlast, <- Hsums. simpl.
      destruct (latest (Frame.ip r) pre); simpl; repeat split; reflexivity.
    + injection H as Hx H.
      replace (pre ++ x :: pre') with ((pre ++ [x]) ++ pre')
        by (rewrite <- app_assoc; reflexivity).
      eapply IH; [|exact H].
      assert (Hip : ip_of x = Frame.ip r) by (rewrite <- Hx; reflexivity).
      assert (Hts : Frame.timestamp (Frame.row x) = Frame.timestamp r)
        by (rewrite <- Hx; reflexivity).
      split; intros a.
      * rewrite latest_snoc, Hip.
        destruct (String.eqb_spec (Frame.ip r) a) as [E|E].
        -- subst a. rewrite lookup_insert_eq. simpl. rewrite Hts. reflexivity.
        -- rewrite lookup_insert_ne by exact E. apply Hlast.
      * rewrite starts_of_snoc, Hip.
        destruct (String.eqb_spec (Frame.ip r) a) as [E|E].
        -- subst a. rewrite lookup_insert_eq, <- Hsums, <- Hx. simpl.
           reflexivity.
        -- rewrite lookup_insert_ne by exact E. rewrite Hsums. simpl. lia.
Qed.

(** *** The text of a session number *)

Lemma append_cons c s t : String c s +:+ t = String c (s +:+ t).
Proof. reflexivity. Qed.

Lemma decimal_acc_snoc s : forall a c,
  PyStr.decimal_acc a (s +:+ String c EmptyString)
  = 10 * PyStr.decimal_acc a s + PyStr.digit_val c.
Proof.
  induction s as [|x s IH]; intros a c.
  - reflexivity.
  - rewrite append_cons. cbn [PyStr.decimal_acc]. apply IH.
Qed.

Lemma append_snoc_assoc ds c acc :
  (ds +:+ String c EmptyString) +:+ acc = ds +:+ String c acc.
Proof.
  induction ds as [|x ds IH]; [reflexivity|].
  rewrite !append_cons. f_equal. exact IH.
Qed.

Lemma append_empty_r s : s +:+ EmptyString = s.
Proof.
  induction s as [|x s IH]; [reflexivity|].
  rewrite append_cons. f_equal. exact IH.
Qed.

Lemma digit_val_of_digit k :
  (k < 10)%N -> PyStr.digit_val (ascii_of_N (48 + k)) = Z.of_N k.
Proof.
  intros Hk. unfold PyStr.digit_val, PyStr.code.
  rewrite N_ascii_embedding by lia. lia.
Qed.

(** The digits that [str_of_pos_fuel] puts in front of [acc] are the
    decimal numeral of [n]. *)
Lemma str_of_pos_fuel_value fuel : forall n acc,
  (n < 2 ^ N.of_nat fuel)%N ->
  exists ds, PyStr.str_of_pos_fuel fuel n acc = ds +:+ acc
             /\ PyStr.decimal_acc 0 ds = Z.of_N n.
Proof.
  induction fuel as [|fuel IH]; intros n acc Hn.
  - exists EmptyString. simpl in *. split; [reflexivity|lia].
  - cbn [PyStr.str_of_pos_fuel].
    assert (Hmod : (n mod 10 < 10)%N) by (apply N.mod_lt; lia).
    destruct (N.ltb_spec n 10) as [Hlt|Hge].
    + exists (String (ascii_of_N (48 + n mod 10)) EmptyString).
      split; [reflexivity|]. simpl.
      rewrite digit_val_of_digit by exact Hmod.
      rewrite N.mod_small by exact Hlt. lia.
    + destruct (IH (n / 10)%N (String (ascii_of_N (48 + n mod 10)) acc))
        as (ds & Hds & Hval).
      * apply N.Div0.div_lt_upper_bound.
        rewrite Nat2N.inj_succ, N.pow_succ_r' in Hn. lia.
      * exists (ds +:+ String (ascii_of_N (48 + n mod 10)) EmptyString).
        split.
        -- rewrite Hds, append_snoc_assoc. reflexivity.
        -- rewrite decimal_acc_snoc, Hval, digit_val_of_digit by exact Hmod.
           pose proof (N.div_mod n 10). lia.
Qed.

Lemma decimal_of_str_of_N n :
  PyStr.decimal_acc 0 (PyStr.str_of_N n) = Z.of_N n.
Proof.
  unfold PyStr.str_of_N.
  destruct (str_of_pos_fuel_value (S (N.to_nat (N.log2 n))) n EmptyString)
    as (ds & Hds & Hval).
  - rewrite Nat2N.inj_succ, N2Nat.id.
    destruct n as [|p]; [reflexivity|].
    apply N.log2_spec. lia.
  - rewrite Hds, append_empty_r. exact Hval.
Qed.

Lemma str_of_Z_inj n m :
  0 <= n -> 0 <= m -> PyStr.str_of_Z n = PyStr.str_of_Z m -> n = m.
Proof.
  intros Hn Hm. unfold PyStr.str_of_Z.
  destruct (Z.ltb_spec n 0) as [?|_]; [lia|].
  destruct (Z.ltb_spec m 0) as [?|_]; [lia|].
  intros Heq. apply (f_equal (PyStr.decimal_acc 0)) in Heq.
  rewrite !decimal_of_str_of_N in Heq. lia.
Qed.

Lemma append_inj_l a x y : a +:+ x = a +:+ y -> x = y.
Proof.
  induction a as [|c a IH]; [auto|].
  rewrite !append_cons. intros [= H]. auto.
Qed.

Lemma make_session_id_inj a n m :
  0 <= n -> 0 <= m ->
  Frame.make_session_id a n = Frame.make_session_id a m -> n = m.
Proof.
  intros Hn Hm H. unfold Frame.make_session_id in H.
  apply append_inj_l in H. rewrite !append_cons in H. injection H as H.
  apply str_of_Z_inj; assumption.
Qed.

Lemma starts_of_nonneg a l : 0 <= starts_of a l.
Proof. unfold starts_of. lia. Qed.

(** *** What [create_sessions] returns *)

Lemma create_sessions_table r0 rows0 minutes :
  Frame.create_sessions (Frame.Table (r0 :: rows0)) minutes
  = Frame.SessionTable
      (annotate (Frame.timedelta_minutes minutes) ∅ ∅
                (Frame.sort_by Frame.key_le (r0 :: rows0))).
Proof.
  unfold Frame.create_sessions. simpl Frame.empty. cbv iota.
  rewrite assign_sessions_annotate. reflexivity.
Qed.

Lemma sort_by_StronglySorted rows :
  StronglySorted (fun a b => Frame.key_le a b = true)
                 (Frame.sort_by Frame.key_le rows).
Proof.
  apply Sorted.Sorted_StronglySorted.
  - intros x y z. apply key_le_trans.
  - apply sort_by_Sorted. apply key_le_total.
Qed.

Lemma key_le_same_ip a b :
  Frame.ip a = Frame.ip b -> Frame.key_le a b = true ->
  Frame.timestamp a <= Frame.timestamp b.
Proof.
  intros E. unfold Frame.key_le. rewrite E, compare_refl. lia.
Qed.

(** C3: on a table with rows, [create_sessions] returns the rows sorted by
    address and instant, and marks a row as the start of a session exactly
    when it is the first row of its address or the gap to the previous
    row of its address exceeds the timeout; the first row of an address
    opens session 1 and every other row is in the session of the previous
    row of its address exactly when it starts none.  Two requests of one
    address at 10:00:00 and 10:45:00 fall into two sessions with a timeout
    of 30 minutes; at 10:00:00 and 10:20:00 they form one session of 2
    page views and 20 minutes. *)
Theorem create_sessions_starts_sessions_at_gaps :
  (forall (r0 : Frame.Row) (rows0 : list Frame.Row) (minutes : Z),
      exists srows : list Frame.SessionRow,
        Frame.create_sessions (Frame.Table (r0 :: rows0)) minutes
        = Frame.SessionTable srows
        /\ Permutation (map Frame.row srows) (r0 :: rows0)
        /\ StronglySorted (fun a b => Frame.key_le a b = true)
                          (map Frame.row srows)
        /\ forall pre s post,
            srows = pre ++ s :: post ->
            (Frame.new_session s = true <->
             first_of_ip pre s
             \/ exists q, previous_of_ip pre q s
                          /\ Frame.timestamp (Frame.row s)
                             - Frame.timestamp (Frame.row q)
                             > minutes * 60000000)
            /\ (first_of_ip pre s ->
                Frame.session_id s = Frame.make_session_id (ip_of s) 1)
            /\ (forall q, previous_of_ip pre q s ->
                          Frame.timestamp (Frame.row q)
                          <= Frame.timestamp (Frame.row s)
                          /\ (Frame.session_id s = Frame.session_id q
                              <-> Frame.new_session s = false)))
  /\ (exists stats,
         Frame.create_sessions
           (Frame.Table [request_at 10 0; request_at 10 45]) 30
         = Frame.SessionTable [first_request; late_request]
         /\ Frame.session_id first_request <> Frame.session_id late_request
         /\ Sessions.get_session_stats
              (Frame.SessionTable [first_request; late_request])
            = Some stats
         /\ Sessions.total_sessions stats = 2)
  /\ (exists stats d,
         Frame.create_sessions
           (Frame.Table [request_at 10 0; request_at 10 20]) 30
         = Frame.SessionTable [first_request; early_request]
         /\ Frame.session_id first_request = Frame.session_id early_request
         /\ Sessions.get_session_stats
              (Frame.SessionTable [first_request; early_request])
            = Some stats
         /\ Sessions.total_sessions stats = 1
         /\ Sessions.session_details stats = [d]
         /\ Sessions.pageviews d = 2
         /\ (Sessions.session_duration d == 20)%Q).
Proof.
  split; [|split].
  - intros r0 rows0 minutes.
    pose proof (sort_by_Permutation Frame.key_le (r0 :: rows0)) as Hperm.
    pose proof (sort_by_StronglySorted (r0 :: rows0)) as Hsorted.
    rewrite create_sessions_table.
    revert Hperm Hsorted.
    generalize (Frame.sort_by Frame.key_le (r0 :: rows0)).
    intros sorted Hperm Hsorted.
    eexists. split; [reflexivity|].
    rewrite annotate_rows.
    split; [exact Hperm|]. split; [exact Hsorted|].
    intros pre s post Hsplit.
    assert (Hrows : map Frame.row (pre ++ s :: post) = sorted)
      by (rewrite <- Hsplit; apply annotate_rows).
    destruct (annotate_characterised _ _ [] ∅ ∅ state_ok_empty _ _ _ Hsplit)
      as (Hdiff & Hnew & Hid).
    simpl in Hdiff, Hid.
    split; [|split].
    + rewrite Hnew, Hdiff.
      destruct (latest (ip_of s) pre) as [q|] eqn:Hl; simpl.
      * unfold Frame.timedelta_minutes. split.
        -- intros Hgap. right. exists q. split.
           ++ apply latest_Some in Hl. exact Hl.
           ++ apply Z.ltb_lt in Hgap. lia.
        -- intros [Hfirst|(q' & Hprev & Hgap)].
           ++ apply latest_None in Hfirst. congruence.
           ++ apply latest_Some in Hprev. rewrite Hl in Hprev.
              injection Hprev as ->. apply Z.ltb_lt. lia.
      * split; [|reflexivity]. intros _. left.
        apply latest_None. exact Hl.
    + intros Hfirst. rewrite Hid, starts_of_snoc.
      rewrite (starts_of_other _ _ Hfirst), String.eqb_refl, Hnew, Hdiff.
      apply latest_None in Hfirst. rewrite Hfirst. reflexivity.
    + intros q Hprev.
      destruct Hprev as (pre1 & mid & Hpre & Hip & Hmid).
      subst pre. rewrite <- app_assoc, <- app_comm_cons in Hsplit, Hrows.
      split.
      * rewrite <- Hrows, map_app in Hsorted.
        apply StronglySorted_app_1_r in Hsorted.
        rewrite map_cons in Hsorted.
        apply StronglySorted_inv in Hsorted as [_ Hall].
        rewrite List.Forall_forall in Hall.
        apply key_le_same_ip; [exact Hip|].
        apply Hall. rewrite map_app. apply in_or_app. right. left. reflexivity.
      * destruct (annotate_characterised _ _ [] ∅ ∅ state_ok_empty _ _ _ Hsplit)
          as (_ & _ & Hidq).
        simpl in Hidq. rewrite Hid, Hidq, Hip.
        replace (pre1 ++ q :: mid) with ((pre1 ++ [q]) ++ mid)
          by (rewrite <- app_assoc; reflexivity).
        rewrite starts_of_snoc, (starts_of_app _ (pre1 ++ [q]) mid).
        rewrite (starts_of_other _ _ Hmid), String.eqb_refl. simpl.
        pose proof (starts_of_nonneg (ip_of s) (pre1 ++ [q])) as Hn.
        destruct (Frame.new_session s); split; intros H;
          try reflexivity; try discriminate.
        -- apply make_session_id_inj in H; lia.
        -- f_equal. lia.
  - eexists. split; [vm_compute; reflexivity|].
    split; [discriminate|].
    split; vm_compute; reflexivity.
  - do 2 eexists. split; [vm_compute; reflexivity|].
    split; [reflexivity|].
    split; [vm_compute; reflexivity|].
    split; [vm_compute; reflexivity|].
    split; [vm_compute; reflexivity|].
    split; vm_compute; reflexivity.
Qed.

Lemma create_sessions_starts_sessions_at_gaps_witness :
  [first_request; late_request] = [first_request] ++ late_request :: []
  /\ previous_of_ip [first_request] first_request late_request
  /\ Frame.timestamp (Frame.row late_request)
     - Frame.timestamp (Frame.row first_request) > 30 * 60000000
  /\ Frame.new_session late_request = true
  /\ Frame.session_id late_request <> Frame.session_id first_request.
Proof.
  assert (Hprev : previous_of_ip [first_request] first_request late_request).
  { exists [], []. repeat split. constructor. }
  split; [reflexivity|]. split; [exact Hprev|].
  split; [vm_compute; reflexivity|].
  destruct (proj1 create_sessions_starts_sessions_at_gaps
                  (request_at 10 0) [request_at 10 45] 30)
    as (srows & Hcs & _ & _ & Hrows).
  assert (Hs : srows = [first_request] ++ late_request :: []).
  { assert (E : Frame.create_sessions
                  (Frame.Table [request_at 10 0; request_at 10 45]) 30
                = Frame.SessionTable [first_request; late_request])
      by (vm_compute; reflexivity).
    rewrite E in Hcs. injection Hcs as <-. reflexivity. }
  destruct (Hrows _ _ _ Hs) as (Hnew & _ & Hsame).
  split.
  - apply Hnew. right. exists first_request. split; [exact Hprev|].
    vm_compute. reflexivity.
  - intros Heq. apply (Hsame _ Hprev) in Heq. discriminate Heq.
Defined.

(** *** Idempotence *)

Lemma Sorted_map_row l :
  Sorted (fun a b => Frame.key_le a b = true) (map Frame.row l) ->
  Sorted (fun a b => Frame.key_le (Frame.row a) (Frame.row b) = true) l.
Proof.
  induction l as [|x l IH]; simpl; intros H.
  - constructor.
  - apply Sorted_inv in H as [Hs Hhd].
    constructor; [apply IH; exact Hs|].
    destruct l as [|y l]; constructor.
    apply HdRel_inv in Hhd. exact Hhd.
Qed.

(** A table with sessions whose rows are in order is left as it is. *)
Lemma resort_annotated minutes r rows :
  Sorted (fun a b => Frame.key_le a b = true) (r :: rows) ->
  Frame.create_sessions
    (Frame.SessionTable
       (annotate (Frame.timedelta_minutes minutes) ∅ ∅ (r :: rows))) minutes
  = Frame.SessionTable
      (annotate (Frame.timedelta_minutes minutes) ∅ ∅ (r :: rows)).
Proof.
  intros Hsorted.
  set (srows := annotate (Frame.timedelta_minutes minutes) ∅ ∅ (r :: rows)).
  assert (Hrows : map Frame.row srows = r :: rows) by apply annotate_rows.
  unfold Frame.create_sessions.
  replace (Frame.empty (Frame.SessionTable srows)) with false by reflexivity.
  rewrite sort_by_sorted_id
    by (apply Sorted_map_row; rewrite Hrows; exact Hsorted).
  rewrite Hrows, assign_sessions_annotate. reflexivity.
Qed.

Lemma sort_by_cons_inv {A} (le : A -> A -> bool) x l :
  exists y l', Frame.sort_by le (x :: l) = y :: l'.
Proof.
  unfold Frame.sort_by. simpl.
  destruct (foldr (Frame.insert_by le) [] l) as [|z l'']; simpl.
  - eauto.
  - destruct (le x z); eauto.
Qed.

(** C5: applying [create_sessions] to its own result, with the same
    timeout, returns that result: every row keeps its place and its
    session identifier. *)
Theorem create_sessions_idempotent :
  forall (df : Frame.DataFrame) (minutes : Z),
    Frame.create_sessions (Frame.create_sessions df minutes) minutes
    = Frame.create_sessions df minutes.
Proof.
  intros [|rows|rows] minutes.
  - reflexivity.
  - destruct rows as [|r0 rows0]; [reflexivity|].
    rewrite create_sessions_table.
    pose proof (sort_by_Sorted Frame.key_le key_le_total (r0 :: rows0))
      as Hsorted.
    destruct (sort_by_cons_inv Frame.key_le r0 rows0) as (y & l' & E).
    rewrite E in *. apply resort_annotated. exact Hsorted.
  - destruct rows as [|s0 rows0]; [reflexivity|].
    unfold Frame.create_sessions at 2 3.
    replace (Frame.empty (Frame.SessionTable (s0 :: rows0))) with false
      by reflexivity.
    rewrite assign_sessions_annotate.
    set (le' := fun a b => Frame.key_le (Frame.row a) (Frame.row b)).
    assert (Hsorted : Sorted (fun a b => Frame.key_le a b = true)
                             (map Frame.row (Frame.sort_by le' (s0 :: rows0)))).
    { assert (H : Sorted (fun a b => le' a b = true)
                         (Frame.sort_by le' (s0 :: rows0)))
        by (apply sort_by_Sorted; intros a b; apply key_le_total).
      induction H as [|x l Hs IH Hhd]; simpl; constructor; [exact IH|].
      destruct Hhd; simpl; constructor. assumption. }
    destruct (sort_by_cons_inv le' s0 rows0) as (y & l' & E).
    rewrite E in *. simpl map in *. apply resort_annotated. exact Hsorted.
Qed.

(** ** Session statistics *)

Section GroupUpdate.

Context {V : Type} (k : string) (first : V) (next : V -> V).

Local Abbreviation update := (Sessions.group_update String_as_OT.compare k first next).

Lemma group_update_keys groups k' :
  In k' (map fst (update groups)) <-> k' = k \/ In k' (map fst groups).
Proof.
  induction groups as [|[k1 v] rest IH]; simpl.
  - intuition.
  - destruct (String_as_OT.compare k k1) eqn:E; simpl.
    + apply compare_Eq in E. subst k1. intuition.
    + intuition.
    + rewrite IH. intuition.
Qed.

Lemma above_head_not_in k1 keys :
  StronglySorted String_as_OT.lt (k1 :: keys) ->
  k = k1 \/ String_as_OT.lt k k1 -> ~ In k keys.
Proof.
  intros Hs Hk Hin. apply StronglySorted_inv in Hs as [_ Hall].
  rewrite List.Forall_forall in Hall. specialize (Hall _ Hin).
  destruct Hk as [->|Hk].
  - exact (irreflexivity String_as_OT.lt _ Hall).
  - apply (irreflexivity String_as_OT.lt k). etransitivity; eassumption.
Qed.

Lemma group_update_sorted groups :
  StronglySorted String_as_OT.lt (map fst groups) ->
  StronglySorted String_as_OT.lt (map fst (update groups)).
Proof.
  induction groups as [|[k1 v] rest IH]; simpl; intros Hs.
  - repeat constructor.
  - destruct (String_as_OT.compare k k1) eqn:E; simpl.
    + exact Hs.
    + constructor; [exact Hs|].
      apply StronglySorted_inv in Hs as [_ Hall].
      constructor; [exact E|].
      eapply List.Forall_impl; [|exact Hall].
      intros x Hx. etransitivity; [exact E|exact Hx].
    + pose proof Hs as Hs'.
      apply StronglySorted_inv in Hs as [Hrest Hall].
      constructor; [apply IH; exact Hrest|].
      apply List.Forall_forall. intros x Hx.
      apply group_update_keys in Hx as [->|Hx].
      * apply compare_Gt. exact E.
      * rewrite List.Forall_forall in Hall. apply Hall. exact Hx.
Qed.

(** Where an entry of the updated groups comes from. *)
Lemma group_update_In groups k' a' :
  StronglySorted String_as_OT.lt (map fst groups) ->
  In (k', a') (update groups) ->
  (k' = k /\ ((a' = first /\ ~ In k (map fst groups))
              \/ exists a, In (k, a) groups /\ a' = next a))
  \/ (k' <> k /\ In (k', a') groups).
Proof.
  induction groups as [|[k1 v] rest IH]; simpl; intros Hs Hin.
  - destruct Hin as [[= <- <-]|[]]. left. split; [reflexivity|]. left. tauto.
  - destruct (String_as_OT.compare k k1) eqn:E.
    + apply compare_Eq in E. subst k1.
      pose proof (above_head_not_in _ _ Hs (or_introl eq_refl)) as Hnot.
      destruct Hin as [[= <- <-]|Hin].
      * left. split; [reflexivity|]. right. exists v. split; [left|]; reflexivity.
      * right. split; [|right; exact Hin].
        intros ->. apply Hnot. apply (in_map fst) in Hin. exact Hin.
    + pose proof (above_head_not_in _ _ Hs (or_intror E)) as Hnot.
      assert (Hk1 : k <> k1).
      { intros ->. exact (irreflexivity String_as_OT.lt _ E). }
      destruct Hin as [[= <- <-]|Hin].
      * left. split; [reflexivity|]. left. split; [reflexivity|].
        intros [Heq|Hin]; [congruence|]. exact (Hnot Hin).
      * right. split; [|exact Hin].
        intros ->. apply (in_map fst) in Hin. simpl in Hin.
        destruct Hin as [Heq|Hin]; [congruence|]. exact (Hnot Hin).
    + assert (Hk1 : k <> k1).
      { intros ->. rewrite compare_refl in E. discriminate. }
      apply StronglySorted_inv in Hs as [Hrest _].
      destruct Hin as [[= <- <-]|Hin].
      * right. split; [congruence|]. left. reflexivity.
      * destruct (IH Hrest Hin) as [[-> [[-> Hnot]|(a & Ha & ->)]]|[Hne Hin']].
        -- left. split; [reflexivity|]. left. split; [reflexivity|].
           intros [Heq|Hin']; [congruence|]. exact (Hnot Hin').
        -- left. split; [reflexivity|]. right. exists a.
           split; [right; exact Ha|reflexivity].
        -- right. split; [exact Hne|]. right. exact Hin'.
Qed.

Lemma group_update_sum (count : V -> Z) groups :
  count first = 1 -> (forall v, count (next v) = count v + 1) ->
  Sessions.sum_Z (map (fun g => count (snd g)) (update groups))
  = Sessions.sum_Z (map (fun g => count (snd g)) groups) + 1.
Proof.
  intros Hfirst Hnext.
  induction groups as [|[k1 v] rest IH]; simpl.
  - lia.
  - destruct (String_as_OT.compare k k1); simpl.
    + rewrite Hnext. lia.
    + lia.
    + rewrite IH. lia.
Qed.

End GroupUpdate.

Lemma rows_with_snoc sid rows r :
  rows_with sid (rows ++ [r])
  = rows_with sid rows
    + (if String.eqb (Frame.session_id r) sid then 1 else 0).
Proof.
  unfold rows_with. rewrite List.filter_app, length_app. simpl.
  destruct (String.eqb (Frame.session_id r) sid); simpl; lia.
Qed.

Lemma rows_with_absent sid rows :
  (forall s, In s rows -> Frame.session_id s <> sid) -> rows_with sid rows = 0.
Proof.
  unfold rows_with. induction rows as [|x rows IH]; simpl; intros H.
  - reflexivity.
  - destruct (String.eqb_spec (Frame.session_id x) sid) as [E|_].
    + exfalso. apply (H x); [left; reflexivity|exact E].
    + apply IH. intros s Hs. apply H. right. exact Hs.
Qed.

(** One step of [aggregate] keeps the groups in order and exact. *)
Lemma aggregate_step groups processed r :
  groups_ok groups processed ->
  groups_ok (Sessions.group_update String_as_OT.compare (Frame.session_id r)
                                   (Sessions.agg_first r) (Sessions.agg_next r)
                                   groups)
            (processed ++ [r]).
Proof.
  intros (Hsorted & Hcount & Hcover & Hsum).
  repeat split.
  - apply group_update_sorted. exact Hsorted.
  - apply group_update_In in H; [|exact Hsorted].
    rewrite rows_with_snoc.
    destruct H as [[-> [[-> Hnot]|(a0 & Ha0 & ->)]]|[Hne Hin]].
    + rewrite String.eqb_refl, rows_with_absent; [reflexivity|].
      intros s Hs Heq. apply Hnot. rewrite <- Heq. apply Hcover. exact Hs.
    + rewrite String.eqb_refl. simpl.
      destruct (Hcount _ _ Ha0) as [-> _]. reflexivity.
    + destruct (String.eqb_spec (Frame.session_id r) k) as [E|_];
        [congruence|].
      destruct (Hcount _ _ Hin) as [-> _]. lia.
  - apply group_update_In in H; [|exact Hsorted].
    destruct H as [[-> [[-> Hnot]|(a0 & Ha0 & ->)]]|[Hne Hin]].
    + simpl. lia.
    + simpl. destruct (Hcount _ _ Ha0) as [_ Hpos]. lia.
    + destruct (Hcount _ _ Hin) as [_ Hpos]. exact Hpos.
  - intros s Hs. apply group_update_keys.
    apply in_app_or in Hs as [Hs|[<-|[]]].
    + right. apply Hcover. exact Hs.
    + left. reflexivity.
  - rewrite (group_update_sum _ _ _ Sessions.agg_count), Hsum, length_app.
    + simpl. lia.
    + reflexivity.
    + reflexivity.
Qed.

Lemma aggregate_fold rows : forall groups processed,
  groups_ok groups processed ->
  groups_ok
    (fold_left
       (fun groups r =>
          Sessions.group_update String_as_OT.compare (Frame.session_id r)
                                (Sessions.agg_first r) (Sessions.agg_next r)
                                groups)
       rows groups)
    (processed ++ rows).
Proof.
  induction rows as [|r rows IH]; intros groups processed Hok; simpl.
  - rewrite app_nil_r. exact Hok.
  - replace (processed ++ r :: rows) with ((processed ++ [r]) ++ rows)
      by (rewrite <- app_assoc; reflexivity).
    apply IH. apply aggregate_step. exact Hok.
Qed.

Lemma aggregate_ok rows : groups_ok (Sessions.aggregate rows) rows.
Proof.
  apply (aggregate_fold rows [] []).
  repeat split; simpl; try constructor; intros; contradiction.
Qed.

Lemma strictly_sorted_NoDup keys :
  StronglySorted String_as_OT.lt keys -> NoDup keys.
Proof.
  induction 1 as [|k keys Hs IH Hall]; constructor; [|exact IH].
  intros Hin. apply list_elem_of_In in Hin.
  rewrite List.Forall_forall in Hall.
  exact (irreflexivity String_as_OT.lt _ (Hall _ Hin)).
Qed.

(** C4: on a table with rows, [create_sessions] returns the same rows,
    each with one session identifier, and the sessions reported by
    [get_session_stats] partition them: the identifiers of the sessions
    are distinct, the page views of a session are the number of rows that
    carry its identifier, every row carries the identifier of a reported
    session, and the page views add up to the number of rows of the
    table. *)
Theorem sessions_partition_the_rows :
  forall (r0 : Frame.Row) (rows0 : list Frame.Row) (minutes : Z),
    exists (srows : list Frame.SessionRow) (stats : Sessions.SessionStats),
      Frame.create_sessions (Frame.Table (r0 :: rows0)) minutes
      = Frame.SessionTable srows
      /\ Permutation (map Frame.row srows) (r0 :: rows0)
      /\ Sessions.get_session_stats (Frame.SessionTable srows) = Some stats
      /\ Sessions.sum_Z (map Sessions.pageviews (Sessions.session_details stats))
         = Z.of_nat (length (r0 :: rows0))
      /\ NoDup (map Sessions.session_id (Sessions.session_details stats))
      /\ (forall d, In d (Sessions.session_details stats) ->
                    Sessions.pageviews d
                    = rows_with (Sessions.session_id d) srows
                    /\ 0 < Sessions.pageviews d)
      /\ (forall s, In s srows ->
                    exists d, In d (Sessions.session_details stats)
                              /\ Sessions.session_id d = Frame.session_id s).
Proof.
  intros r0 rows0 minutes.
  pose proof (sort_by_Permutation Frame.key_le (r0 :: rows0)) as Hperm.
  destruct (sort_by_cons_inv Frame.key_le r0 rows0) as (y & l' & E).
  rewrite create_sessions_table. rewrite E in *.
  set (srows := annotate (Frame.timedelta_minutes minutes) ∅ ∅ (y :: l')).
  assert (Hrows : map Frame.row srows = y :: l') by apply annotate_rows.
  destruct (aggregate_ok srows) as (Hsorted & Hcount & Hcover & Hsum).
  exists srows. eexists.
  split; [reflexivity|].
  split; [rewrite Hrows; exact Hperm|].
  split; [reflexivity|].
  cbn [Sessions.session_details].
  rewrite !map_map.
  assert (Hids : map (fun g => Sessions.session_id (Sessions.detail_of g))
                     (Sessions.aggregate srows)
                 = map fst (Sessions.aggregate srows)).
  { apply map_ext. intros [k a]. reflexivity. }
  assert (Hpv : map (fun g => Sessions.pageviews (Sessions.detail_of g))
                    (Sessions.aggregate srows)
                = map (fun g => Sessions.agg_count (snd g))
                      (Sessions.aggregate srows)).
  { apply map_ext. intros [k a]. reflexivity. }
  rewrite Hids, Hpv, Hsum.
  split.
  { rewrite <- (length_map Frame.row srows), Hrows.
    rewrite (Permutation_length Hperm). reflexivity. }
  split; [apply strictly_sorted_NoDup; exact Hsorted|].
  split.
  - intros d Hd. apply in_map_iff in Hd as ([k a] & <- & Hin).
    simpl. apply Hcount. exact Hin.
  - intros s Hs. specialize (Hcover s Hs).
    apply in_map_iff in Hcover as ([k a] & Hk & Hin). simpl in Hk. subst k.
    exists (Sessions.detail_of (Frame.session_id s, a)).
    split; [|reflexivity].
    apply in_map. exact Hin.
Qed.

Lemma sessions_partition_the_rows_witness :
  In scenario_detail [scenario_detail]
  /\ Sessions.pageviews scenario_detail
     = rows_with (Sessions.session_id scenario_detail)
                 [first_request; early_request]
  /\ 0 < Sessions.pageviews scenario_detail.
Proof.
  split; [left; reflexivity|].
  destruct (sessions_partition_the_rows (request_at 10 0) [request_at 10 20] 30)
    as (srows & stats & Hcs & _ & Hstats & _ & _ & Hdetail & _).
  assert (E1 : Frame.create_sessions
                 (Frame.Table [request_at 10 0; request_at 10 20]) 30
               = Frame.SessionTable [first_request; early_request])
    by (vm_compute; reflexivity).
  rewrite E1 in Hcs. injection Hcs as <-.
  assert (E2 : option_map Sessions.session_details
                 (Sessions.get_session_stats
                    (Frame.SessionTable [first_request; early_request]))
               = Some [scenario_detail])
    by (vm_compute; reflexivity).
  rewrite Hstats in E2. simpl in E2. injection E2 as E2.
  apply Hdetail. rewrite E2. left. reflexivity.
Defined.

(** * Further properties *)

(** ** Ingestion: chunks, limits and counts *)

Section IngestChunks.

Import Ingest.

Variable clock : Z -> PyTime.datetime.

(** The size of the chunks changes neither the records accumulated nor the
    errors counted. *)
Lemma read_loop_chunks max_lines c1 c2 lines : forall n read_fails st1 st2,
  datos st1 ++ chunk_datos st1 = datos st2 ++ chunk_datos st2 ->
  errores st1 = errores st2 ->
  let r1 := read_loop clock max_lines c1 n lines read_fails st1 in
  let r2 := read_loop clock max_lines c2 n lines read_fails st2 in
  snd r1 = snd r2
  /\ datos (fst r1) ++ chunk_datos (fst r1)
     = datos (fst r2) ++ chunk_datos (fst r2)
  /\ errores (fst r1) = errores (fst r2).
Proof.
  induction lines as [|line rest IH]; intros n read_fails st1 st2 Hd He; simpl.
  - auto.
  - destruct (limit_reached max_lines n); simpl; [auto|].
    apply IH.
    + rewrite !process_line_records, Hd. reflexivity.
    + rewrite !process_line_errors, He. reflexivity.
Qed.

(** A positive limit [p] makes the loop read the first [p] lines; a
    failure of the read is met only when the file has no more lines than
    that. *)
Lemma read_loop_prefix p c lines : forall n read_fails st,
  n <= Z.pos p ->
  read_loop clock (Some (Z.pos p)) c n lines read_fails st
  = read_loop clock None c n (firstn (Z.to_nat (Z.pos p - n)) lines)
              (read_fails && (Z.of_nat (length lines) <=? Z.pos p - n)) st.
Proof.
  induction lines as [|line rest IH]; intros n read_fails st Hn.
  - rewrite firstn_nil. simpl.
    replace (Z.of_nat 0 <=? Z.pos p - n) with true
      by (symmetry; apply Z.leb_le; lia).
    rewrite andb_true_r. reflexivity.
  - cbn [read_loop limit_reached].
    replace (Z.pos p =? 0) with false by reflexivity.
    cbn [negb andb].
    destruct (Z.leb_spec (Z.pos p) n) as [Hle|Hlt].
    + replace (Z.pos p - n) with 0 by lia. simpl.
      rewrite andb_false_r. reflexivity.
    + replace (Z.to_nat (Z.pos p - n))
        with (S (Z.to_nat (Z.pos p - (n + 1)))) by lia.
      cbn [firstn read_loop limit_reached].
      rewrite IH by lia. f_equal.
      f_equal. change (length (line :: rest)) with (S (length rest)).
      destruct (Z.leb_spec (Z.of_nat (length rest)) (Z.pos p - (n + 1)));
        symmetry; [apply Z.leb_le | apply Z.leb_gt]; lia.
Qed.

(** A negative limit stops the loop at the first line. *)
Lemma read_loop_negative p c lines read_fails st :
  read_loop clock (Some (Z.neg p)) c 0 lines read_fails st
  = (st, (read_fails && match lines with [] => true | _ => false end)%bool).
Proof.
  destruct lines; simpl.
  - rewrite andb_true_r. reflexivity.
  - rewrite andb_false_r. reflexivity.
Qed.

Lemma read_loop_lines_read max_lines c lines read_fails st :
  read_loop clock max_lines c 0 lines read_fails st
  = read_loop clock None c 0 (lines_read max_lines lines)
              (read_fails
               && (length lines <=? length (lines_read max_lines lines))%nat)
              st.
Proof.
  destruct max_lines as [[|p|p]|]; unfold lines_read.
  - rewrite read_loop_zero_limit, Nat.leb_refl, andb_true_r. reflexivity.
  - rewrite read_loop_prefix by lia.
    replace (Z.to_nat (Z.pos p - 0)) with (Pos.to_nat p) by lia.
    f_equal. f_equal.
    rewrite length_firstn.
    destruct (Z.leb_spec (Z.of_nat (length lines)) (Z.pos p - 0));
      symmetry; [apply Nat.leb_le | apply Nat.leb_gt]; lia.
  - rewrite read_loop_negative. destruct lines; simpl.
    + rewrite andb_true_r. reflexivity.
    + rewrite andb_false_r. reflexivity.
  - rewrite Nat.leb_refl, andb_true_r. reflexivity.
Qed.

End IngestChunks.

(** X1: the result of [crear_dataframe] does not depend on [chunk_size]:
    whatever the two sizes (zero and negative ones included), the frame and
    the error count are the same. *)
Theorem chunk_size_is_immaterial :
  forall (clock : Z -> PyTime.datetime) (archivo_log : Ingest.LogFile)
         (max_lines : option Z) (c1 c2 : Z),
    Ingest.crear_dataframe clock archivo_log max_lines c1
    = Ingest.crear_dataframe clock archivo_log max_lines c2.
Proof.
  intros clock [|lines read_fails] max_lines c1 c2; [reflexivity|].
  unfold Ingest.crear_dataframe.
  pose proof (read_loop_chunks clock max_lines c1 c2 lines 0 read_fails
                               Ingest.initial Ingest.initial eq_refl eq_refl)
    as H.
  simpl in H.
  destruct (Ingest.read_loop clock max_lines c1 0 lines read_fails
                             Ingest.initial) as [st1 r1].
  destruct (Ingest.read_loop clock max_lines c2 0 lines read_fails
                             Ingest.initial) as [st2 r2].
  simpl in H. destruct H as (-> & -> & ->). reflexivity.
Qed.

(** X2: a limit on the lines is a cut of the file.  With a positive
    [max_lines] of [p] the result is the one of an unlimited run over the
    first [p] lines, and a read that fails after them goes unnoticed; with
    a negative [max_lines] no line is read and the result is the frame
    without rows and no error, whatever the file. *)
Theorem max_lines_cuts_the_file :
  forall (clock : Z -> PyTime.datetime) (chunk_size : Z),
    (forall (lines : list string) (read_fails : bool) (p : positive),
        Ingest.crear_dataframe clock (Ingest.Readable lines read_fails)
                               (Some (Z.pos p)) chunk_size
        = Ingest.crear_dataframe
            clock
            (Ingest.Readable (firstn (Pos.to_nat p) lines)
                             (read_fails
                              && (length lines <=? Pos.to_nat p)%nat))
            None chunk_size)
    /\ (forall (archivo_log : Ingest.LogFile) (p : positive),
           Ingest.crear_dataframe clock archivo_log (Some (Z.neg p))
                                  chunk_size
           = Some (Frame.Empty, 0)).
Proof.
  intros clock chunk_size. split.
  - intros lines read_fails p. unfold Ingest.crear_dataframe.
    rewrite read_loop_lines_read. unfold lines_read.
    rewrite length_firstn.
    replace (length lines <=? Nat.min (Pos.to_nat p) (length lines))%nat
      with (length lines <=? Pos.to_nat p)%nat; [reflexivity|].
    destruct (Nat.leb_spec (length lines) (Pos.to_nat p));
      symmetry; [apply Nat.leb_le | apply Nat.leb_gt]; lia.
  - intros [|lines read_fails] p; [reflexivity|].
    unfold Ingest.crear_dataframe. rewrite read_loop_negative.
    destruct (read_fails && _)%bool; reflexivity.
Qed.

Lemma rows_of_Forall2 (f : Log.LogRecord -> Z) rs : forall rows,
  Ingest.rows_of (map f rs) rs = Some rows ->
  Forall2 (fun row r => Ingest.row_of (f r) r = Some row) rows rs.
Proof.
  induction rs as [|r rs IH]; intros rows H; simpl in H.
  - injection H as <-. constructor.
  - destruct (Ingest.row_of (f r) r) as [x|] eqn:Ex; [|discriminate].
    destruct (Ingest.rows_of (map f rs) rs) as [xs|]; [|discriminate].
    injection H as <-. constructor; auto.
Qed.




(** ** White space around a line *)

Lemma space_not_brace c : PyStr.is_space c = true -> Ascii.eqb c "{" = false.
Proof.
  destruct (Ascii.eqb_spec c "{") as [->|]; [vm_compute; discriminate|].
  reflexivity.
Qed.

Lemma rstrip_cons c r :
  PyStr.is_space c = false ->
  PyStr.rstrip (String c r) = String c (PyStr.rstrip r).
Proof.
  intros Hc. simpl. rewrite Hc. destruct (PyStr.rstrip r); reflexivity.
Qed.

Lemma rstrip_cons_space c r :
  PyStr.is_space c = true ->
  PyStr.rstrip (String c r)
  = match PyStr.rstrip r with
    | EmptyString => EmptyString
    | r' => String c r'
    end.
Proof. intros Hc. simpl. rewrite Hc. reflexivity. Qed.

Lemma rstrip_idempotent s : PyStr.rstrip (PyStr.rstrip s) = PyStr.rstrip s.
Proof.
  induction s as [|c r IH]; [reflexivity|].
  destruct (PyStr.is_space c) eqn:Hc.
  - rewrite rstrip_cons_space by assumption.
    destruct (PyStr.rstrip r) as [|c' r'] eqn:Er; [reflexivity|].
    rewrite rstrip_cons_space by assumption. rewrite IH. reflexivity.
  - rewrite rstrip_cons by assumption. rewrite rstrip_cons by assumption.
    rewrite IH. reflexivity.
Qed.

Lemma lstrip_head s :
  PyStr.lstrip s = EmptyString
  \/ exists c r, PyStr.lstrip s = String c r /\ PyStr.is_space c = false.
Proof.
  induction s as [|c r IH]; simpl; [auto|].
  destruct (PyStr.is_space c) eqn:Hc; [exact IH|].
  right. exists c, r. auto.
Qed.

Lemma strip_cons c r :
  PyStr.is_space c = false ->
  PyStr.strip (String c r) = String c (PyStr.rstrip r).
Proof.
  intros Hc. unfold PyStr.strip. simpl PyStr.lstrip. rewrite Hc.
  apply rstrip_cons. exact Hc.
Qed.

Lemma strip_idempotent s : PyStr.strip (PyStr.strip s) = PyStr.strip s.
Proof.
  unfold PyStr.strip at 2 3.
  destruct (lstrip_head s) as [->|(c & r & -> & Hc)]; [reflexivity|].
  rewrite rstrip_cons by assumption. rewrite strip_cons by assumption.
  rewrite rstrip_idempotent. reflexivity.
Qed.

Lemma extract_json_block_lstrip s :
  Log.extract_json_block (PyStr.lstrip s) = Log.extract_json_block s.
Proof.
  induction s as [|c r IH]; [reflexivity|].
  simpl PyStr.lstrip. destruct (PyStr.is_space c) eqn:Hc; [|reflexivity].
  rewrite IH. simpl. rewrite (space_not_brace c Hc). reflexivity.
Qed.

Lemma not_space_brace : PyStr.is_space "{" = false.
Proof. reflexivity. Qed.

Lemma extract_json_block_rstrip s :
  Log.extract_json_block (PyStr.rstrip s) = Log.extract_json_block s.
Proof.
  induction s as [|c r IH]; [reflexivity|].
  destruct (Ascii.eqb_spec c "{") as [->|Hne].
  - rewrite rstrip_cons by reflexivity.
    cbn [Log.extract_json_block]. rewrite Ascii.eqb_refl.
    rewrite !strip_cons by reflexivity.
    rewrite rstrip_idempotent, IH. reflexivity.
  - assert (Hb : Ascii.eqb c "{" = false) by (apply Ascii.eqb_neq; exact Hne).
    destruct (PyStr.is_space c) eqn:Hc.
    + rewrite rstrip_cons_space by assumption.
      cbn [Log.extract_json_block]. rewrite Hb. rewrite <- IH.
      destruct (PyStr.rstrip r) as [|c' r']; [reflexivity|].
      cbn [Log.extract_json_block]. rewrite Hb. reflexivity.
    + rewrite rstrip_cons by assumption.
      cbn [Log.extract_json_block]. rewrite Hb. exact IH.
Qed.

Lemma extract_json_block_strip s :
  Log.extract_json_block (PyStr.strip s) = Log.extract_json_block s.
Proof.
  unfold PyStr.strip.
  rewrite extract_json_block_rstrip. apply extract_json_block_lstrip.
Qed.

Lemma parse_apache_log_line_strip now line :
  Log.parse_apache_log_line now (PyStr.strip line)
  = Log.parse_apache_log_line now line.
Proof.
  unfold Log.parse_apache_log_line. rewrite strip_idempotent. reflexivity.
Qed.

Lemma parse_json_record_strip now v line :
  Log.parse_json_record now v (PyStr.strip line)
  = Log.parse_json_record now v line.
Proof.
  unfold Log.parse_json_record. rewrite strip_idempotent. reflexivity.
Qed.

Lemma parse_log_to_dict_strip now line :
  Log.parse_log_to_dict now (PyStr.strip line)
  = Log.parse_log_to_dict now line.
Proof.
  unfold Log.parse_log_to_dict.
  rewrite extract_json_block_strip, parse_apache_log_line_strip.
  destruct (Log.extract_json_block line) as [v|]; [|reflexivity].
  rewrite parse_json_record_strip. reflexivity.
Qed.

(** X4: white space around a line does not matter.  The parsers give for
    a line the result they give for the stripped line, so two lines that
    differ only in the white space around them (such as a line with and
    without its terminator, which the ingestion loop leaves in place and
    the diagnosis strips) have the same result. *)
Theorem surrounding_white_space_is_ignored :
  forall now : PyTime.datetime,
    (forall line : string,
        Log.extract_json_block (PyStr.strip line)
        = Log.extract_json_block line
        /\ Log.parse_apache_log_line now (PyStr.strip line)
           = Log.parse_apache_log_line now line
        /\ Log.parse_log_to_dict now (PyStr.strip line)
           = Log.parse_log_to_dict now line)
    /\ (forall line1 line2 : string,
           PyStr.strip line1 = PyStr.strip line2 ->
           Log.parse_log_to_dict now line1 = Log.parse_log_to_dict now line2).
Proof.
  intros now. split.
  - intros line. repeat split.
    + apply extract_json_block_strip.
    + apply parse_apache_log_line_strip.
    + apply parse_log_to_dict_strip.
  - intros line1 line2 E.
    rewrite <- (parse_log_to_dict_strip now line1),
            <- (parse_log_to_dict_strip now line2), E.
    reflexivity.
Qed.

Lemma surrounding_white_space_is_ignored_witness :
  Log.parse_log_to_dict example_now
                        (scenario_line +:+ String (ascii_of_N 10) EmptyString)
  = Log.parse_log_to_dict example_now (String " " scenario_line).
Proof.
  apply (proj2 (surrounding_white_space_is_ignored example_now)).
  vm_compute. reflexivity.
Defined.

(** ** The JSON block of a line *)

Lemma members_dict fuel : forall acc s v r,
  Json.members fuel acc s = Some (v, r) -> exists d, v = Json.VDict d.
Proof.
  induction fuel as [|f IH]; intros acc s v r H; [discriminate|].
  cbn [Json.members] in H.
  destruct (Json.after PyStr.dquote s) as [r0|]; [|discriminate].
  destruct (Json.scanstring r0) as [[key r1]|]; [|discriminate].
  destruct (Json.after ":" (Json.skip_ws r1)) as [r2|]; [|discriminate].
  destruct (Json.scan_once f (Json.skip_ws r2)) as [[v1 r3]|]; [|discriminate].
  destruct (Json.after "}" (Json.skip_ws r3)) as [r4|].
  - injection H as <- <-. eauto.
  - destruct (Json.after "," (Json.skip_ws r3)) as [r4|]; [|discriminate].
    eapply IH. exact H.
Qed.

Lemma loads_brace r v :
  Json.loads (String "{" r) = Some v -> exists d, v = Json.VDict d.
Proof.
  unfold Json.loads. cbn [Json.skip_ws].
  replace (Json.is_ws "{") with false by reflexivity.
  cbn [Json.scan_once].
  replace (Ascii.eqb "{" PyStr.dquote) with false by reflexivity.
  rewrite Ascii.eqb_refl.
  destruct (Json.after "}" (Json.skip_ws r)) as [r1|].
  - destruct (PyStr.is_empty (Json.skip_ws r1)); [|discriminate].
    intros H. injection H as <-. eauto.
  - destruct (Json.members _ _ _) as [[v1 r1]|] eqn:Em; [|discriminate].
    destruct (PyStr.is_empty (Json.skip_ws r1)); [|discriminate].
    intros H. injection H as <-. eapply members_dict. exact Em.
Qed.

Lemma extract_json_block_dict line : forall v,
  Log.extract_json_block line = Some v -> exists d, v = Json.VDict d.
Proof.
  induction line as [|c r IH]; intros v H; [discriminate|].
  cbn [Log.extract_json_block] in H.
  destruct (Ascii.eqb_spec c "{") as [->|Hne]; [|auto].
  rewrite strip_cons in H by reflexivity.
  destruct (Json.loads _) as [j|] eqn:E; [|auto].
  injection H as <-. eapply loads_brace. exact E.
Qed.

Lemma extract_json_block_no_brace line :
  PyStr.contains "{" line = false -> Log.extract_json_block line = None.
Proof.
  induction line as [|c r IH]; intros H; [reflexivity|].
  cbn [PyStr.contains] in H.
  apply orb_false_elim in H. destruct H as [Hp Hr].
  cbn [Log.extract_json_block].
  destruct (Ascii.eqb_spec c "{") as [->|Hne].
  - destruct r; vm_compute in Hp; discriminate.
  - auto.
Qed.

(** X5: the JSON block of a line is always an object: whatever
    [extract_json_block] returns is a dictionary (so the calls of [get]
    and [keys] on it cannot fail), a line without an opening brace has no
    block and is left to the Apache parser, and every line is handled
    either by the Apache parser or, when its block is a dictionary with at
    least one key, by the JSON branch alone. *)
Theorem json_block_is_an_object :
  (forall (line : string) (v : Json.value),
      Log.extract_json_block line = Some v -> exists d, v = Json.VDict d)
  /\ (forall (now : PyTime.datetime) (line : string),
         PyStr.contains "{" line = false ->
         Log.extract_json_block line = None
         /\ Log.parse_log_to_dict now line
            = Log.parse_apache_log_line now line)
  /\ (forall (now : PyTime.datetime) (line : string),
         Log.parse_log_to_dict now line = Log.parse_apache_log_line now line
         \/ exists d,
             d <> ∅
             /\ Log.extract_json_block line = Some (Json.VDict d)
             /\ Log.parse_log_to_dict now line
                = Log.parse_json_record now (Json.VDict d) line).
Proof.
  split; [|split].
  - intros line v. apply extract_json_block_dict.
  - intros now line H. apply extract_json_block_no_brace in H.
    unfold Log.parse_log_to_dict. rewrite H. auto.
  - intros now line. unfold Log.parse_log_to_dict.
    destruct (Log.extract_json_block line) as [v|] eqn:E; [|auto].
    destruct (extract_json_block_dict line v E) as [d ->].
    destruct (Json.truthy (Json.VDict d)) eqn:Ht; [|auto].
    right. exists d. repeat split.
    intros ->. simpl in Ht. rewrite bool_decide_eq_true_2 in Ht by reflexivity.
    discriminate.
Qed.

Lemma json_block_is_an_object_witness :
  (exists d, Json.VDict unmatched_time_object = Json.VDict d)
  /\ Log.extract_json_block scenario_line = None.
Proof.
  destruct json_block_is_an_object as (H1 & H2 & _).
  split.
  - apply (H1 unmatched_time_line). vm_compute. reflexivity.
  - apply (H2 example_now scenario_line). vm_compute. reflexivity.
Defined.

(** ** What every record satisfies *)

Lemma decimal_acc_nonneg s : forall acc,
  PyStr.all_chars PyStr.is_decimal s = true -> 0 <= acc ->
  0 <= PyStr.decimal_acc acc s.
Proof.
  induction s as [|c r IH]; intros acc H Hacc; simpl; [exact Hacc|].
  simpl in H. apply andb_true_iff in H. destruct H as [Hc Hr].
  apply IH; [exact Hr|].
  unfold PyStr.is_decimal, PyStr.in_range in Hc.
  apply andb_true_iff in Hc. destruct Hc as [Hlo _].
  apply N.leb_le in Hlo. unfold PyStr.digit_val. lia.
Qed.

Lemma int_of_digits_nonneg s n : PyStr.int_of_digits s = Some n -> 0 <= n.
Proof.
  unfold PyStr.int_of_digits.
  destruct (negb (PyStr.is_empty s)); simpl; [|discriminate].
  destruct (PyStr.all_chars PyStr.is_decimal s) eqn:H; [|discriminate].
  intros E. injection E as <-. apply decimal_acc_nonneg; [exact H|lia].
Qed.

Lemma int_or_zero_nonneg s : 0 <= Log.int_or_zero s.
Proof.
  unfold Log.int_or_zero.
  destruct (negb (String.eqb s "-") && PyStr.isdigit s)%bool; [|lia].
  destruct (PyStr.int_of_digits s) as [n|] eqn:E; [|lia].
  eapply int_of_digits_nonneg. exact E.
Qed.

Lemma str_isdigit_int z : Log.str_isdigit (Json.VInt z) = true -> 0 <= z.
Proof.
  simpl. unfold PyStr.str_of_Z.
  destruct (Z.ltb_spec z 0) as [Hneg|Hpos]; [|lia].
  intros H. vm_compute in H. discriminate.
Qed.

Lemma int_if_digits_nonneg x y n :
  Log.str_isdigit y = true -> x = y ->
  Log.int_if_digits x y = Some n -> 0 <= n.
Proof.
  intros Hy -> H. unfold Log.int_if_digits in H. rewrite Hy in H.
  destruct y as [|b|z|f|s|l|d]; try discriminate.
  - injection H as <-. apply str_isdigit_int. exact Hy.
  - eapply int_of_digits_nonneg. exact H.
Qed.

Lemma int_if_digits_get d k1 k2 n :
  Log.int_if_digits
    (Json.get d k1 (Json.get d k2 (Json.VInt 0)))
    (Json.get d k1 (Json.get d k2 (Json.VStr EmptyString))) = Some n ->
  0 <= n.
Proof.
  unfold Json.get.
  destruct (d !! k1) as [v1|]; [|destruct (d !! k2) as [v2|]].
  - destruct (Log.str_isdigit v1) eqn:E.
    + apply int_if_digits_nonneg; auto.
    + unfold Log.int_if_digits. rewrite E. intros H. injection H as <-. lia.
  - destruct (Log.str_isdigit v2) eqn:E.
    + apply int_if_digits_nonneg; auto.
    + unfold Log.int_if_digits. rewrite E. intros H. injection H as <-. lia.
  - unfold Log.int_if_digits. simpl. intros H. injection H as <-. lia.
Qed.

Lemma parse_apache_record now line r :
  Log.parse_apache_log_line now line = Some r ->
  Log.date r = PyTime.date_of (Log.timestamp r)
  /\ Log.time r = PyTime.time_of (Log.timestamp r)
  /\ Log.raw_line r = PyStr.strip line
  /\ 0 <= Log.status_code r /\ 0 <= Log.size r
  /\ (exists a m p v,
         Log.ip r = Json.VStr a /\ Log.method r = Json.VStr m
         /\ Log.path r = Json.VStr p /\ Log.version r = Json.VStr v)
  /\ (Log.referer r = Json.VNone \/ exists s, Log.referer r = Json.VStr s)
  /\ (Log.user_agent r = Json.VNone
      \/ exists s, Log.user_agent r = Json.VStr s).
Proof.
  unfold Log.parse_apache_log_line.
  destruct (Log.match_groups (PyStr.strip line)) as [groups|]; [|discriminate].
  destruct (nth_error groups 0) as [a|]; [|discriminate].
  destruct (nth_error groups 1) as [ts|]; [|discriminate].
  destruct (Log.apache_timestamp now ts) as [dt|]; [|discriminate].
  intros H. injection H as <-. simpl.
  repeat split; try apply int_or_zero_nonneg.
  - eauto 10.
  - unfold Log.none_if_dash. destruct (String.eqb _ "-"); eauto.
  - unfold Log.none_if_dash. destruct (String.eqb _ "-"); eauto.
Qed.

Lemma parse_json_record_fields now v line r :
  Log.parse_json_record now v line = Some r ->
  Log.date r = PyTime.date_of (Log.timestamp r)
  /\ Log.time r = PyTime.time_of (Log.timestamp r)
  /\ Log.raw_line r = PyStr.strip line
  /\ 0 <= Log.status_code r /\ 0 <= Log.size r.
Proof.
  unfold Log.parse_json_record.
  destruct v as [| | | | | |d]; try discriminate.
  destruct (negb (Json.truthy _)); [discriminate|].
  destruct (Json.get d "time" _) as [| | | |s| |]; try discriminate.
  destruct (Log.json_status_code d) as [sc|] eqn:Esc; [|discriminate].
  destruct (Log.json_size d) as [sz|] eqn:Esz; [|discriminate].
  intros H. injection H as <-. simpl.
  repeat split.
  - eapply int_if_digits_get. exact Esc.
  - eapply int_if_digits_get. exact Esz.
Qed.

(** X6: what every record of [parse_log_to_dict] satisfies, whichever
    branch made it: its date and time of day are those of its time stamp,
    its raw line is the line stripped, and its status code and size are
    not negative. *)
Theorem records_are_consistent :
  forall (now : PyTime.datetime) (line : string) (r : Log.LogRecord),
    Log.parse_log_to_dict now line = Some r ->
    Log.date r = PyTime.date_of (Log.timestamp r)
    /\ Log.time r = PyTime.time_of (Log.timestamp r)
    /\ Log.raw_line r = PyStr.strip line
    /\ 0 <= Log.status_code r
    /\ 0 <= Log.size r.
Proof.
  intros now line r. unfold Log.parse_log_to_dict.
  destruct (Log.extract_json_block line) as [v|].
  - destruct (Json.truthy v).
    + apply parse_json_record_fields.
    + intros H. apply parse_apache_record in H. tauto.
  - intros H. apply parse_apache_record in H. tauto.
Qed.

Lemma records_are_consistent_witness :
  Log.date scenario_record = PyTime.date_of (Log.timestamp scenario_record)
  /\ Log.time scenario_record
     = PyTime.time_of (Log.timestamp scenario_record)
  /\ Log.raw_line scenario_record = PyStr.strip scenario_line
  /\ 0 <= Log.status_code scenario_record
  /\ 0 <= Log.size scenario_record.
Proof.
  apply (records_are_consistent example_now scenario_line).
  vm_compute. reflexivity.
Defined.

(** ** Files in the Apache format *)

Lemma row_of_apache now line r t :
  Log.parse_apache_log_line now line = Some r ->
  exists row, Ingest.row_of t r = Some row.
Proof.
  intros H. apply parse_apache_record in H.
  destruct H as (_ & _ & _ & _ & _ & (a & m & p & v & Ha & Hm & Hp & Hv)
                 & Hr & Hu).
  unfold Ingest.row_of. rewrite Ha, Hm, Hp, Hv. simpl.
  destruct Hr as [->|[s1 ->]]; destruct Hu as [->|[s2 ->]]; simpl; eauto.
Qed.

Lemma rows_of_total rs : forall ts,
  Forall (fun r => forall t, exists row, Ingest.row_of t r = Some row) rs ->
  exists rows, Ingest.rows_of ts rs = Some rows.
Proof.
  induction rs as [|r rs IH]; intros ts H.
  - destruct ts; simpl; eauto.
  - destruct ts as [|t ts]; simpl; [eauto|].
    inversion H as [|? ? Hr Hrs]; subst.
    destruct (Hr t) as [row ->].
    destruct (IH ts Hrs) as [rows ->]. eauto.
Qed.

Lemma parsed_lines_apache clock lines : forall n,
  Forall (fun l => PyStr.contains "{" l = false) lines ->
  Forall (fun r => forall t, exists row, Ingest.row_of t r = Some row)
         (parsed_lines clock n lines).
Proof.
  induction lines as [|line rest IH]; intros n H; simpl; [constructor|].
  inversion H as [|? ? Hl Hrest]; subst.
  destruct (Log.parse_log_to_dict (clock n) line) as [r|] eqn:E; [|auto].
  constructor; [|auto].
  unfold Log.parse_log_to_dict in E.
  rewrite (extract_json_block_no_brace line Hl) in E.
  intros t. eapply row_of_apache. exact E.
Qed.

Lemma lines_read_Forall (P : string -> Prop) max_lines lines :
  Forall P lines -> Forall P (lines_read max_lines lines).
Proof.
  intros H. destruct max_lines as [[|p|p]|]; simpl; auto.
  apply Forall_take. exact H.
Qed.

(** X7: the records of the Apache parser always fit the table: address,
    method, path and version are texts, referer and user agent are texts
    or missing, never a dash.  Hence a file none of whose lines has an
    opening brace always gives a result: the frame and the count of
    [crear_dataframe] are defined for it, whatever the limit, the chunk
    size and the failures of the read. *)
Theorem apache_files_always_give_a_frame :
  (forall (now : PyTime.datetime) (line : string) (r : Log.LogRecord),
      Log.parse_apache_log_line now line = Some r ->
      (exists a m p v,
          Log.ip r = Json.VStr a /\ Log.method r = Json.VStr m
          /\ Log.path r = Json.VStr p /\ Log.version r = Json.VStr v)
      /\ Log.referer r <> Json.VStr "-"
      /\ Log.user_agent r <> Json.VStr "-"
      /\ forall t, exists row, Ingest.row_of t r = Some row)
  /\ (forall (clock : Z -> PyTime.datetime) (lines : list string)
             (read_fails : bool) (max_lines : option Z) (chunk_size : Z),
         Forall (fun l => PyStr.contains "{" l = false) lines ->
         exists df e,
           Ingest.crear_dataframe clock (Ingest.Readable lines read_fails)
                                  max_lines chunk_size
           = Some (df, e)).
Proof.
  split.
  - intros now line r H. split; [|split; [|split]].
    + apply parse_apache_record in H. tauto.
    + revert H. unfold Log.parse_apache_log_line.
      destruct (Log.match_groups _) as [groups|]; [|discriminate].
      destruct (nth_error groups 0); [|discriminate].
      destruct (nth_error groups 1) as [ts|]; [|discriminate].
      destruct (Log.apache_timestamp now ts); [|discriminate].
      intros H. injection H as <-. simpl. unfold Log.none_if_dash.
      destruct (String.eqb_spec (Log.item_or groups 5 "-") "-");
        congruence.
    + revert H. unfold Log.parse_apache_log_line.
      destruct (Log.match_groups _) as [groups|]; [|discriminate].
      destruct (nth_error groups 0); [|discriminate].
      destruct (nth_error groups 1) as [ts|]; [|discriminate].
      destruct (Log.apache_timestamp now ts); [|discriminate].
      intros H. injection H as <-. simpl. unfold Log.none_if_dash.
      destruct (String.eqb_spec (Log.item_or groups 6 "-") "-");
        congruence.
    + intros t. eapply row_of_apache. exact H.
  - intros clock lines read_fails max_lines chunk_size H.
    unfold Ingest.crear_dataframe.
    rewrite read_loop_lines_read.
    pose proof (read_loop_unlimited
                  clock chunk_size (lines_read max_lines lines) 0
                  (read_fails
                   && (length lines <=? length (lines_read max_lines lines))%nat)
                  Ingest.initial) as L.
    simpl in L. destruct L as (_ & _ & Hd & _).
    destruct (Ingest.read_loop clock None chunk_size 0 _ _ Ingest.initial)
      as [st raised].
    simpl in Hd.
    destruct raised; [eauto|]. rewrite Hd.
    pose proof (parsed_lines_apache clock _ 0
                  (lines_read_Forall _ max_lines lines H)) as Hrows.
    destruct (parsed_lines clock 0 (lines_read max_lines lines))
      as [|r0 rs]; [eauto|].
    destruct (Ingest.to_datetime _) as [ts|]; [|eauto].
    destruct (rows_of_total (r0 :: rs) ts Hrows) as [rows ->]. eauto.
Qed.

Lemma apache_files_always_give_a_frame_witness :
  exists df e,
    Ingest.crear_dataframe example_clock (Ingest.Readable two_line_file true)
                           (Some 1) 3
    = Some (df, e).
Proof.
  apply (proj2 apache_files_always_give_a_frame).
  repeat constructor.
Defined.

(** ** The diagnosis of a file *)

Lemma first_lines_spec num_lineas lines read_fails : forall i,
  Diagnosis.first_lines num_lineas i lines read_fails
  = (map PyStr.strip (firstn (Z.to_nat (num_lineas - i)) lines),
     (read_fails && (length lines <=? Z.to_nat (num_lineas - i))%nat)%bool).
Proof.
  induction lines as [|line rest IH]; intros i.
  - rewrite firstn_nil. simpl. rewrite andb_true_r. reflexivity.
  - cbn [Diagnosis.first_lines].
    destruct (Z.leb_spec num_lineas i) as [Hle|Hlt].
    + replace (Z.to_nat (num_lineas - i)) with 0%nat by lia.
      simpl. rewrite andb_false_r. reflexivity.
    + rewrite IH.
      replace (Z.to_nat (num_lineas - i))
        with (S (Z.to_nat (num_lineas - (i + 1)))) by lia.
      reflexivity.
Qed.

Lemma json_check_total linea : exists j, Diagnosis.json_check linea = Some j.
Proof.
  unfold Diagnosis.json_check.
  destruct (PyStr.contains "{" linea); [|eauto].
  destruct (Log.extract_json_block linea) as [v|] eqn:E; [|eauto].
  destruct (extract_json_block_dict linea v E) as [d ->].
  destruct (Json.truthy (Json.VDict d)); eauto.
Qed.

Lemma json_check_false now linea :
  Diagnosis.json_check linea = Some false ->
  Log.parse_log_to_dict now linea = Log.parse_apache_log_line now linea.
Proof.
  unfold Diagnosis.json_check, Log.parse_log_to_dict.
  destruct (PyStr.contains "{" linea) eqn:Ec.
  - destruct (Log.extract_json_block linea) as [v|]; [|reflexivity].
    destruct (Json.truthy v); [|reflexivity].
    destruct v; discriminate.
  - rewrite (extract_json_block_no_brace linea Ec). reflexivity.
Qed.

Lemma apache_check_clock now1 now2 linea :
  Diagnosis.apache_check now1 linea = Diagnosis.apache_check now2 linea.
Proof.
  unfold Diagnosis.apache_check.
  destruct (Log.parse_apache_log_line now1 linea) eqn:E1;
    destruct (Log.parse_apache_log_line now2 linea) eqn:E2; try reflexivity.
  - apply (proj1 (apache_rejection now2 linea)) in E2.
    apply (proj2 (apache_rejection now1 linea)) in E2.
    rewrite E2 in E1. discriminate.
  - apply (proj1 (apache_rejection now1 linea)) in E1.
    apply (proj2 (apache_rejection now2 linea)) in E1.
    rewrite E1 in E2. discriminate.
Qed.

Lemma count_formats_spec clock lineas : forall i jc ac,
  exists jc' ac',
    Diagnosis.count_formats clock i lineas jc ac = Some (jc', ac')
    /\ jc <= jc' <= jc + Z.of_nat (length lineas)
    /\ ac <= ac' <= ac + Z.of_nat (length lineas)
    /\ (jc' = jc ->
        Forall (fun l => Diagnosis.json_check l = Some false) lineas)
    /\ (ac' = ac ->
        Forall (fun l => forall now, Diagnosis.apache_check now l = false)
               lineas).
Proof.
  induction lineas as [|linea rest IH]; intros i jc ac.
  - exists jc, ac. simpl. repeat split; try lia; constructor.
  - cbn [Diagnosis.count_formats].
    destruct (json_check_total linea) as [j Ej]. rewrite Ej.
    destruct (IH (i + 1) (if j then jc + 1 else jc)
                 (if Diagnosis.apache_check (clock i) linea
                  then ac + 1 else ac))
      as (jc' & ac' & E & Hj & Ha & Fj & Fa).
    exists jc', ac'. rewrite E.
    change (length (linea :: rest)) with (S (length rest)).
    split; [reflexivity|].
    split; [destruct j; lia|].
    split; [destruct (Diagnosis.apache_check (clock i) linea); lia|].
    split.
    + intros ->. destruct j; [lia|]. constructor; auto.
    + intros ->.
      destruct (Diagnosis.apache_check (clock i) linea) eqn:Ea; [lia|].
      constructor; auto.
      intros now. rewrite (apache_check_clock now (clock i)). exact Ea.
Qed.


Lemma all_lines_fail clock lines : forall n,
  Forall (fun l => forall now, Log.parse_log_to_dict now l = None) lines ->
  parsed_lines clock n lines = []
  /\ failed_lines clock n lines = Z.of_nat (length lines).
Proof.
  induction lines as [|line rest IH]; intros n H; [split; reflexivity|].
  inversion H as [|? ? Hl Hrest]; subst.
  simpl parsed_lines. simpl failed_lines. rewrite Hl.
  destruct (IH (n + 1) Hrest) as [-> ->].
  change (length (line :: rest)) with (S (length rest)). split; [reflexivity|lia].
Qed.

(** X9: the diagnosis and the ingestion agree on failure.  When the
    diagnosis of the first [num_lineas] lines ends with "no known format",
    no parser accepts any of these lines, and [crear_dataframe] limited to
    that many lines returns the frame without rows and counts every line
    it reads as an error. *)
Theorem no_known_format_means_no_rows :
  forall (clock : Z -> PyTime.datetime) (lines : list string)
         (read_fails : bool) (p : positive) (lineas : list string)
         (s : Diagnosis.Summary),
    Diagnosis.diagnosticar_archivo clock (Ingest.Readable lines read_fails)
                                   (Z.pos p)
    = (lineas, Some s) ->
    Diagnosis.recommendation s = Diagnosis.NoKnownFormat ->
    (forall now line, In line (firstn (Pos.to_nat p) lines) ->
                      Log.parse_log_to_dict now line = None)
    /\ forall (clock' : Z -> PyTime.datetime) (read_fails' : bool)
              (chunk_size : Z),
        Ingest.crear_dataframe clock' (Ingest.Readable lines read_fails')
                               (Some (Z.pos p)) chunk_size
        = Some (Frame.Empty,
                Z.of_nat (length (firstn (Pos.to_nat p) lines))).
Proof.
  intros clock lines read_fails p lineas s H Hrec.
  unfold Diagnosis.diagnosticar_archivo in H.
  rewrite first_lines_spec in H.
  replace (Z.to_nat (Z.pos p - 0)) with (Pos.to_nat p) in H by lia.
  destruct (read_fails && _)%bool; [discriminate|].
  destruct (count_formats_spec
              clock (map PyStr.strip (firstn (Pos.to_nat p) lines)) 1 0 0)
    as (jc & ac & E & Hj & Ha & Fj & Fa).
  rewrite E in H. injection H as <- <-. simpl in Hrec.
  unfold Diagnosis.recommend in Hrec.
  destruct (Z.ltb_spec jc ac); [discriminate|].
  destruct (Z.ltb_spec 0 jc); [discriminate|].
  assert (Hall : Forall (fun l => forall now,
                             Log.parse_log_to_dict now l = None)
                        (firstn (Pos.to_nat p) lines)).
  { assert (jc = 0) as Hjc by lia. assert (ac = 0) as Hac by lia.
    specialize (Fj Hjc). specialize (Fa Hac).
    rewrite List.Forall_forall in Fj, Fa. apply List.Forall_forall.
    intros line Hin now.
    assert (Hs : In (PyStr.strip line)
                    (map PyStr.strip (firstn (Pos.to_nat p) lines)))
      by (apply in_map; exact Hin).
    rewrite <- parse_log_to_dict_strip.
    rewrite (json_check_false now _ (Fj _ Hs)).
    specialize (Fa _ Hs now). unfold Diagnosis.apache_check in Fa.
    destruct (Log.parse_apache_log_line now (PyStr.strip line));
      [discriminate|reflexivity]. }
  split.
  - intros now line Hin. rewrite List.Forall_forall in Hall. auto.
  - intros clock' read_fails' chunk_size.
    unfold Ingest.crear_dataframe.
    rewrite read_loop_lines_read. unfold lines_read.
    pose proof (read_loop_unlimited
                  clock' chunk_size (firstn (Pos.to_nat p) lines) 0
                  (read_fails'
                   && (length lines
                       <=? length (firstn (Pos.to_nat p) lines))%nat)
                  Ingest.initial) as L.
    simpl in L. destruct L as (_ & _ & Hd & He).
    destruct (Ingest.read_loop clock' None chunk_size 0 _ _ Ingest.initial)
      as [st raised].
    simpl in Hd, He.
    destruct (all_lines_fail clock' _ 0 Hall) as [Hp Hf].
    rewrite Hp in Hd. rewrite Hf in He. rewrite Hd, He.
    destruct raised; reflexivity.
Qed.

Lemma no_known_format_means_no_rows_witness :
  Ingest.crear_dataframe example_clock
                         (Ingest.Readable ["junk"; "more junk"] false)
                         (Some 5) 10000
  = Some (Frame.Empty, 2).
Proof.
  assert (H : Diagnosis.diagnosticar_archivo
                example_clock (Ingest.Readable ["junk"; "more junk"] false) 5
              = (["junk"; "more junk"],
                 Some {| Diagnosis.json_count := 0;
                         Diagnosis.apache_count := 0;
                         Diagnosis.recommendation :=
                           Diagnosis.NoKnownFormat |}))
    by (vm_compute; reflexivity).
  exact (proj2 (no_known_format_means_no_rows _ _ _ _ _ _ H eq_refl)
               example_clock false 10000).
Defined.

(** ** The bot filter, enabled *)

Lemma filter_length_split {A} (f : A -> bool) (l : list A) :
  (length (List.filter (fun x => negb (f x)) l)
   + length (List.filter (fun b : bool => b) (map f l)))%nat
  = length l.
Proof.
  induction l as [|x l IH]; simpl; [reflexivity|].
  destruct (f x); simpl; lia.
Qed.

Lemma filter_map_commute {A B} (g : A -> B) (f : B -> bool) (l : list A) :
  map g (List.filter (fun x => f (g x)) l) = List.filter f (map g l).
Proof.
  induction l as [|x l IH]; simpl; [reflexivity|].
  destruct (f (g x)); simpl; rewrite IH; reflexivity.
Qed.





(** ** The bot classifier *)

Lemma lower_char_idempotent c :
  PyStr.lower_char (PyStr.lower_char c) = PyStr.lower_char c.
Proof. destruct c as [[] [] [] [] [] [] [] []]; reflexivity. Qed.

Lemma lower_char_dash c :
  Ascii.eqb (PyStr.lower_char c) "-" = Ascii.eqb c "-".
Proof. destruct c as [[] [] [] [] [] [] [] []]; reflexivity. Qed.

Lemma lower_idempotent s : PyStr.lower (PyStr.lower s) = PyStr.lower s.
Proof.
  induction s as [|c r IH]; simpl; [reflexivity|].
  rewrite lower_char_idempotent, IH. reflexivity.
Qed.

Lemma lower_app a b :
  PyStr.lower (a +:+ b) = PyStr.lower a +:+ PyStr.lower b.
Proof.
  induction a as [|c r IH]; [reflexivity|].
  rewrite append_cons. simpl PyStr.lower. rewrite append_cons, IH.
  reflexivity.
Qed.

Lemma lower_is_empty s : PyStr.is_empty (PyStr.lower s) = PyStr.is_empty s.
Proof. destruct s; reflexivity. Qed.

Lemma lower_is_dash s : String.eqb (PyStr.lower s) "-" = String.eqb s "-".
Proof.
  destruct s as [|c r]; [reflexivity|].
  simpl. rewrite lower_char_dash.
  destruct (Ascii.eqb c "-"); [|reflexivity].
  destruct r; reflexivity.
Qed.

Lemma prefix_app p : forall s b,
  String.prefix p s = true -> String.prefix p (s +:+ b) = true.
Proof.
  induction p as [|c p IH]; intros s b H.
  - destruct (s +:+ b); reflexivity.
  - destruct s as [|d s]; [discriminate|].
    rewrite append_cons. simpl in *.
    destruct (ascii_dec c d); [auto|discriminate].
Qed.

Lemma contains_app_r p s b :
  PyStr.contains p s = true -> PyStr.contains p (s +:+ b) = true.
Proof.
  induction s as [|c r IH]; intros H.
  - simpl in H. rewrite orb_false_r in H.
    apply (prefix_app p EmptyString b) in H.
    change (EmptyString +:+ b) with b in *.
    destruct b; cbn [PyStr.contains]; rewrite H; reflexivity.
  - rewrite append_cons. cbn [PyStr.contains] in *.
    apply orb_true_iff in H. apply orb_true_iff.
    destruct H as [H|H].
    + left. apply (prefix_app p (String c r) b) in H.
      rewrite append_cons in H. exact H.
    + right. auto.
Qed.

Lemma contains_app_l p a s :
  PyStr.contains p s = true -> PyStr.contains p (a +:+ s) = true.
Proof.
  intros H. induction a as [|c r IH]; [exact H|].
  rewrite append_cons. cbn [PyStr.contains]. rewrite IH. apply orb_true_r.
Qed.

Lemma existsb_bot_patterns s :
  existsb (fun pattern => PyStr.contains pattern (PyStr.lower s))
          Frame.bot_patterns = true ->
  (PyStr.is_empty s || String.eqb s "-")%bool = false.
Proof.
  intros H.
  destruct (PyStr.is_empty s || String.eqb s "-")%bool eqn:E; [|reflexivity].
  apply orb_true_iff in E. destruct E as [E|E].
  - destruct s; [|discriminate]. vm_compute in H. discriminate.
  - apply String.eqb_eq in E. subst s. vm_compute in H. discriminate.
Qed.

Lemma is_bot_user_agent_spec ua :
  Frame.is_bot_user_agent (Some ua)
  = existsb (fun pattern => PyStr.contains pattern (PyStr.lower ua))
            Frame.bot_patterns.
Proof.
  unfold Frame.is_bot_user_agent.
  destruct (existsb _ Frame.bot_patterns) eqn:E.
  - rewrite (existsb_bot_patterns ua E). reflexivity.
  - destruct (PyStr.is_empty ua || String.eqb ua "-")%bool; reflexivity.
Qed.

(** X11: what makes a user agent a bot.  A user agent is a bot exactly
    when its lower-case form contains one of the markers (the empty text
    and the dash contain none); so the case of its letters does not
    matter, and a text that contains the user agent of a bot, with
    anything before and after it, is a bot too. *)
Theorem bot_markers_decide :
  (forall ua : string,
      Frame.is_bot_user_agent (Some ua)
      = existsb (fun pattern => PyStr.contains pattern (PyStr.lower ua))
                Frame.bot_patterns)
  /\ (forall ua : string,
         Frame.is_bot_user_agent (Some (PyStr.lower ua))
         = Frame.is_bot_user_agent (Some ua))
  /\ (forall before ua after : string,
         Frame.is_bot_user_agent (Some ua) = true ->
         Frame.is_bot_user_agent (Some (before +:+ ua +:+ after)) = true).
Proof.
  split; [|split].
  - apply is_bot_user_agent_spec.
  - intros ua. rewrite !is_bot_user_agent_spec, lower_idempotent.
    reflexivity.
  - intros before ua after. rewrite !is_bot_user_agent_spec.
    intros H. apply existsb_exists in H. destruct H as (p & Hp & Hc).
    apply existsb_exists. exists p. split; [exact Hp|].
    rewrite !lower_app. apply contains_app_l, contains_app_r. exact Hc.
Qed.

Lemma bot_markers_decide_witness :
  Frame.is_bot_user_agent
    (Some ("Mozilla/5.0 (" +:+ "GoogleBot/2.1" +:+ "; +http://example.org)"))
  = true.
Proof.
  apply (proj2 (proj2 bot_markers_decide)). vm_compute. reflexivity.
Defined.

(** ** Session identifiers *)

Lemma str_of_pos_fuel_decimal fuel : forall n acc,
  PyStr.all_chars PyStr.is_decimal acc = true ->
  PyStr.all_chars PyStr.is_decimal (PyStr.str_of_pos_fuel fuel n acc) = true.
Proof.
  induction fuel as [|f IH]; intros n acc H; simpl; [exact H|].
  assert (Hd : PyStr.all_chars PyStr.is_decimal
                 (String (ascii_of_N (48 + n mod 10)) acc) = true).
  { simpl. rewrite H, andb_true_r.
    unfold PyStr.is_decimal, PyStr.in_range, PyStr.code.
    pose proof (N.mod_upper_bound n 10 ltac:(discriminate)) as Hm.
    revert Hm. generalize (n mod 10)%N. intros k Hk.
    rewrite N_ascii_embedding by lia.
    apply andb_true_iff. split; apply N.leb_le; lia. }
  destruct (n <? 10)%N; [exact Hd|]. apply IH. exact Hd.
Qed.

Lemma str_of_Z_decimal n :
  0 <= n -> PyStr.all_chars PyStr.is_decimal (PyStr.str_of_Z n) = true.
Proof.
  intros Hn. unfold PyStr.str_of_Z.
  destruct (Z.ltb_spec n 0); [lia|].
  apply str_of_pos_fuel_decimal. reflexivity.
Qed.

Lemma decimal_no_underscore x : forall y,
  PyStr.all_chars PyStr.is_decimal (x +:+ String "_" y) = false.
Proof.
  induction x as [|c x IH]; intros y.
  - reflexivity.
  - rewrite append_cons. simpl. rewrite IH. apply andb_false_r.
Qed.

Lemma make_session_id_inj_ip a : forall b n m,
  0 <= n -> 0 <= m ->
  Frame.make_session_id a n = Frame.make_session_id b m -> a = b /\ n = m.
Proof.
  unfold Frame.make_session_id.
  induction a as [|c a IH]; intros b n m Hn Hm H.
  - destruct b as [|d b].
    + split; [reflexivity|].
      change (String "_" (PyStr.str_of_Z n) = String "_" (PyStr.str_of_Z m))
        in H.
      injection H as H. apply str_of_Z_inj; assumption.
    + change (String "_" (PyStr.str_of_Z n)
              = String d (b +:+ String "_" (PyStr.str_of_Z m))) in H.
      injection H as _ H.
      pose proof (str_of_Z_decimal n Hn) as Hd.
      rewrite H, decimal_no_underscore in Hd. discriminate.
  - destruct b as [|d b].
    + change (String c (a +:+ String "_" (PyStr.str_of_Z n))
              = String "_" (PyStr.str_of_Z m)) in H.
      injection H as _ H.
      pose proof (str_of_Z_decimal m Hm) as Hd.
      rewrite <- H, decimal_no_underscore in Hd. discriminate.
    + change (String c (a +:+ String "_" (PyStr.str_of_Z n))
              = String d (b +:+ String "_" (PyStr.str_of_Z m))) in H.
      injection H as -> H.
      destruct (IH b n m Hn Hm H) as [-> ->]. auto.
Qed.

(** What the pass assigns to a row of its result. *)
Lemma annotate_row timeout rows pre s post :
  annotate timeout ∅ ∅ rows = pre ++ s :: post ->
  Frame.time_diff s
  = option_map (fun q => instant_of s - instant_of q) (latest (ip_of s) pre)
  /\ Frame.new_session s = Frame.starts_session timeout (Frame.time_diff s)
  /\ Frame.session_id s
     = Frame.make_session_id (ip_of s) (starts_of (ip_of s) (pre ++ [s])).
Proof.
  intros H.
  exact (annotate_characterised timeout rows [] ∅ ∅ state_ok_empty pre s post H).
Qed.

Lemma starts_of_prefix a l1 l2 : starts_of a l1 <= starts_of a (l1 ++ l2).
Proof.
  rewrite starts_of_app. pose proof (starts_of_nonneg a l2). lia.
Qed.

Lemma annotate_same_id timeout rows s s' :
  In s (annotate timeout ∅ ∅ rows) -> In s' (annotate timeout ∅ ∅ rows) ->
  Frame.session_id s = Frame.session_id s' -> ip_of s = ip_of s'.
Proof.
  intros Hs Hs' E.
  apply in_split in Hs. destruct Hs as (pre & post & Hs).
  apply in_split in Hs'. destruct Hs' as (pre' & post' & Hs').
  destruct (annotate_row _ _ _ _ _ Hs) as (_ & _ & Hid).
  destruct (annotate_row _ _ _ _ _ Hs') as (_ & _ & Hid').
  rewrite Hid, Hid' in E.
  apply make_session_id_inj_ip in E; [tauto| |]; apply starts_of_nonneg.
Qed.

(** A row that starts a session has an identifier that no row before it
    has; a row that does not has the identifier of the previous row of its
    address, from which it is no further than the timeout. *)
Lemma annotate_start timeout rows pre s post :
  annotate timeout ∅ ∅ rows = pre ++ s :: post ->
  Frame.new_session s = true ->
  forall q, In q pre -> Frame.session_id q <> Frame.session_id s.
Proof.
  intros H Hnew q Hq E.
  destruct (annotate_row _ _ _ _ _ H) as (_ & _ & Hid).
  apply in_split in Hq. destruct Hq as (p1 & p2 & ->).
  rewrite <- app_assoc, <- app_comm_cons in H.
  destruct (annotate_row _ _ _ _ _ H) as (_ & _ & Hidq).
  rewrite Hid, Hidq in E.
  apply make_session_id_inj_ip in E; try apply starts_of_nonneg.
  destruct E as [Hip E]. rewrite Hip in E.
  rewrite (starts_of_snoc _ (p1 ++ q :: p2) s), String.eqb_refl, Hnew in E.
  simpl in E.
  replace (p1 ++ q :: p2) with ((p1 ++ [q]) ++ p2) in E
    by (rewrite <- app_assoc; reflexivity).
  pose proof (starts_of_prefix (ip_of s) (p1 ++ [q]) p2). lia.
Qed.

Lemma annotate_continue timeout rows pre s post :
  annotate timeout ∅ ∅ rows = pre ++ s :: post ->
  Frame.new_session s = false ->
  exists p1 q p2,
    pre = p1 ++ q :: p2
    /\ ip_of q = ip_of s
    /\ Frame.session_id q = Frame.session_id s
    /\ instant_of s - instant_of q <= timeout.
Proof.
  intros H Hnew.
  destruct (annotate_row _ _ _ _ _ H) as (Hdiff & Hflag & Hid).
  rewrite Hnew, Hdiff in Hflag.
  destruct (latest (ip_of s) pre) as [q|] eqn:Hl; [|discriminate].
  simpl in Hflag. symmetry in Hflag. apply Z.ltb_ge in Hflag.
  apply latest_Some in Hl. destruct Hl as (p1 & p2 & -> & Hip & Hmid).
  exists p1, q, p2. repeat split; auto.
  rewrite <- app_assoc, <- app_comm_cons in H.
  destruct (annotate_row _ _ _ _ _ H) as (_ & _ & Hidq).
  rewrite Hid, Hidq, Hip. f_equal.
  rewrite (starts_of_snoc _ (p1 ++ q :: p2) s), String.eqb_refl, Hnew.
  replace (p1 ++ q :: p2) with ((p1 ++ [q]) ++ p2)
    by (rewrite <- app_assoc; reflexivity).
  rewrite (starts_of_app _ (p1 ++ [q]) p2), (starts_of_other _ _ Hmid).
  simpl. lia.
Qed.

(** ** What [create_sessions] returns *)

Lemma map_insert_by {A B} (f : A -> B) (le : B -> B -> bool) x l :
  map f (Frame.insert_by (fun a b => le (f a) (f b)) x l)
  = Frame.insert_by le (f x) (map f l).
Proof.
  induction l as [|y l IH]; simpl; [reflexivity|].
  destruct (le (f x) (f y)); simpl; [reflexivity|].
  rewrite IH. reflexivity.
Qed.

Lemma map_sort_by {A B} (f : A -> B) (le : B -> B -> bool) l :
  map f (Frame.sort_by (fun a b => le (f a) (f b)) l)
  = Frame.sort_by le (map f l).
Proof.
  induction l as [|x l IH]; simpl; [reflexivity|].
  unfold Frame.sort_by in *. simpl. rewrite map_insert_by, IH. reflexivity.
Qed.

(** The result of [create_sessions] on a frame that is not empty: the
    rows in the order of address and instant, with the session columns of
    the pass; session columns that the frame had are computed anew. *)
Lemma create_sessions_annotate df minutes :
  Frame.empty df = false ->
  Frame.create_sessions df minutes
  = Frame.SessionTable
      (annotate (Frame.timedelta_minutes minutes) ∅ ∅
                (Frame.sort_by Frame.key_le (rows_of_frame df))).
Proof.
  intros He. unfold Frame.create_sessions. rewrite He.
  destruct df as [|rows|rows]; [discriminate| |].
  - rewrite assign_sessions_annotate. reflexivity.
  - rewrite assign_sessions_annotate.
    rewrite (map_sort_by Frame.row Frame.key_le). reflexivity.
Qed.

Lemma sort_by_nonempty {A} (le : A -> A -> bool) l :
  l <> [] -> Frame.sort_by le l <> [].
Proof.
  destruct l as [|x l]; [congruence|]. intros _.
  destruct (sort_by_cons_inv le x l) as (y & l' & ->). discriminate.
Qed.

Lemma annotate_length timeout rows : forall last sums,
  length (annotate timeout last sums rows) = length rows.
Proof.
  intros last sums. rewrite <- (annotate_rows timeout rows last sums) at 2.
  rewrite length_map. reflexivity.
Qed.

Lemma empty_rows_of_frame df :
  Frame.empty df = false -> rows_of_frame df <> [].
Proof.
  destruct df as [|[|r rows]|[|r rows]]; simpl; congruence.
Qed.

(** X12: computing the sessions again.  [create_sessions] ignores the
    session columns of its argument: on a table with sessions it returns
    what it returns on the table without them; so applying it with a
    second timeout to its own result gives the result of applying it with
    that timeout in the first place. *)
Theorem sessions_are_computed_anew :
  (forall (srows : list Frame.SessionRow) (minutes : Z),
      srows <> [] ->
      Frame.create_sessions (Frame.SessionTable srows) minutes
      = Frame.create_sessions (Frame.Table (map Frame.row srows)) minutes)
  /\ (forall (df : Frame.DataFrame) (minutes1 minutes2 : Z),
         Frame.create_sessions (Frame.create_sessions df minutes1) minutes2
         = Frame.create_sessions df minutes2).
Proof.
  split.
  - intros srows minutes Hne.
    rewrite !create_sessions_annotate; [reflexivity| |];
      destruct srows; simpl; congruence.
  - intros df minutes1 minutes2.
    destruct (Frame.empty df) eqn:He.
    + unfold Frame.create_sessions at 2. rewrite He. reflexivity.
    + rewrite (create_sessions_annotate df minutes1 He).
      pose proof (sort_by_nonempty Frame.key_le _ (empty_rows_of_frame df He))
        as Hne.
      pose proof (sort_by_Sorted Frame.key_le key_le_total (rows_of_frame df))
        as Hsorted.
      rewrite (create_sessions_annotate df minutes2 He).
      set (sorted := Frame.sort_by Frame.key_le (rows_of_frame df)) in *.
      rewrite create_sessions_annotate.
      * simpl rows_of_frame. rewrite annotate_rows.
        rewrite (sort_by_sorted_id Frame.key_le sorted Hsorted).
        reflexivity.
      * destruct sorted; [congruence|reflexivity].
Qed.

Lemma sessions_are_computed_anew_witness :
  Frame.create_sessions (Frame.SessionTable [first_request; late_request]) 60
  = Frame.create_sessions
      (Frame.Table [request_at 10 0; request_at 10 45]) 60.
Proof.
  apply (proj1 sessions_are_computed_anew [first_request; late_request] 60).
  discriminate.
Defined.

(** ** The groups of [get_session_stats] *)

Lemma aggregate_snoc rows r :
  Sessions.aggregate (rows ++ [r])
  = Sessions.group_update String_as_OT.compare (Frame.session_id r)
                          (Sessions.agg_first r) (Sessions.agg_next r)
                          (Sessions.aggregate rows).
Proof. unfold Sessions.aggregate. rewrite fold_left_app. reflexivity. Qed.

Lemma aggregate_sorted rows :
  StronglySorted String_as_OT.lt (map fst (Sessions.aggregate rows)).
Proof. exact (proj1 (aggregate_ok rows)). Qed.

Lemma aggregate_keys rows k :
  In k (map fst (Sessions.aggregate rows))
  <-> exists s, In s rows /\ Frame.session_id s = k.
Proof.
  induction rows as [|r rows IH] using rev_ind.
  - simpl. split; [tauto|]. intros (s & [] & _).
  - rewrite aggregate_snoc, group_update_keys, IH. split.
    + intros [->|(s & Hs & E)].
      * exists r. split; [apply in_or_app; right; left|]; reflexivity.
      * exists s. split; [apply in_or_app; left; exact Hs|exact E].
    + intros (s & Hs & E). apply in_app_or in Hs.
      destruct Hs as [Hs|[->|[]]]; [right; eauto|left; auto].
Qed.

Lemma session_rows_snoc sid rows r :
  session_rows sid (rows ++ [r])
  = session_rows sid rows
    ++ (if String.eqb (Frame.session_id r) sid then [r] else []).
Proof. unfold session_rows. rewrite List.filter_app. reflexivity. Qed.

Lemma session_rows_nil sid rows :
  (forall s, In s rows -> Frame.session_id s <> sid) ->
  session_rows sid rows = [].
Proof.
  intros H. induction rows as [|r rows IH]; [reflexivity|].
  simpl. destruct (String.eqb_spec (Frame.session_id r) sid) as [E|E].
  - exfalso. apply (H r); [left; reflexivity|exact E].
  - apply IH. intros s Hs. apply H. right. exact Hs.
Qed.

(** Every group of [aggregate] holds what [agg] computes from the rows
    of its key, taken in the order of the table. *)
Lemma aggregate_groups rows : forall k a,
  In (k, a) (Sessions.aggregate rows) ->
  agg_of (session_rows k rows) = Some a.
Proof.
  induction rows as [|r rows IH] using rev_ind; intros k a H.
  - destruct H.
  - rewrite aggregate_snoc in H.
    apply group_update_In in H; [|apply aggregate_sorted].
    rewrite session_rows_snoc.
    destruct H as [[-> [[-> Hnew]|(a0 & Hin & ->)]]|[Hne Hin]].
    + rewrite String.eqb_refl.
      rewrite session_rows_nil; [reflexivity|].
      intros s Hs E. apply Hnew. apply aggregate_keys. eauto.
    + rewrite String.eqb_refl.
      apply IH in Hin.
      destruct (session_rows (Frame.session_id r) rows) as [|s0 rest];
        [discriminate|].
      simpl in Hin. injection Hin as <-.
      simpl. rewrite fold_left_app. reflexivity.
    + destruct (String.eqb_spec (Frame.session_id r) k) as [E|E];
        [congruence|].
      rewrite app_nil_r. apply IH. exact Hin.
Qed.

Lemma agg_fold_spec s0 rest :
  let a := fold_left (fun a r => Sessions.agg_next r a) rest
                     (Sessions.agg_first s0) in
  Sessions.agg_ip a = ip_of s0
  /\ Sessions.agg_date a = Frame.date (Frame.row s0)
  /\ Sessions.agg_count a = Z.of_nat (length (s0 :: rest))
  /\ (forall s, In s (s0 :: rest) ->
                Sessions.agg_min a <= instant_of s <= Sessions.agg_max a)
  /\ (exists s, In s (s0 :: rest) /\ instant_of s = Sessions.agg_min a)
  /\ (exists s, In s (s0 :: rest) /\ instant_of s = Sessions.agg_max a).
Proof.
  induction rest as [|r rest IH] using rev_ind.
  - simpl. unfold instant_of.
    split; [reflexivity|]. split; [reflexivity|]. split; [reflexivity|].
    split; [intros s [<-|[]]; lia|].
    split; exists s0; (split; [left|]; reflexivity).
  - rewrite fold_left_app. cbn [fold_left].
    cbv zeta in IH.
    set (a := fold_left (fun a r => Sessions.agg_next r a) rest
                        (Sessions.agg_first s0)) in *.
    destruct IH as (Hip & Hdate & Hcount & Hrange & (smin & Hmin & Emin)
                    & (smax & Hmax & Emax)).
    cbv zeta.
    cbn [Sessions.agg_next Sessions.agg_ip Sessions.agg_date
         Sessions.agg_count Sessions.agg_min Sessions.agg_max].
    fold (instant_of r).
    split; [exact Hip|]. split; [exact Hdate|].
    split.
    { rewrite Hcount. simpl length. rewrite length_app. simpl. lia. }
    split.
    { intros s Hs. rewrite app_comm_cons in Hs. apply in_app_or in Hs.
      destruct Hs as [Hs|[<-|[]]]; [specialize (Hrange s Hs)|]; lia. }
    split.
    { destruct (Z.min_spec (Sessions.agg_min a) (instant_of r))
        as [[_ ->]|[_ ->]].
      - exists smin. split; [|exact Emin].
        rewrite app_comm_cons. apply in_or_app. left. exact Hmin.
      - exists r. split; [|reflexivity].
        rewrite app_comm_cons. apply in_or_app. right. left. reflexivity. }
    { destruct (Z.max_spec (Sessions.agg_max a) (instant_of r))
        as [[_ ->]|[_ ->]].
      - exists r. split; [|reflexivity].
        rewrite app_comm_cons. apply in_or_app. right. left. reflexivity.
      - exists smax. split; [|exact Emax].
        rewrite app_comm_cons. apply in_or_app. left. exact Hmax. }
Qed.

Lemma get_session_stats_details rows stats :
  Sessions.get_session_stats (Frame.SessionTable rows) = Some stats ->
  rows <> []
  /\ Sessions.session_details stats
     = map Sessions.detail_of (Sessions.aggregate rows)
  /\ Sessions.total_sessions stats
     = Z.of_nat (length (Sessions.aggregate rows)).
Proof.
  unfold Sessions.get_session_stats.
  destruct rows as [|r rows]; [discriminate|].
  simpl. intros H. injection H as <-. simpl.
  rewrite length_map. repeat split. discriminate.
Qed.

(** X13: what [get_session_stats] says of a session.  For every entry of
    [session_details] the table has rows with its identifier; the entry
    counts them, its start and end are the earliest and the latest of
    their instants, its address and date are those of the first of them
    in the order of the table, and its duration is the distance from start
    to end in minutes, never negative. *)
Theorem session_details_describe_the_groups :
  forall (rows : list Frame.SessionRow) (stats : Sessions.SessionStats),
    Sessions.get_session_stats (Frame.SessionTable rows) = Some stats ->
    forall d, In d (Sessions.session_details stats) ->
      exists s0 rest,
        session_rows (Sessions.session_id d) rows = s0 :: rest
        /\ Sessions.ip d = ip_of s0
        /\ Sessions.date d = Frame.date (Frame.row s0)
        /\ Sessions.pageviews d = Z.of_nat (length (s0 :: rest))
        /\ (forall s, In s (s0 :: rest) ->
                      Sessions.session_start d <= instant_of s
                      <= Sessions.session_end d)
        /\ (exists s, In s (s0 :: rest)
                      /\ instant_of s = Sessions.session_start d)
        /\ (exists s, In s (s0 :: rest)
                      /\ instant_of s = Sessions.session_end d)
        /\ Sessions.session_duration d
           = Qmake (Sessions.session_end d - Sessions.session_start d)
                   60000000
        /\ (0 <= Sessions.session_duration d)%Q.
Proof.
  intros rows stats H d Hd.
  apply get_session_stats_details in H. destruct H as (_ & Hdet & _).
  rewrite Hdet in Hd. apply in_map_iff in Hd.
  destruct Hd as ([k a] & <- & Hin).
  apply aggregate_groups in Hin.
  simpl Sessions.session_id.
  destruct (session_rows k rows) as [|s0 rest]; [discriminate|].
  simpl in Hin. injection Hin as <-.
  destruct (agg_fold_spec s0 rest)
    as (Hip & Hdate & Hcount & Hrange & Hmin & Hmax).
  exists s0, rest. simpl.
  split; [reflexivity|]. split; [exact Hip|]. split; [exact Hdate|].
  split; [exact Hcount|]. split; [exact Hrange|].
  split; [exact Hmin|]. split; [exact Hmax|]. split; [reflexivity|].
  destruct Hmin as (s & Hs & _). specialize (Hrange s Hs).
  unfold Qle. simpl. lia.
Qed.

Lemma session_details_describe_the_groups_witness :
  exists s0 rest,
    session_rows (Sessions.session_id scenario_detail)
                 [first_request; early_request] = s0 :: rest
    /\ Sessions.ip scenario_detail = ip_of s0
    /\ Sessions.pageviews scenario_detail = Z.of_nat (length (s0 :: rest)).
Proof.
  destruct (Sessions.get_session_stats
              (Frame.SessionTable [first_request; early_request]))
    as [stats|] eqn:H.
  - destruct (session_details_describe_the_groups _ _ H scenario_detail)
      as (s0 & rest & H1 & H2 & _ & H3 & _).
    + vm_compute in H. injection H as <-. left. reflexivity.
    + exists s0, rest. auto.
  - vm_compute in H. discriminate.
Defined.

(** ** Counting sessions *)

Lemma group_update_length_new {V} (k : string) (first : V) (next : V -> V)
      groups :
  ~ In k (map fst groups) ->
  length (Sessions.group_update String_as_OT.compare k first next groups)
  = S (length groups).
Proof.
  induction groups as [|[k' v] rest IH]; intros Hk; simpl; [reflexivity|].
  destruct (String_as_OT.compare k k') eqn:E; simpl.
  - exfalso. apply Hk. left. symmetry. apply compare_Eq. exact E.
  - reflexivity.
  - rewrite IH; [reflexivity|]. intros H. apply Hk. right. exact H.
Qed.

Lemma group_update_length_old {V} (k : string) (first : V) (next : V -> V)
      groups :
  StronglySorted String_as_OT.lt (map fst groups) ->
  In k (map fst groups) ->
  length (Sessions.group_update String_as_OT.compare k first next groups)
  = length groups.
Proof.
  induction groups as [|[k' v] rest IH]; intros Hs Hk; [destruct Hk|].
  simpl. destruct (String_as_OT.compare k k') eqn:E; simpl.
  - reflexivity.
  - exfalso. simpl in Hk, Hs. destruct Hk as [Hk|Hk].
    + subst k'. rewrite compare_refl in E. discriminate.
    + apply (above_head_not_in k k' (map fst rest) Hs); [|exact Hk].
      right. exact E.
  - f_equal. apply IH.
    + simpl in Hs. apply StronglySorted_inv in Hs. tauto.
    + destruct Hk as [Hk|Hk]; [|exact Hk].
      simpl in Hk. subst k'. rewrite compare_refl in E. discriminate.
Qed.

(** In a table of the pass there are as many distinct session identifiers
    as rows that start a session. *)
Lemma annotate_sessions_count timeout rows : forall pre post,
  annotate timeout ∅ ∅ rows = pre ++ post ->
  Z.of_nat (length (Sessions.aggregate pre)) = session_starts pre.
Proof.
  induction pre as [|x pre IH] using rev_ind; intros post H; [reflexivity|].
  rewrite <- app_assoc in H. simpl in H.
  specialize (IH _ H).
  unfold session_starts in *. rewrite List.filter_app, length_app.
  rewrite aggregate_snoc. simpl.
  destruct (Frame.new_session x) eqn:Hnew.
  - rewrite group_update_length_new; [simpl; lia|].
    intros Hk. apply aggregate_keys in Hk. destruct Hk as (q & Hq & E).
    exact (annotate_start _ _ _ _ _ H Hnew q Hq E).
  - rewrite group_update_length_old; [simpl; lia|apply aggregate_sorted|].
    apply aggregate_keys.
    destruct (annotate_continue _ _ _ _ _ H Hnew)
      as (p1 & q & p2 & -> & _ & E & _).
    exists q. split; [|exact E]. apply in_or_app. right. left. reflexivity.
Qed.

Lemma remove_dups_length_le {A} `{EqDecision A} (l : list A) :
  (length (remove_dups l) <= length l)%nat.
Proof.
  induction l as [|x l IH]; simpl; [lia|].
  destruct (decide_rel elem_of x l); simpl; lia.
Qed.

Lemma remove_dups_same_length {A} `{EqDecision A} (l k : list A) :
  (forall x, In x l <-> In x k) ->
  length (remove_dups l) = length (remove_dups k).
Proof.
  intros H. apply Permutation_length.
  apply NoDup_Permutation; try apply NoDup_remove_dups.
  intros x. rewrite !elem_of_remove_dups, !list_elem_of_In. apply H.
Qed.

Lemma remove_dups_nonempty {A} `{EqDecision A} (l : list A) :
  l <> [] -> (1 <= length (remove_dups l))%nat.
Proof.
  destruct l as [|x l]; [congruence|]. intros _.
  assert (Hx : x ∈ remove_dups (x :: l))
    by (apply elem_of_remove_dups; left).
  destruct (remove_dups (x :: l)); [inversion Hx|simpl; lia].
Qed.

Lemma create_sessions_inv df minutes srows :
  Frame.create_sessions df minutes = Frame.SessionTable srows ->
  srows <> [] ->
  srows = annotate (Frame.timedelta_minutes minutes) ∅ ∅
                   (Frame.sort_by Frame.key_le (rows_of_frame df)).
Proof.
  intros H Hne.
  destruct (Frame.empty df) eqn:He.
  - unfold Frame.create_sessions in H. rewrite He in H. subst df.
    destruct srows; [congruence|discriminate].
  - rewrite create_sessions_annotate in H by exact He.
    injection H as <-. reflexivity.
Qed.

Lemma annotate_ips timeout rows :
  map ip_of (annotate timeout ∅ ∅ rows) = map Frame.ip rows.
Proof.
  rewrite <- (annotate_rows timeout rows ∅ ∅) at 2.
  rewrite map_map. reflexivity.
Qed.

(** The addresses of the sessions are the addresses of the rows. *)
Lemma session_addresses timeout rows a :
  In a (map Sessions.ip
            (map Sessions.detail_of
                 (Sessions.aggregate (annotate timeout ∅ ∅ rows))))
  <-> In a (map Frame.ip rows).
Proof.
  rewrite <- annotate_ips with (timeout := timeout).
  set (srows := annotate timeout ∅ ∅ rows).
  rewrite map_map. rewrite !in_map_iff. split.
  - intros ([k g] & <- & Hin).
    apply aggregate_groups in Hin.
    destruct (session_rows k srows) as [|s0 rest] eqn:Eg; [discriminate|].
    simpl in Hin. injection Hin as <-.
    destruct (agg_fold_spec s0 rest) as (Hip & _).
    exists s0. split; [simpl; symmetry; exact Hip|].
    assert (Hs0 : In s0 (session_rows k srows))
      by (rewrite Eg; left; reflexivity).
    apply filter_In in Hs0. tauto.
  - intros (s & <- & Hs).
    assert (Hk : In (Frame.session_id s) (map fst (Sessions.aggregate srows)))
      by (apply aggregate_keys; eauto).
    apply in_map_iff in Hk. destruct Hk as ([k g] & Hk & Hin).
    simpl in Hk. subst k.
    exists (Frame.session_id s, g). split; [|exact Hin].
    apply aggregate_groups in Hin.
    destruct (session_rows (Frame.session_id s) srows) as [|s0 rest] eqn:Eg;
      [discriminate|].
    simpl in Hin. injection Hin as <-.
    destruct (agg_fold_spec s0 rest) as (Hip & _).
    simpl. rewrite Hip.
    assert (Hs0 : In s0 (session_rows (Frame.session_id s) srows))
      by (rewrite Eg; left; reflexivity).
    apply filter_In in Hs0. destruct Hs0 as [Hs0 E].
    apply String.eqb_eq in E.
    apply (annotate_same_id timeout rows); assumption.
Qed.

Lemma get_session_stats_users rows stats :
  Sessions.get_session_stats (Frame.SessionTable rows) = Some stats ->
  Sessions.unique_users stats
  = Z.of_nat (length (remove_dups
                        (map Sessions.ip
                             (map Sessions.detail_of
                                  (Sessions.aggregate rows))))).
Proof.
  unfold Sessions.get_session_stats.
  destruct rows as [|r rows]; [discriminate|].
  simpl. intros H. injection H as <-. reflexivity.
Qed.

Lemma session_counts df minutes srows stats :
  Frame.create_sessions df minutes = Frame.SessionTable srows ->
  Sessions.get_session_stats (Frame.SessionTable srows) = Some stats ->
  srows = annotate (Frame.timedelta_minutes minutes) ∅ ∅
                   (Frame.sort_by Frame.key_le (rows_of_frame df))
  /\ rows_of_frame df <> []
  /\ Sessions.total_sessions stats = session_starts srows
  /\ Sessions.unique_users stats
     = Z.of_nat (length (remove_dups (map Frame.ip (rows_of_frame df)))).
Proof.
  intros Hcs Hst.
  pose proof (get_session_stats_users _ _ Hst) as Hu.
  destruct (get_session_stats_details _ _ Hst) as (Hne & _ & Ht).
  pose proof (create_sessions_inv _ _ _ Hcs Hne) as Hs.
  set (sorted := Frame.sort_by Frame.key_le (rows_of_frame df)) in *.
  pose proof (sort_by_Permutation Frame.key_le (rows_of_frame df)) as Hperm.
  fold sorted in Hperm.
  split; [exact Hs|]. split; [|split].
  - intros E. rewrite E in Hperm. symmetry in Hperm.
    apply Permutation_nil in Hperm.
    rewrite Hperm in Hs. simpl in Hs. congruence.
  - rewrite Ht. apply (annotate_sessions_count
                         (Frame.timedelta_minutes minutes) sorted srows []).
    rewrite app_nil_r. symmetry. exact Hs.
  - rewrite Hu. f_equal. apply remove_dups_same_length. intros a.
    rewrite Hs, session_addresses. split; intros H.
    + eapply Permutation_in; [|exact H]. apply Permutation_map. exact Hperm.
    + eapply Permutation_in; [|exact H]. apply Permutation_map.
      symmetry. exact Hperm.
Qed.

(** X14: counting sessions and users.  For the table that
    [create_sessions] makes of a frame, the statistics count as many
    sessions as the table has rows that start one, and as many users as
    the frame has distinct addresses; there is at least one user, no more
    users than sessions and no more sessions than rows. *)
Theorem sessions_are_counted_by_their_starts :
  forall (df : Frame.DataFrame) (minutes : Z)
         (srows : list Frame.SessionRow) (stats : Sessions.SessionStats),
    Frame.create_sessions df minutes = Frame.SessionTable srows ->
    Sessions.get_session_stats (Frame.SessionTable srows) = Some stats ->
    Sessions.total_sessions stats = session_starts srows
    /\ Sessions.unique_users stats
       = Z.of_nat (length (remove_dups (map Frame.ip (rows_of_frame df))))
    /\ 1 <= Sessions.unique_users stats
    /\ Sessions.unique_users stats <= Sessions.total_sessions stats
    /\ Sessions.total_sessions stats <= Z.of_nat (length (rows_of_frame df)).
Proof.
  intros df minutes srows stats Hcs Hst.
  destruct (session_counts _ _ _ _ Hcs Hst) as (Hs & Hr & Hcount & Husers).
  pose proof (get_session_stats_users _ _ Hst) as Hu.
  destruct (get_session_stats_details _ _ Hst) as (Hne & _ & Ht).
  assert (Hlen : length srows = length (rows_of_frame df)).
  { rewrite Hs, annotate_length. apply Permutation_length.
    apply sort_by_Permutation. }
  split; [exact Hcount|]. split; [exact Husers|].
  split; [|split].
  - rewrite Husers.
    pose proof (remove_dups_nonempty (map Frame.ip (rows_of_frame df))) as H.
    destruct (rows_of_frame df); [congruence|].
    specialize (H ltac:(discriminate)). lia.
  - rewrite Hu, Ht.
    pose proof (remove_dups_length_le
                  (map Sessions.ip
                       (map Sessions.detail_of (Sessions.aggregate srows)))).
    rewrite !length_map in H. lia.
  - rewrite Hcount, <- Hlen. unfold session_starts.
    pose proof (filter_length_le Frame.new_session srows). lia.
Qed.

Lemma sessions_are_counted_by_their_starts_witness :
  exists stats,
    Sessions.get_session_stats
      (Frame.SessionTable [first_request; late_request]) = Some stats
    /\ Sessions.total_sessions stats
       = session_starts [first_request; late_request].
Proof.
  destruct (Sessions.get_session_stats
              (Frame.SessionTable [first_request; late_request]))
    as [stats|] eqn:H; [|vm_compute in H; discriminate].
  exists stats. split; [reflexivity|].
  apply (sessions_are_counted_by_their_starts
           (Frame.Table [request_at 10 0; request_at 10 45]) 30).
  - vm_compute. reflexivity.
  - exact H.
Defined.

(** ** The timeout *)

Lemma annotate_flags timeout rows : forall last sums,
  map Frame.new_session (annotate timeout last sums rows)
  = map (Frame.starts_session timeout) (Frame.group_diff last rows).
Proof.
  induction rows as [|r rows IH]; intros last sums; simpl; [reflexivity|].
  rewrite IH. reflexivity.
Qed.

Lemma session_starts_flags rows :
  session_starts rows = Frame.count_true (map Frame.new_session rows).
Proof.
  unfold session_starts, Frame.count_true. f_equal.
  induction rows as [|r rows IH]; simpl; [reflexivity|].
  destruct (Frame.new_session r); simpl; rewrite IH; reflexivity.
Qed.

Lemma count_true_mono {A} (f g : A -> bool) l :
  (forall x, f x = true -> g x = true) ->
  Frame.count_true (map f l) <= Frame.count_true (map g l).
Proof.
  intros H. unfold Frame.count_true.
  induction l as [|x l IH]; simpl; [lia|].
  specialize (H x).
  destruct (f x); [rewrite H by reflexivity|destruct (g x)]; simpl; lia.
Qed.

Lemma annotate_starts_mono t1 t2 rows :
  t1 <= t2 ->
  session_starts (annotate t2 ∅ ∅ rows)
  <= session_starts (annotate t1 ∅ ∅ rows).
Proof.
  intros Ht. rewrite !session_starts_flags, !annotate_flags.
  apply count_true_mono. intros [d|]; simpl; [|reflexivity].
  intros H. apply Z.ltb_lt in H. apply Z.ltb_lt. lia.
Qed.

(** In the order of address and instant, a row is never before the
    previous row of its address. *)
Lemma annotate_sorted_le timeout sorted pre s post q :
  StronglySorted (fun a b => Frame.key_le a b = true) sorted ->
  annotate timeout ∅ ∅ sorted = pre ++ s :: post ->
  In q pre -> ip_of q = ip_of s -> instant_of q <= instant_of s.
Proof.
  intros Hsorted H Hq Hip.
  apply in_split in Hq. destruct Hq as (p1 & p2 & ->).
  assert (Hrows : map Frame.row ((p1 ++ q :: p2) ++ s :: post) = sorted)
    by (rewrite <- H; apply annotate_rows).
  rewrite <- Hrows, <- app_assoc, map_app in Hsorted.
  apply StronglySorted_app_1_r in Hsorted.
  simpl in Hsorted. apply StronglySorted_inv in Hsorted as [_ Hall].
  rewrite List.Forall_forall in Hall.
  apply key_le_same_ip; [exact Hip|].
  apply Hall. rewrite map_app. apply in_or_app. right. left. reflexivity.
Qed.

Lemma negative_timeout_starts timeout sorted :
  timeout < 0 ->
  StronglySorted (fun a b => Frame.key_le a b = true) sorted ->
  Forall (fun s => Frame.new_session s = true)
         (annotate timeout ∅ ∅ sorted).
Proof.
  intros Ht Hsorted. apply List.Forall_forall. intros s Hs.
  apply in_split in Hs. destruct Hs as (pre & post & H).
  destruct (Frame.new_session s) eqn:Hnew; [reflexivity|].
  destruct (annotate_continue _ _ _ _ _ H Hnew)
    as (p1 & q & p2 & -> & Hip & _ & Hgap).
  assert (Hle : instant_of q <= instant_of s).
  { apply (annotate_sorted_le timeout sorted _ _ _ q Hsorted H);
      [apply in_or_app; right; left; reflexivity|exact Hip]. }
  lia.
Qed.

(** X15: the effect of the timeout.  A longer timeout never gives more
    sessions: it changes neither the rows nor their order nor the number
    of users.  A negative timeout makes every row a session of its
    own. *)
Theorem longer_timeout_fewer_sessions :
  (forall (df : Frame.DataFrame) (minutes1 minutes2 : Z)
          (srows1 srows2 : list Frame.SessionRow)
          (stats1 stats2 : Sessions.SessionStats),
      minutes1 <= minutes2 ->
      Frame.create_sessions df minutes1 = Frame.SessionTable srows1 ->
      Sessions.get_session_stats (Frame.SessionTable srows1) = Some stats1 ->
      Frame.create_sessions df minutes2 = Frame.SessionTable srows2 ->
      Sessions.get_session_stats (Frame.SessionTable srows2) = Some stats2 ->
      Sessions.total_sessions stats2 <= Sessions.total_sessions stats1
      /\ Sessions.unique_users stats2 = Sessions.unique_users stats1
      /\ map Frame.row srows2 = map Frame.row srows1)
  /\ (forall (df : Frame.DataFrame) (minutes : Z)
             (srows : list Frame.SessionRow) (stats : Sessions.SessionStats),
         minutes < 0 ->
         Frame.create_sessions df minutes = Frame.SessionTable srows ->
         Sessions.get_session_stats (Frame.SessionTable srows) = Some stats ->
         Forall (fun s => Frame.new_session s = true) srows
         /\ Sessions.total_sessions stats
            = Z.of_nat (length (rows_of_frame df))).
Proof.
  split.
  - intros df m1 m2 srows1 srows2 stats1 stats2 Hm Hcs1 Hst1 Hcs2 Hst2.
    destruct (session_counts _ _ _ _ Hcs1 Hst1) as (Hs1 & _ & Hc1 & Hu1).
    destruct (session_counts _ _ _ _ Hcs2 Hst2) as (Hs2 & _ & Hc2 & Hu2).
    split; [|split].
    + rewrite Hc1, Hc2, Hs1, Hs2. apply annotate_starts_mono.
      unfold Frame.timedelta_minutes. lia.
    + rewrite Hu1, Hu2. reflexivity.
    + rewrite Hs1, Hs2, !annotate_rows. reflexivity.
  - intros df minutes srows stats Hm Hcs Hst.
    destruct (session_counts _ _ _ _ Hcs Hst) as (Hs & _ & Hc & _).
    assert (Hall : Forall (fun s => Frame.new_session s = true) srows).
    { rewrite Hs. apply negative_timeout_starts.
      - unfold Frame.timedelta_minutes. lia.
      - apply sort_by_StronglySorted. }
    split; [exact Hall|].
    rewrite Hc. unfold session_starts. f_equal.
    transitivity (length srows).
    + clear -Hall. induction Hall as [|s l Hs _ IH]; simpl; [reflexivity|].
      rewrite Hs. simpl. rewrite IH. reflexivity.
    + rewrite Hs, annotate_length. apply Permutation_length.
      apply sort_by_Permutation.
Qed.

Lemma longer_timeout_fewer_sessions_witness :
  exists srows1 srows2 stats1 stats2,
    Frame.create_sessions
      (Frame.Table [request_at 10 0; request_at 10 45]) 30
    = Frame.SessionTable srows1
    /\ Frame.create_sessions
         (Frame.Table [request_at 10 0; request_at 10 45]) 60
       = Frame.SessionTable srows2
    /\ Sessions.get_session_stats (Frame.SessionTable srows1) = Some stats1
    /\ Sessions.get_session_stats (Frame.SessionTable srows2) = Some stats2
    /\ Sessions.total_sessions stats2 <= Sessions.total_sessions stats1.
Proof.
  set (T := Frame.Table [request_at 10 0; request_at 10 45]).
  assert (H1 : Frame.create_sessions T 30
               = Frame.SessionTable [first_request; late_request])
    by (vm_compute; reflexivity).
  destruct (Frame.create_sessions T 60) as [|rows2|srows2] eqn:H2;
    [vm_compute in H2; discriminate|vm_compute in H2; discriminate|].
  destruct (Sessions.get_session_stats
              (Frame.SessionTable [first_request; late_request]))
    as [stats1|] eqn:S1; [|vm_compute in S1; discriminate].
  destruct (Sessions.get_session_stats (Frame.SessionTable srows2))
    as [stats2|] eqn:S2.
  - exists [first_request; late_request], srows2, stats1, stats2.
    repeat split; auto.
    apply (proj1 longer_timeout_fewer_sessions T 30 60 _ _ _ _
                 ltac:(lia) H1 S1 H2 S2).
  - vm_compute in H2. injection H2 as <-. vm_compute in S2. discriminate.
Defined.

(** ** The length of a session *)

Lemma filter_cons_split {A} (f : A -> bool) l : forall x rest,
  List.filter f l = x :: rest ->
  exists p1 p2, l = p1 ++ x :: p2 /\ List.filter f p1 = []
                /\ List.filter f p2 = rest.
Proof.
  induction l as [|y l IH]; intros x rest H; [discriminate|].
  simpl in H. destruct (f y) eqn:Ey.
  - injection H as -> <-. exists [], l. simpl. auto.
  - destruct (IH x rest H) as (p1 & p2 & -> & H1 & H2).
    exists (y :: p1), p2. simpl. rewrite Ey. auto.
Qed.

Lemma session_rows_app sid l1 l2 :
  session_rows sid (l1 ++ l2) = session_rows sid l1 ++ session_rows sid l2.
Proof. apply List.filter_app. Qed.

Lemma session_rows_cons sid s l :
  Frame.session_id s = sid ->
  session_rows sid (s :: l) = s :: session_rows sid l.
Proof.
  intros E. unfold session_rows. simpl.
  rewrite (proj2 (String.eqb_eq _ _) E). reflexivity.
Qed.

Section SessionLength.

Variable timeout : Z.
Variable sorted : list Frame.Row.
Hypothesis timeout_nonneg : 0 <= timeout.
Hypothesis sorted_rows :
  StronglySorted (fun a b => Frame.key_le a b = true) sorted.

Local Abbreviation srows := (annotate timeout ∅ ∅ sorted).

(** The first row of a session is its earliest. *)
Lemma session_first_is_earliest k s0 rest x :
  session_rows k srows = s0 :: rest -> In x (s0 :: rest) ->
  instant_of s0 <= instant_of x.
Proof.
  intros Hg [<-|Hx]; [lia|].
  destruct (filter_cons_split _ _ _ _ Hg) as (p1 & p2 & Hs & _ & H2).
  assert (Hk0 : Frame.session_id s0 = k).
  { assert (H : In s0 (session_rows k srows)) by (rewrite Hg; left; auto).
    apply filter_In in H. apply String.eqb_eq. tauto. }
  rewrite <- H2 in Hx. apply filter_In in Hx. destruct Hx as [Hx Hkx].
  apply String.eqb_eq in Hkx.
  apply in_split in Hx. destruct Hx as (p3 & p4 & ->).
  assert (Hs' : srows = (p1 ++ s0 :: p3) ++ x :: p4)
    by (rewrite Hs, <- app_assoc; reflexivity).
  apply (annotate_sorted_le timeout sorted _ _ _ s0 sorted_rows Hs').
  - apply in_or_app. right. left. reflexivity.
  - apply (annotate_same_id timeout sorted).
    + rewrite Hs. apply in_or_app. right. left. reflexivity.
    + rewrite Hs'. apply in_or_app. right. left. reflexivity.
    + congruence.
Qed.

(** A row of a session is no further from the first row of the session
    than one timeout for every row of the session before it. *)
Lemma session_row_distance k s0 rest : 
  session_rows k srows = s0 :: rest ->
  forall n pre x post,
    (length pre <= n)%nat ->
    srows = pre ++ x :: post -> Frame.session_id x = k ->
    instant_of x - instant_of s0
    <= Z.of_nat (length (session_rows k pre)) * timeout.
Proof.
  intros Hg. induction n as [|n IH]; intros pre x post Hn Hs Hk.
  - destruct pre; [|simpl in Hn; lia].
    simpl in Hs. rewrite Hs in Hg.
    rewrite session_rows_cons in Hg by exact Hk.
    injection Hg as <- _. simpl. lia.
  - destruct (Frame.new_session x) eqn:Hnew.
    + assert (Hpre : session_rows k pre = []).
      { apply session_rows_nil. intros q Hq. rewrite <- Hk.
        exact (annotate_start _ _ _ _ _ Hs Hnew q Hq). }
      rewrite Hs, session_rows_app, Hpre in Hg.
      rewrite session_rows_cons in Hg by exact Hk.
      injection Hg as <- _. rewrite Hpre. simpl. lia.
    + destruct (annotate_continue _ _ _ _ _ Hs Hnew)
        as (p1 & q & p2 & -> & _ & Hq & Hgap).
      assert (Hs' : srows = p1 ++ q :: (p2 ++ x :: post))
        by (rewrite Hs, <- app_assoc; reflexivity).
      assert (Hn' : (length p1 <= n)%nat)
        by (rewrite length_app in Hn; simpl in Hn; lia).
      specialize (IH p1 q _ Hn' Hs' ltac:(congruence)).
      rewrite session_rows_app, session_rows_cons by congruence.
      rewrite length_app. simpl length.
      set (m := length (session_rows k p1)) in *.
      set (m2 := length (session_rows k p2)).
      assert (Z.of_nat (m + S m2) * timeout
              = Z.of_nat m * timeout + timeout + Z.of_nat m2 * timeout)
        by lia.
      assert (0 <= Z.of_nat m2 * timeout) by (apply Z.mul_nonneg_nonneg; lia).
      lia.
Qed.

Lemma session_span k a :
  In (k, a) (Sessions.aggregate srows) ->
  exists s0 rest,
    session_rows k srows = s0 :: rest
    /\ Sessions.agg_min a = instant_of s0
    /\ Frame.new_session s0 = true
    /\ (forall s, In s (s0 :: rest) -> ip_of s = Sessions.agg_ip a)
    /\ Sessions.agg_max a - Sessions.agg_min a
       <= (Sessions.agg_count a - 1) * timeout.
Proof.
  intros Hin. apply aggregate_groups in Hin.
  destruct (session_rows k srows) as [|s0 rest] eqn:Hg; [discriminate|].
  simpl in Hin. injection Hin as <-.
  destruct (agg_fold_spec s0 rest)
    as (Hip & _ & Hcount & Hrange & (smin & Hsmin & Emin)
        & (smax & Hsmax & Emax)).
  cbv zeta in *.
  set (a := fold_left (fun a r => Sessions.agg_next r a) rest
                      (Sessions.agg_first s0)) in *.
  exists s0, rest. split; [reflexivity|].
  assert (Hmin : Sessions.agg_min a = instant_of s0).
  { pose proof (session_first_is_earliest k s0 rest smin Hg Hsmin).
    pose proof (Hrange s0 ltac:(left; reflexivity)). lia. }
  assert (Hmem : forall s, In s (s0 :: rest) ->
                           In s srows /\ Frame.session_id s = k).
  { intros s Hs. rewrite <- Hg in Hs. apply filter_In in Hs.
    destruct Hs as [Hs E]. apply String.eqb_eq in E. auto. }
  split; [exact Hmin|]. split; [|split].
  - destruct (Frame.new_session s0) eqn:Hnew; [reflexivity|exfalso].
    destruct (filter_cons_split _ _ _ _ Hg) as (p1 & p2 & Hs & H1 & _).
    destruct (annotate_continue _ _ _ _ _ Hs Hnew)
      as (p3 & q & p4 & -> & _ & Hq & _).
    assert (Hqin : In q (List.filter
                           (fun s => String.eqb (Frame.session_id s) k)
                           (p3 ++ q :: p4))).
    { apply filter_In. split; [apply in_or_app; right; left; reflexivity|].
      apply String.eqb_eq. rewrite Hq.
      apply (Hmem s0). left. reflexivity. }
    rewrite H1 in Hqin. destruct Hqin.
  - intros s Hs. rewrite Hip.
    destruct (Hmem s Hs) as [Hs1 Hs2].
    destruct (Hmem s0 ltac:(left; reflexivity)) as [H01 H02].
    apply (annotate_same_id timeout sorted); congruence.
  - destruct (Hmem smax Hsmax) as [Hs1 Hs2].
    apply in_split in Hs1. destruct Hs1 as (pre & post & Hs).
    pose proof (session_row_distance k s0 rest Hg (length pre) pre smax post
                                     ltac:(lia) Hs Hs2) as Hd.
    assert (Hlen : (length (session_rows k pre) < length (s0 :: rest))%nat).
    { rewrite <- Hg, Hs, session_rows_app.
      rewrite session_rows_cons by exact Hs2.
      rewrite length_app. simpl. lia. }
    rewrite Hcount, Hmin, <- Emax.
    set (m := length (session_rows k pre)) in *.
    set (c := length (s0 :: rest)) in *.
    assert ((Z.of_nat c - 1) * timeout
            = Z.of_nat m * timeout + (Z.of_nat c - 1 - Z.of_nat m) * timeout)
      by lia.
    assert (0 <= (Z.of_nat c - 1 - Z.of_nat m) * timeout)
      by (apply Z.mul_nonneg_nonneg; lia).
    lia.
Qed.

End SessionLength.

(** X16: sessions respect the timeout.  For the table that
    [create_sessions] makes with a timeout that is not negative, every
    session of the statistics begins with the row that starts it, holds
    rows of one address only, the one the statistics give, and lasts at
    most one timeout for each of its rows after the first: a session of
    one row lasts no time, and one of [n] rows at most [n - 1] timeouts. *)
Theorem sessions_respect_the_timeout :
  forall (df : Frame.DataFrame) (minutes : Z)
         (srows : list Frame.SessionRow) (stats : Sessions.SessionStats),
    0 <= minutes ->
    Frame.create_sessions df minutes = Frame.SessionTable srows ->
    Sessions.get_session_stats (Frame.SessionTable srows) = Some stats ->
    forall d, In d (Sessions.session_details stats) ->
      exists s0 rest,
        session_rows (Sessions.session_id d) srows = s0 :: rest
        /\ Frame.new_session s0 = true
        /\ Sessions.session_start d = instant_of s0
        /\ (forall s, In s (s0 :: rest) -> ip_of s = Sessions.ip d)
        /\ Sessions.session_end d - Sessions.session_start d
           <= (Sessions.pageviews d - 1) * (minutes * 60000000)
        /\ (Sessions.session_duration d
            <= inject_Z ((Sessions.pageviews d - 1) * minutes))%Q.
Proof.
  intros df minutes srows stats Hm Hcs Hst d Hd.
  destruct (get_session_stats_details _ _ Hst) as (Hne & Hdet & _).
  pose proof (create_sessions_inv _ _ _ Hcs Hne) as Hs.
  rewrite Hdet in Hd. apply in_map_iff in Hd.
  destruct Hd as ([k a] & <- & Hin).
  rewrite Hs in Hin.
  destruct (session_span (Frame.timedelta_minutes minutes)
                         (Frame.sort_by Frame.key_le (rows_of_frame df))
                         ltac:(unfold Frame.timedelta_minutes; lia)
                         (sort_by_StronglySorted _) k a Hin)
    as (s0 & rest & Hg & Hmin & Hnew & Hip & Hspan).
  exists s0, rest. rewrite Hs. simpl.
  split; [exact Hg|]. split; [exact Hnew|]. split; [exact Hmin|].
  split; [exact Hip|].
  unfold Frame.timedelta_minutes in Hspan.
  split; [lia|]. unfold Qle. simpl. lia.
Qed.

Lemma sessions_respect_the_timeout_witness :
  exists s0 rest,
    session_rows (Sessions.session_id scenario_detail)
                 [first_request; early_request] = s0 :: rest
    /\ Sessions.session_start scenario_detail = instant_of s0
    /\ (Sessions.session_duration scenario_detail
        <= inject_Z ((Sessions.pageviews scenario_detail - 1) * 30))%Q.
Proof.
  destruct (Sessions.get_session_stats
              (Frame.SessionTable [first_request; early_request]))
    as [stats|] eqn:H; [|vm_compute in H; discriminate].
  destruct (sessions_respect_the_timeout
              (Frame.Table [request_at 10 0; request_at 10 20]) 30
              [first_request; early_request] stats)
    with (d := scenario_detail)
    as (s0 & rest & H1 & _ & H2 & _ & _ & H3).
  - lia.
  - vm_compute. reflexivity.
  - exact H.
  - vm_compute in H. injection H as <-. left. reflexivity.
  - exists s0, rest. auto.
Defined.

(** X17: session identifiers tell addresses apart.  The identifier made
    of an address and a number determines both, also when the address has
    underscores or digits of its own; so in the table of
    [create_sessions] two rows with the same identifier have the same
    address, and a row that starts a session has an identifier that no
    row before it has. *)
Theorem session_ids_tell_addresses_apart :
  (forall (a b : string) (n m : Z),
      0 <= n -> 0 <= m ->
      Frame.make_session_id a n = Frame.make_session_id b m ->
      a = b /\ n = m)
  /\ (forall (df : Frame.DataFrame) (minutes : Z)
             (srows : list Frame.SessionRow),
         Frame.create_sessions df minutes = Frame.SessionTable srows ->
         Frame.empty df = false ->
         (forall s s', In s srows -> In s' srows ->
                       Frame.session_id s = Frame.session_id s' ->
                       ip_of s = ip_of s')
         /\ (forall pre s post,
                srows = pre ++ s :: post ->
                Frame.new_session s = true ->
                forall q, In q pre ->
                          Frame.session_id q <> Frame.session_id s)).
Proof.
  split.
  - intros a b n m. apply make_session_id_inj_ip.
  - intros df minutes srows Hcs He.
    rewrite create_sessions_annotate in Hcs by exact He.
    injection Hcs as <-. split.
    + apply annotate_same_id.
    + intros pre s post H. eapply annotate_start. exact H.
Qed.

Lemma session_ids_tell_addresses_apart_witness :
  ip_of first_request = ip_of early_request
  /\ Frame.session_id first_request <> Frame.session_id late_request.
Proof.
  split.
  - apply (proj1 (proj2 session_ids_tell_addresses_apart
                        (Frame.Table [request_at 10 0; request_at 10 20]) 30
                        [first_request; early_request]
                        ltac:(vm_compute; reflexivity) eq_refl)).
    + left. reflexivity.
    + right. left. reflexivity.
    + reflexivity.
  - apply (proj2 (proj2 session_ids_tell_addresses_apart
                        (Frame.Table [request_at 10 0; request_at 10 45]) 30
                        [first_request; late_request]
                        ltac:(vm_compute; reflexivity) eq_refl)
                 [first_request] late_request []).
    + reflexivity.
    + reflexivity.
    + left. reflexivity.
Defined.

(** ** Averages and sessions by date *)

Section GroupTotals.

Context {K V : Type} (cmp : K -> K -> comparison).
Hypothesis cmp_eq : forall a b, cmp a b = Eq -> a = b.




End GroupTotals.







(** ** Basic statistics *)

Lemma count_into_lookup `{Countable K} (m : gmap K Z) (x k : K) :
  Stats.count_into m x !! k
  = if bool_decide (x = k)
    then Some (match m !! k with Some n => n | None => 0 end + 1)
    else m !! k.
Proof.
  unfold Stats.count_into.
  destruct (bool_decide (x = k)) eqn:E.
  - apply bool_decide_eq_true in E. subst x. rewrite lookup_insert_eq.
    destruct (m !! k); f_equal; lia.
  - apply bool_decide_eq_false in E. rewrite lookup_insert_ne by exact E.
    reflexivity.
Qed.

Lemma value_counts_lookup `{Countable K} (column : list K) :
  forall (init : gmap K Z) (k : K),
    Stats.value_counts init column !! k
    = if Z.eqb (occurrences k column) 0 then init !! k
      else Some (match init !! k with Some n => n | None => 0 end
                 + occurrences k column).
Proof.
  unfold Stats.value_counts, occurrences.
  induction column as [|x column IH]; intros init k; [reflexivity|].
  cbn [fold_left List.filter]. rewrite IH, count_into_lookup.
  set (n := length (List.filter (fun x0 => bool_decide (x0 = k)) column)).
  destruct (bool_decide (x = k)); cbn [length]; [|reflexivity].
  destruct (Z.eqb_spec (Z.of_nat n) 0) as [E|E];
    (replace (Z.of_nat (S n) =? 0) with false
      by (symmetry; apply Z.eqb_neq; lia));
    f_equal; lia.
Qed.

Lemma occurrences_Permutation `{EqDecision K} (k : K) l l' :
  l ≡ₚ l' -> occurrences k l = occurrences k l'.
Proof.
  intros Hp. unfold occurrences. f_equal.
  induction Hp as [|x l l' _ IH|x y l|l l' l'' _ IH1 _ IH2]; simpl.
  - reflexivity.
  - destruct (bool_decide (x = k)); simpl; rewrite IH; reflexivity.
  - destruct (bool_decide (x = k)), (bool_decide (y = k)); reflexivity.
  - congruence.
Qed.

Lemma value_counts_Permutation `{Countable K} (init : gmap K Z) l l' :
  l ≡ₚ l' -> Stats.value_counts init l = Stats.value_counts init l'.
Proof.
  intros Hp. apply map_eq. intros k.
  rewrite !value_counts_lookup, (occurrences_Permutation k l l' Hp).
  reflexivity.
Qed.

Lemma date_le_spec a b : Stats.date_le a b = true <-> date_before a b.
Proof.
  unfold Stats.date_le, Sessions.date_compare, date_before.
  destruct (Z.compare_spec (PyTime.d_year a) (PyTime.d_year b));
    [|split; [lia|reflexivity]|split; [discriminate|lia]].
  destruct (Z.compare_spec (PyTime.d_month a) (PyTime.d_month b));
    [|split; [lia|reflexivity]|split; [discriminate|lia]].
  destruct (Z.compare_spec (PyTime.d_day a) (PyTime.d_day b));
    split; try discriminate; try reflexivity; lia.
Qed.

Lemma date_before_refl a : date_before a a.
Proof. unfold date_before. lia. Qed.

Lemma date_before_trans a b c :
  date_before a b -> date_before b c -> date_before a c.
Proof. unfold date_before. lia. Qed.

Lemma date_before_total a b : date_before a b \/ date_before b a.
Proof. unfold date_before. lia. Qed.

Lemma date_before_antisym a b : date_before a b -> date_before b a -> a = b.
Proof.
  destruct a, b. unfold date_before. simpl. intros H1 H2.
  f_equal; lia.
Qed.

Lemma min_date_spec ds : forall d0,
  In (Stats.min_date d0 ds) (d0 :: ds)
  /\ forall d, In d (d0 :: ds) -> date_before (Stats.min_date d0 ds) d.
Proof.
  unfold Stats.min_date.
  induction ds as [|x ds IH]; intros d0.
  - simpl. split; [auto|]. intros d [<-|[]]. apply date_before_refl.
  - cbn [fold_left].
    destruct (Stats.date_le d0 x) eqn:E.
    + destruct (IH d0) as [Hin Hmin]. split.
      * destruct Hin as [Hin|Hin]; [left; exact Hin|right; right; exact Hin].
      * intros d [<-|[<-|Hd]].
        -- apply Hmin. left. reflexivity.
        -- eapply date_before_trans; [apply Hmin; left; reflexivity|].
           apply date_le_spec. exact E.
        -- apply Hmin. right. exact Hd.
    + destruct (IH x) as [Hin Hmin]. split.
      * right. exact Hin.
      * intros d [<-|[<-|Hd]].
        -- eapply date_before_trans; [apply Hmin; left; reflexivity|].
           destruct (date_before_total x d0) as [Hx|Hx]; [exact Hx|].
           apply date_le_spec in Hx. congruence.
        -- apply Hmin. left. reflexivity.
        -- apply Hmin. right. exact Hd.
Qed.

Lemma max_date_spec ds : forall d0,
  In (Stats.max_date d0 ds) (d0 :: ds)
  /\ forall d, In d (d0 :: ds) -> date_before d (Stats.max_date d0 ds).
Proof.
  unfold Stats.max_date.
  induction ds as [|x ds IH]; intros d0.
  - simpl. split; [auto|]. intros d [<-|[]]. apply date_before_refl.
  - cbn [fold_left].
    destruct (Stats.date_le x d0) eqn:E.
    + destruct (IH d0) as [Hin Hmax]. split.
      * destruct Hin as [Hin|Hin]; [left; exact Hin|right; right; exact Hin].
      * intros d [<-|[<-|Hd]].
        -- apply Hmax. left. reflexivity.
        -- eapply date_before_trans; [|apply Hmax; left; reflexivity].
           apply date_le_spec. exact E.
        -- apply Hmax. right. exact Hd.
    + destruct (IH x) as [Hin Hmax]. split.
      * right. exact Hin.
      * intros d [<-|[<-|Hd]].
        -- eapply date_before_trans; [|apply Hmax; left; reflexivity].
           destruct (date_before_total d0 x) as [Hx|Hx]; [exact Hx|].
           apply date_le_spec in Hx. congruence.
        -- apply Hmax. left. reflexivity.
        -- apply Hmax. right. exact Hd.
Qed.

Lemma min_date_Permutation d0 ds d0' ds' :
  d0 :: ds ≡ₚ d0' :: ds' -> Stats.min_date d0 ds = Stats.min_date d0' ds'.
Proof.
  intros Hp.
  destruct (min_date_spec ds d0) as [Hin Hmin].
  destruct (min_date_spec ds' d0') as [Hin' Hmin'].
  apply date_before_antisym.
  - apply Hmin. eapply Permutation_in; [symmetry; exact Hp|exact Hin'].
  - apply Hmin'. eapply Permutation_in; [exact Hp|exact Hin].
Qed.

Lemma max_date_Permutation d0 ds d0' ds' :
  d0 :: ds ≡ₚ d0' :: ds' -> Stats.max_date d0 ds = Stats.max_date d0' ds'.
Proof.
  intros Hp.
  destruct (max_date_spec ds d0) as [Hin Hmax].
  destruct (max_date_spec ds' d0') as [Hin' Hmax'].
  apply date_before_antisym.
  - apply Hmax'. eapply Permutation_in; [exact Hp|exact Hin].
  - apply Hmax. eapply Permutation_in; [symmetry; exact Hp|exact Hin'].
Qed.

Lemma sum_Z_Permutation l l' :
  l ≡ₚ l' -> Sessions.sum_Z l = Sessions.sum_Z l'.
Proof.
  unfold Sessions.sum_Z.
  induction 1; simpl; lia.
Qed.

Lemma filter_length_Permutation {A} (f : A -> bool) l l' :
  l ≡ₚ l' -> length (List.filter f l) = length (List.filter f l').
Proof.
  induction 1 as [|x l l' _ IH|x y l|l l' l'' _ IH1 _ IH2]; simpl.
  - reflexivity.
  - destruct (f x); simpl; rewrite IH; reflexivity.
  - destruct (f x), (f y); reflexivity.
  - congruence.
Qed.

(** The statistics of a frame depend on its rows only, not on their
    order and not on session columns. *)
Lemma get_log_stats_Permutation categories df df' :
  rows_of_frame df ≡ₚ rows_of_frame df' ->
  Stats.get_log_stats categories df = Stats.get_log_stats categories df'.
Proof.
  intros Hp. unfold Stats.get_log_stats.
  assert (He : Frame.empty df = Frame.empty df').
  { destruct df as [|[|r rows]|[|r rows]], df' as [|[|r' rows']|[|r' rows']];
      simpl in *; try reflexivity;
      try (apply Permutation_nil in Hp; discriminate);
      try (symmetry in Hp; apply Permutation_nil in Hp; discriminate). }
  rewrite <- He. destruct (Frame.empty df); [reflexivity|].
  destruct (rows_of_frame df) as [|r0 rest] eqn:E;
    destruct (rows_of_frame df') as [|r0' rest'] eqn:E'.
  - reflexivity.
  - apply Permutation_nil in Hp. discriminate.
  - symmetry in Hp. apply Permutation_nil in Hp. discriminate.
  - f_equal.
    assert (Hlen : length (r0 :: rest) = length (r0' :: rest'))
      by (apply Permutation_length; exact Hp).
    assert (Hsum : Sessions.sum_Z (map Frame.size (r0 :: rest))
                   = Sessions.sum_Z (map Frame.size (r0' :: rest')))
      by (apply sum_Z_Permutation, Permutation_map; exact Hp).
    f_equal.
    + rewrite Hlen. reflexivity.
    + f_equal. apply remove_dups_same_length. intros a.
      split; apply Permutation_in; apply Permutation_map;
        [exact Hp|symmetry; exact Hp].
    + f_equal.
      * apply min_date_Permutation.
        apply (Permutation_map Frame.date) in Hp. exact Hp.
      * apply max_date_Permutation.
        apply (Permutation_map Frame.date) in Hp. exact Hp.
    + apply value_counts_Permutation, Permutation_map. exact Hp.
    + apply value_counts_Permutation.
      unfold Stats.present. apply omap_Permutation, Permutation_map.
      exact Hp.
    + exact Hsum.
    + rewrite Hsum, Hlen. reflexivity.
    + f_equal. apply filter_length_Permutation. exact Hp.
Qed.



Lemma get_log_stats_Some categories df st :
  Stats.get_log_stats categories df = Some st ->
  exists r0 rest,
    rows_of_frame df = r0 :: rest
    /\ st = {| Stats.total_requests := Z.of_nat (length (r0 :: rest));
               Stats.unique_ips :=
                 Z.of_nat (length (remove_dups (map Frame.ip (r0 :: rest))));
               Stats.date_range :=
                 (Stats.min_date (Frame.date r0) (map Frame.date rest),
                  Stats.max_date (Frame.date r0) (map Frame.date rest));
               Stats.status_codes :=
                 Stats.value_counts ∅ (map Frame.status_code (r0 :: rest));
               Stats.methods :=
                 Stats.value_counts
                   (Stats.zero_counts categories)
                   (Stats.present (map Frame.method (r0 :: rest)));
               Stats.total_size :=
                 Sessions.sum_Z (map Frame.size (r0 :: rest));
               Stats.avg_size :=
                 Qdiv (inject_Z (Sessions.sum_Z (map Frame.size (r0 :: rest))))
                      (inject_Z (Z.of_nat (length (r0 :: rest))));
               Stats.errors :=
                 Z.of_nat
                   (length (List.filter
                              (fun r => Z.leb 400 (Frame.status_code r))
                              (r0 :: rest))) |}.
Proof.
  unfold Stats.get_log_stats.
  destruct (Frame.empty df); [discriminate|].
  destruct (rows_of_frame df) as [|r0 rest]; [discriminate|].
  intros H. injection H as <-. eauto.
Qed.



Lemma create_sessions_rows_of_frame df minutes :
  rows_of_frame (Frame.create_sessions df minutes) ≡ₚ rows_of_frame df.
Proof.
  destruct (Frame.empty df) eqn:He.
  - unfold Frame.create_sessions. rewrite He. reflexivity.
  - rewrite create_sessions_annotate by exact He.
    simpl. rewrite annotate_rows. apply sort_by_Permutation.
Qed.

(** X20: the basic statistics do not see sessions.  [get_log_stats]
    gives for the table of [create_sessions] what it gives for the frame
    the table was made of, and the same for two frames with the same rows
    in any order; the users that [get_session_stats] counts for that
    table are the [unique_ips] of the basic statistics, its sessions are
    at most the [total_requests], and the page views of its sessions add
    up to them. *)
Theorem log_stats_do_not_see_sessions :
  (forall (categories : list string) (df : Frame.DataFrame) (minutes : Z),
      Stats.get_log_stats categories (Frame.create_sessions df minutes)
      = Stats.get_log_stats categories df)
  /\ (forall (categories : list string) (df df' : Frame.DataFrame),
         rows_of_frame df ≡ₚ rows_of_frame df' ->
         Stats.get_log_stats categories df
         = Stats.get_log_stats categories df')
  /\ (forall (categories : list string) (df : Frame.DataFrame) (minutes : Z)
             (st : Stats.LogStats) (srows : list Frame.SessionRow)
             (ss : Sessions.SessionStats),
         Stats.get_log_stats categories df = Some st ->
         Frame.create_sessions df minutes = Frame.SessionTable srows ->
         Sessions.get_session_stats (Frame.SessionTable srows) = Some ss ->
         Sessions.unique_users ss = Stats.unique_ips st
         /\ Sessions.total_sessions ss <= Stats.total_requests st
         /\ Sessions.sum_Z (map Sessions.pageviews (Sessions.session_details ss))
            = Stats.total_requests st).
Proof.
  split; [|split].
  - intros categories df minutes. apply get_log_stats_Permutation.
    apply create_sessions_rows_of_frame.
  - intros categories df df'. apply get_log_stats_Permutation.
  - intros categories df minutes st srows ss Hst Hcs Hss.
    destruct (get_log_stats_Some _ _ _ Hst) as (r0 & rest & Hrows & ->).
    destruct (session_counts _ _ _ _ Hcs Hss) as (Hs & _ & Hcount & Husers).
    destruct (get_session_stats_details _ _ Hss) as (_ & Hdet & _).
    assert (Hlen : length srows = length (r0 :: rest)).
    { rewrite Hs, annotate_length, <- Hrows. apply Permutation_length.
      apply sort_by_Permutation. }
    cbn [Stats.unique_ips Stats.total_requests].
    split; [|split].
    + rewrite Husers, Hrows. reflexivity.
    + rewrite Hcount. unfold session_starts.
      pose proof (filter_length_le Frame.new_session srows). lia.
    + rewrite Hdet, map_map.
      destruct (aggregate_ok srows) as (_ & _ & _ & Hsum).
      rewrite <- Hlen, <- Hsum. f_equal. apply map_ext. intros [k a].
      reflexivity.
Qed.

Lemma log_stats_do_not_see_sessions_witness :
  Stats.get_log_stats [] (Frame.Table [scenario_row; bot_row])
  = Stats.get_log_stats [] (Frame.Table [bot_row; scenario_row]).
Proof.
  apply (proj1 (proj2 log_stats_do_not_see_sessions)).
  simpl. apply perm_swap.
Defined.

(** ** The comparison of two periods *)

Lemma len_rows_of_frame df : Frame.len df = length (rows_of_frame df).
Proof. destruct df; simpl; rewrite ?length_map; reflexivity. Qed.

Lemma empty_len df : Frame.empty df = true <-> Frame.len df = 0%nat.
Proof.
  destruct df as [|[|r rows]|[|r rows]]; simpl; split; congruence.
Qed.

Lemma stat_total_requests categories df :
  Compare.stat_or_zero Stats.total_requests
                       (Stats.get_log_stats categories df)
  = Z.of_nat (Frame.len df).
Proof.
  rewrite len_rows_of_frame. unfold Stats.get_log_stats.
  destruct (Frame.empty df) eqn:He.
  - apply empty_len in He. rewrite len_rows_of_frame in He.
    rewrite He. reflexivity.
  - destruct (rows_of_frame df); reflexivity.
Qed.

Lemma stat_unique_ips categories df :
  Compare.stat_or_zero Stats.unique_ips (Stats.get_log_stats categories df)
  = Z.of_nat (length (remove_dups (map Frame.ip (rows_of_frame df)))).
Proof.
  unfold Stats.get_log_stats.
  destruct (Frame.empty df) eqn:He.
  - apply empty_len in He. rewrite len_rows_of_frame in He.
    destruct (rows_of_frame df); [reflexivity|discriminate].
  - destruct (rows_of_frame df); reflexivity.
Qed.

Lemma between_dates_rows df inicio fin p :
  Compare.between_dates df inicio fin = Some p ->
  rows_of_frame p = period_rows df inicio fin.
Proof.
  unfold period_rows.
  destruct df as [|rows|rows]; simpl; [discriminate| |];
    intros H; injection H as <-; simpl; [reflexivity|].
  apply (filter_map_commute
           Frame.row
           (fun r => Compare.in_period inicio fin (Frame.date r))).
Qed.

Lemma filter_bots_rows df df' n :
  Frame.filter_bots df true = (df', n) ->
  rows_of_frame df' = without_bots (rows_of_frame df)
  /\ Z.of_nat (length (rows_of_frame df')) + n
     = Z.of_nat (length (rows_of_frame df))
  /\ 0 <= n.
Proof.
  unfold without_bots.
  destruct df as [|rows|rows]; simpl; intros H; injection H as <- <-.
  - simpl. repeat split; lia.
  - unfold Frame.drop_bots, Frame.count_true. simpl.
    pose proof (filter_length_split
                  (fun r => Frame.is_bot_user_agent (Frame.user_agent r))
                  rows).
    split; [reflexivity|]. lia.
  - unfold Frame.drop_bots, Frame.count_true. simpl.
    pose proof (filter_length_split
                  (fun r => Frame.is_bot_user_agent
                              (Frame.user_agent (Frame.row r)))
                  rows) as H.
    split.
    + apply (filter_map_commute
               Frame.row
               (fun r => negb (Frame.is_bot_user_agent
                                 (Frame.user_agent r)))).
    + rewrite !length_map. lia.
Qed.

(** The frame of a period holds, in some order, the rows of the period
    that the bot filter keeps, and the count is the number of the
    others. *)
Lemma period_frame_rows df inicio fin exclude_bots use_sessions timeout p n :
  period_frame df inicio fin exclude_bots use_sessions timeout = Some (p, n) ->
  rows_of_frame p
  ≡ₚ (if exclude_bots then without_bots (period_rows df inicio fin)
      else period_rows df inicio fin)
  /\ Z.of_nat (Frame.len p) + n
     = Z.of_nat (length (period_rows df inicio fin))
  /\ 0 <= n
  /\ (exclude_bots = false -> n = 0)
  /\ (use_sessions = false ->
      rows_of_frame p
      = if exclude_bots then without_bots (period_rows df inicio fin)
        else period_rows df inicio fin).
Proof.
  unfold period_frame.
  destruct (Compare.between_dates df inicio fin) as [q|] eqn:Eq;
    [|discriminate].
  apply between_dates_rows in Eq. rewrite <- Eq.
  destruct exclude_bots.
  - destruct (Frame.filter_bots q true) as [q' m] eqn:Ef.
    destruct (filter_bots_rows _ _ _ Ef) as (Hrows & Hlen & Hm).
    intros H. injection H as <- <-.
    rewrite len_rows_of_frame.
    assert (Hp : rows_of_frame
                   (if use_sessions then Frame.create_sessions q' timeout
                    else q') ≡ₚ rows_of_frame q').
    { destruct use_sessions; [apply create_sessions_rows_of_frame|].
      reflexivity. }
    split; [rewrite Hp, Hrows; reflexivity|].
    split; [rewrite (Permutation_length Hp); exact Hlen|].
    split; [exact Hm|]. split; [discriminate|].
    intros ->. exact Hrows.
  - intros H. injection H as <- <-.
    rewrite len_rows_of_frame.
    assert (Hp : rows_of_frame
                   (if use_sessions then Frame.create_sessions q timeout
                    else q) ≡ₚ rows_of_frame q).
    { destruct use_sessions; [apply create_sessions_rows_of_frame|].
      reflexivity. }
    split; [exact Hp|].
    split; [rewrite (Permutation_length Hp); lia|].
    split; [lia|]. split; [reflexivity|].
    intros ->. reflexivity.
Qed.

(** [comparar_periodos] in terms of the frames of its two periods. *)
Lemma comparar_periodos_frames categories df i1 f1 i2 f2 eb us timeout c :
  Compare.comparar_periodos categories df i1 f1 i2 f2 eb us timeout = Some c ->
  exists p1 n1 p2 n2,
    period_frame df i1 f1 eb us timeout = Some (p1, n1)
    /\ period_frame df i2 f2 eb us timeout = Some (p2, n2)
    /\ Compare.dataframes c = (p1, p2)
    /\ Compare.bots_filtrados (Compare.periodo1 c) = n1
    /\ Compare.bots_filtrados (Compare.periodo2 c) = n2
    /\ Compare.stats (Compare.periodo1 c)
       = Stats.get_log_stats categories p1
    /\ Compare.stats (Compare.periodo2 c)
       = Stats.get_log_stats categories p2
    /\ Compare.sessions_stats (Compare.periodo1 c)
       = (if us then Sessions.get_session_stats p1 else None)
    /\ Compare.sessions_stats (Compare.periodo2 c)
       = (if us then Sessions.get_session_stats p2 else None)
    /\ Compare.errors (Compare.periodo1 c)
       = Compare.stat_or_zero Stats.errors (Compare.stats (Compare.periodo1 c))
    /\ Compare.errors (Compare.periodo2 c)
       = Compare.stat_or_zero Stats.errors (Compare.stats (Compare.periodo2 c))
    /\ Compare.size (Compare.periodo1 c)
       = Compare.stat_or_zero Stats.total_size
                              (Compare.stats (Compare.periodo1 c))
    /\ Compare.size (Compare.periodo2 c)
       = Compare.stat_or_zero Stats.total_size
                              (Compare.stats (Compare.periodo2 c))
    /\ (Compare.requests (Compare.periodo1 c),
        Compare.requests (Compare.periodo2 c),
        Compare.ips (Compare.periodo1 c),
        Compare.ips (Compare.periodo2 c))
       = match Compare.sessions_stats (Compare.periodo1 c),
               Compare.sessions_stats (Compare.periodo2 c) with
         | Some s1, Some s2 =>
             (Sessions.total_sessions s1, Sessions.total_sessions s2,
              Sessions.unique_users s1, Sessions.unique_users s2)
         | _, _ =>
             (Z.of_nat (Frame.len p1), Z.of_nat (Frame.len p2),
              Compare.stat_or_zero Stats.unique_ips
                                   (Compare.stats (Compare.periodo1 c)),
              Compare.stat_or_zero Stats.unique_ips
                                   (Compare.stats (Compare.periodo2 c)))
         end
    /\ Compare.diferencias c
       = {| Compare.requests_change :=
              Compare.change (Compare.requests (Compare.periodo1 c))
                             (Compare.requests (Compare.periodo2 c));
            Compare.ips_change :=
              Compare.change (Compare.ips (Compare.periodo1 c))
                             (Compare.ips (Compare.periodo2 c));
            Compare.errors_change :=
              Compare.change (Compare.errors (Compare.periodo1 c))
                             (Compare.errors (Compare.periodo2 c));
            Compare.size_change :=
              Compare.change (Compare.size (Compare.periodo1 c))
                             (Compare.size (Compare.periodo2 c)) |}.
Proof.
  unfold Compare.comparar_periodos, period_frame.
  destruct (Compare.between_dates df i1 f1) as [q1|]; [|discriminate].
  destruct (Compare.between_dates df i2 f2) as [q2|]; [|discriminate].
  destruct (if eb then Frame.filter_bots q1 true else (q1, 0)) as [q1' n1].
  destruct (if eb then Frame.filter_bots q2 true else (q2, 0)) as [q2' n2].
  set (p1 := if us then Frame.create_sessions q1' timeout else q1').
  set (p2 := if us then Frame.create_sessions q2' timeout else q2').
  intros H. exists p1, n1, p2, n2.
  split; [reflexivity|]. split; [reflexivity|].
  destruct us.
  - destruct (Sessions.get_session_stats p1) as [s1|] eqn:E1;
      destruct (Sessions.get_session_stats p2) as [s2|] eqn:E2;
      injection H as <-; cbn; rewrite ?E1, ?E2, ?stat_total_requests;
      repeat split; reflexivity.
  - injection H as <-. cbn. rewrite ?stat_total_requests.
    repeat split; reflexivity.
Qed.

Lemma get_session_stats_created q timeout :
  match Sessions.get_session_stats (Frame.create_sessions q timeout) with
  | Some s =>
      Frame.empty q = false
      /\ exists srows,
          Frame.create_sessions q timeout = Frame.SessionTable srows
          /\ Sessions.get_session_stats (Frame.SessionTable srows) = Some s
  | None => Frame.empty q = true
  end.
Proof.
  destruct (Frame.empty q) eqn:He.
  - unfold Frame.create_sessions. rewrite He.
    unfold Sessions.get_session_stats. rewrite He. reflexivity.
  - rewrite create_sessions_annotate by exact He.
    pose proof (sort_by_nonempty Frame.key_le _ (empty_rows_of_frame q He))
      as Hne.
    destruct (Frame.sort_by Frame.key_le (rows_of_frame q)) as [|r rows];
      [congruence|].
    simpl. split; [reflexivity|]. eexists. split; reflexivity.
Qed.

(** X21: what a comparison counts.  For each period the frame of the
    comparison holds the rows of the frame given whose date is in the
    period, without those of bots when bots are excluded; the rows kept
    and [bots_filtrados] add up to the rows of the period; [requests] is
    the number of sessions when sessions are used and both periods have
    rows left, and the number of rows kept otherwise, for both periods
    alike; and every absolute difference is the value of the second
    period minus the value of the first. *)
Theorem comparison_counts_the_periods :
  forall (categories : list string) (df : Frame.DataFrame)
         (i1 f1 i2 f2 : PyTime.pydate) (eb us : bool) (timeout : Z)
         (c : Compare.Comparison),
    Compare.comparar_periodos categories df i1 f1 i2 f2 eb us timeout
    = Some c ->
    let p1 := fst (Compare.dataframes c) in
    let p2 := snd (Compare.dataframes c) in
    let kept inicio fin :=
      if eb then without_bots (period_rows df inicio fin)
      else period_rows df inicio fin in
    rows_of_frame p1 ≡ₚ kept i1 f1
    /\ rows_of_frame p2 ≡ₚ kept i2 f2
    /\ Z.of_nat (Frame.len p1) + Compare.bots_filtrados (Compare.periodo1 c)
       = Z.of_nat (length (period_rows df i1 f1))
    /\ Z.of_nat (Frame.len p2) + Compare.bots_filtrados (Compare.periodo2 c)
       = Z.of_nat (length (period_rows df i2 f2))
    /\ (if (us && negb (Frame.empty p1) && negb (Frame.empty p2))%bool
        then exists s1 s2,
            Compare.sessions_stats (Compare.periodo1 c) = Some s1
            /\ Compare.sessions_stats (Compare.periodo2 c) = Some s2
            /\ Compare.requests (Compare.periodo1 c)
               = Sessions.total_sessions s1
            /\ Compare.requests (Compare.periodo2 c)
               = Sessions.total_sessions s2
        else Compare.requests (Compare.periodo1 c) = Z.of_nat (Frame.len p1)
             /\ Compare.requests (Compare.periodo2 c)
                = Z.of_nat (Frame.len p2))
    /\ Compare.absoluta (Compare.requests_change (Compare.diferencias c))
       = Compare.requests (Compare.periodo2 c)
         - Compare.requests (Compare.periodo1 c)
    /\ Compare.absoluta (Compare.ips_change (Compare.diferencias c))
       = Compare.ips (Compare.periodo2 c) - Compare.ips (Compare.periodo1 c)
    /\ Compare.absoluta (Compare.errors_change (Compare.diferencias c))
       = Compare.errors (Compare.periodo2 c)
         - Compare.errors (Compare.periodo1 c)
    /\ Compare.absoluta (Compare.size_change (Compare.diferencias c))
       = Compare.size (Compare.periodo2 c) - Compare.size (Compare.periodo1 c).
Proof.
  intros categories df i1 f1 i2 f2 eb us timeout c H p1 p2 kept.
  destruct (comparar_periodos_frames _ _ _ _ _ _ _ _ _ _ H)
    as (q1 & n1 & q2 & n2 & Hp1 & Hp2 & Hdf & Hb1 & Hb2 & _ & _ & Hs1 & Hs2
        & _ & _ & _ & _ & Hreq & Hdiff).
  subst p1 p2. rewrite Hdf. cbn [fst snd].
  destruct (period_frame_rows _ _ _ _ _ _ _ _ Hp1) as (Hr1 & Hl1 & _).
  destruct (period_frame_rows _ _ _ _ _ _ _ _ Hp2) as (Hr2 & Hl2 & _).
  split; [exact Hr1|]. split; [exact Hr2|].
  split; [rewrite Hb1; exact Hl1|]. split; [rewrite Hb2; exact Hl2|].
  split; [|rewrite Hdiff; repeat split; reflexivity].
  rewrite Hs1, Hs2 in Hreq |- *.
  destruct us; [|injection Hreq as -> -> _ _; simpl; auto].
  unfold period_frame in Hp1, Hp2.
  destruct (Compare.between_dates df i1 f1) as [b1|]; [|discriminate].
  destruct (Compare.between_dates df i2 f2) as [b2|]; [|discriminate].
  destruct (if eb then Frame.filter_bots b1 true else (b1, 0)) as [b1' m1].
  destruct (if eb then Frame.filter_bots b2 true else (b2, 0)) as [b2' m2].
  injection Hp1 as <- _. injection Hp2 as <- _.
  pose proof (get_session_stats_created b1' timeout) as G1.
  pose proof (get_session_stats_created b2' timeout) as G2.
  assert (E1 : Frame.empty (Frame.create_sessions b1' timeout)
               = Frame.empty b1').
  { destruct (Frame.empty b1') eqn:He.
    - unfold Frame.create_sessions. rewrite He. exact He.
    - rewrite create_sessions_annotate by exact He.
      pose proof (sort_by_nonempty Frame.key_le _
                    (empty_rows_of_frame b1' He)) as Hne.
      destruct (Frame.sort_by Frame.key_le (rows_of_frame b1'));
        [congruence|reflexivity]. }
  assert (E2 : Frame.empty (Frame.create_sessions b2' timeout)
               = Frame.empty b2').
  { destruct (Frame.empty b2') eqn:He.
    - unfold Frame.create_sessions. rewrite He. exact He.
    - rewrite create_sessions_annotate by exact He.
      pose proof (sort_by_nonempty Frame.key_le _
                    (empty_rows_of_frame b2' He)) as Hne.
      destruct (Frame.sort_by Frame.key_le (rows_of_frame b2'));
        [congruence|reflexivity]. }
  rewrite E1, E2. cbn [andb].
  destruct (Sessions.get_session_stats (Frame.create_sessions b1' timeout))
    as [s1|];
    destruct (Sessions.get_session_stats (Frame.create_sessions b2' timeout))
      as [s2|].
  - destruct G1 as [-> _]. destruct G2 as [-> _]. cbn [negb andb].
    injection Hreq as -> -> _ _. exists s1, s2. auto.
  - destruct G1 as [-> _]. rewrite G2. cbn [negb andb].
    injection Hreq as -> -> _ _. auto.
  - rewrite G1. cbn [negb andb]. injection Hreq as -> -> _ _. auto.
  - rewrite G1. cbn [negb andb]. injection Hreq as -> -> _ _. auto.
Qed.

Lemma comparison_counts_the_periods_witness :
  exists c,
    Compare.comparar_periodos
      [] (Frame.Table [request_at 10 0; request_at 10 45])
      (PyTime.Date 2025 5 26) (PyTime.Date 2025 5 26)
      (PyTime.Date 2025 5 27) (PyTime.Date 2025 5 31) true true 30
    = Some c
    /\ Compare.requests (Compare.periodo1 c) = 2
    /\ Compare.requests (Compare.periodo2 c) = 0
    /\ Compare.absoluta (Compare.requests_change (Compare.diferencias c))
       = Compare.requests (Compare.periodo2 c)
         - Compare.requests (Compare.periodo1 c).
Proof.
  destruct (Compare.comparar_periodos
              [] (Frame.Table [request_at 10 0; request_at 10 45])
              (PyTime.Date 2025 5 26) (PyTime.Date 2025 5 26)
              (PyTime.Date 2025 5 27) (PyTime.Date 2025 5 31) true true 30)
    as [c|] eqn:H; [|vm_compute in H; discriminate].
  exists c. split; [reflexivity|].
  destruct (comparison_counts_the_periods _ _ _ _ _ _ _ _ _ _ H)
    as (_ & _ & _ & _ & _ & Hd & _).
  vm_compute in H. injection H as <-.
  split; [reflexivity|]. split; [reflexivity|]. exact Hd.
Defined.

Lemma period_frame_sessions df inicio fin eb timeout p n :
  period_frame df inicio fin eb true timeout = Some (p, n) ->
  exists q,
    period_frame df inicio fin eb false timeout = Some (q, n)
    /\ p = Frame.create_sessions q timeout.
Proof.
  unfold period_frame.
  destruct (Compare.between_dates df inicio fin) as [b|]; [|discriminate].
  destruct (if eb then Frame.filter_bots b true else (b, 0)) as [b' m].
  intros H. injection H as <- <-. eauto.
Qed.

Lemma sessions_or_requests q timeout s :
  Sessions.get_session_stats (Frame.create_sessions q timeout) = Some s ->
  Sessions.total_sessions s <= Z.of_nat (Frame.len q)
  /\ forall categories,
      Sessions.unique_users s
      = Compare.stat_or_zero Stats.unique_ips
                             (Stats.get_log_stats categories q).
Proof.
  intros H. pose proof (get_session_stats_created q timeout) as G.
  rewrite H in G. destruct G as (He & srows & Hcs & Hss).
  destruct (session_counts _ _ _ _ Hcs Hss) as (Hs & _ & Hcount & Husers).
  split.
  - rewrite Hcount, len_rows_of_frame. unfold session_starts.
    pose proof (filter_length_le Frame.new_session srows) as Hle.
    assert (Hlen : length srows = length (rows_of_frame q)).
    { rewrite Hs, annotate_length. apply Permutation_length.
      apply sort_by_Permutation. }
    lia.
  - intros categories. rewrite stat_unique_ips. exact Husers.
Qed.

(** X22: switching the sessions on changes the requests only.  Two
    comparisons of the same frame and periods, one with and one without
    sessions, agree on the addresses, the errors, the sizes, the basic
    statistics and the bots removed of both periods and on the
    differences of addresses, errors and sizes; and with sessions the
    requests of a period are at most its requests without. *)
Theorem sessions_change_only_the_requests :
  forall (categories : list string) (df : Frame.DataFrame)
         (i1 f1 i2 f2 : PyTime.pydate) (eb : bool) (timeout : Z)
         (c_on c_off : Compare.Comparison),
    Compare.comparar_periodos categories df i1 f1 i2 f2 eb true timeout
    = Some c_on ->
    Compare.comparar_periodos categories df i1 f1 i2 f2 eb false timeout
    = Some c_off ->
    (forall side : Compare.Comparison -> Compare.Period,
        side = Compare.periodo1 \/ side = Compare.periodo2 ->
        Compare.ips (side c_on) = Compare.ips (side c_off)
        /\ Compare.errors (side c_on) = Compare.errors (side c_off)
        /\ Compare.size (side c_on) = Compare.size (side c_off)
        /\ Compare.stats (side c_on) = Compare.stats (side c_off)
        /\ Compare.bots_filtrados (side c_on)
           = Compare.bots_filtrados (side c_off)
        /\ Compare.requests (side c_on) <= Compare.requests (side c_off))
    /\ Compare.ips_change (Compare.diferencias c_on)
       = Compare.ips_change (Compare.diferencias c_off)
    /\ Compare.errors_change (Compare.diferencias c_on)
       = Compare.errors_change (Compare.diferencias c_off)
    /\ Compare.size_change (Compare.diferencias c_on)
       = Compare.size_change (Compare.diferencias c_off).
Proof.
  intros categories df i1 f1 i2 f2 eb timeout c_on c_off Hon Hoff.
  destruct (comparar_periodos_frames _ _ _ _ _ _ _ _ _ _ Hon)
    as (p1 & n1 & p2 & n2 & Hp1 & Hp2 & _ & Hb1 & Hb2 & Hst1 & Hst2
        & Hss1 & Hss2 & He1 & He2 & Hz1 & Hz2 & Hreq & Hdiff).
  destruct (comparar_periodos_frames _ _ _ _ _ _ _ _ _ _ Hoff)
    as (q1 & m1 & q2 & m2 & Hq1 & Hq2 & _ & Hb1' & Hb2' & Hst1' & Hst2'
        & Hss1' & Hss2' & He1' & He2' & Hz1' & Hz2' & Hreq' & Hdiff').
  destruct (period_frame_sessions _ _ _ _ _ _ _ Hp1) as (x1 & Hx1 & ->).
  destruct (period_frame_sessions _ _ _ _ _ _ _ Hp2) as (x2 & Hx2 & ->).
  rewrite Hq1 in Hx1. injection Hx1 as <- <-.
  rewrite Hq2 in Hx2. injection Hx2 as <- <-.
  assert (S1 : Compare.stats (Compare.periodo1 c_on)
               = Compare.stats (Compare.periodo1 c_off)).
  { rewrite Hst1, Hst1'. apply get_log_stats_Permutation.
    apply create_sessions_rows_of_frame. }
  assert (S2 : Compare.stats (Compare.periodo2 c_on)
               = Compare.stats (Compare.periodo2 c_off)).
  { rewrite Hst2, Hst2'. apply get_log_stats_Permutation.
    apply create_sessions_rows_of_frame. }
  rewrite Hss1' in Hreq'. cbn iota in Hreq'.
  injection Hreq' as R1' R2' I1' I2'.
  assert (Hcmp : Compare.requests (Compare.periodo1 c_on)
                 <= Compare.requests (Compare.periodo1 c_off)
                 /\ Compare.requests (Compare.periodo2 c_on)
                    <= Compare.requests (Compare.periodo2 c_off)
                 /\ Compare.ips (Compare.periodo1 c_on)
                    = Compare.ips (Compare.periodo1 c_off)
                 /\ Compare.ips (Compare.periodo2 c_on)
                    = Compare.ips (Compare.periodo2 c_off)).
  { rewrite Hss1, Hss2 in Hreq. rewrite R1', R2', I1', I2'.
    rewrite Hst1', Hst2'.
    assert (L1 : Frame.len (Frame.create_sessions q1 timeout)
                 = Frame.len q1)
      by (rewrite !len_rows_of_frame; apply Permutation_length,
            create_sessions_rows_of_frame).
    assert (L2 : Frame.len (Frame.create_sessions q2 timeout)
                 = Frame.len q2)
      by (rewrite !len_rows_of_frame; apply Permutation_length,
            create_sessions_rows_of_frame).
    destruct (Sessions.get_session_stats (Frame.create_sessions q1 timeout))
      as [s1|] eqn:G1;
      destruct (Sessions.get_session_stats (Frame.create_sessions q2 timeout))
        as [s2|] eqn:G2;
      injection Hreq as -> -> -> ->;
      rewrite ?S1, ?S2, ?Hst1', ?Hst2', ?L1, ?L2;
      try (repeat split; reflexivity || lia).
    destruct (sessions_or_requests _ _ _ G1) as [T1 U1].
    destruct (sessions_or_requests _ _ _ G2) as [T2 U2].
    rewrite (U1 categories), (U2 categories). repeat split; lia. }
  destruct Hcmp as (C1 & C2 & I1 & I2).
  assert (E1 : Compare.errors (Compare.periodo1 c_on)
               = Compare.errors (Compare.periodo1 c_off))
    by (rewrite He1, He1', S1; reflexivity).
  assert (E2 : Compare.errors (Compare.periodo2 c_on)
               = Compare.errors (Compare.periodo2 c_off))
    by (rewrite He2, He2', S2; reflexivity).
  assert (Z1 : Compare.size (Compare.periodo1 c_on)
               = Compare.size (Compare.periodo1 c_off))
    by (rewrite Hz1, Hz1', S1; reflexivity).
  assert (Z2 : Compare.size (Compare.periodo2 c_on)
               = Compare.size (Compare.periodo2 c_off))
    by (rewrite Hz2, Hz2', S2; reflexivity).
  split; [|split; [|split]].
  - intros side [->| ->].
    + repeat split; try assumption. congruence.
    + repeat split; try assumption. congruence.
  - rewrite Hdiff, Hdiff'. cbn. rewrite I1, I2. reflexivity.
  - rewrite Hdiff, Hdiff'. cbn. rewrite E1, E2. reflexivity.
  - rewrite Hdiff, Hdiff'. cbn. rewrite Z1, Z2. reflexivity.
Qed.

Lemma sessions_change_only_the_requests_witness :
  exists c_on c_off,
    Compare.comparar_periodos
      [] (Frame.Table [request_at 10 0; request_at 10 20])
      (PyTime.Date 2025 5 26) (PyTime.Date 2025 5 26)
      (PyTime.Date 2025 5 20) (PyTime.Date 2025 5 31) false true 30
    = Some c_on
    /\ Compare.comparar_periodos
         [] (Frame.Table [request_at 10 0; request_at 10 20])
         (PyTime.Date 2025 5 26) (PyTime.Date 2025 5 26)
         (PyTime.Date 2025 5 20) (PyTime.Date 2025 5 31) false false 30
       = Some c_off
    /\ Compare.requests (Compare.periodo1 c_on) = 1
    /\ Compare.requests (Compare.periodo1 c_off) = 2
    /\ Compare.ips (Compare.periodo1 c_on)
       = Compare.ips (Compare.periodo1 c_off).
Proof.
  destruct (Compare.comparar_periodos
              [] (Frame.Table [request_at 10 0; request_at 10 20])
              (PyTime.Date 2025 5 26) (PyTime.Date 2025 5 26)
              (PyTime.Date 2025 5 20) (PyTime.Date 2025 5 31) false true 30)
    as [c_on|] eqn:Hon; [|vm_compute in Hon; discriminate].
  destruct (Compare.comparar_periodos
              [] (Frame.Table [request_at 10 0; request_at 10 20])
              (PyTime.Date 2025 5 26) (PyTime.Date 2025 5 26)
              (PyTime.Date 2025 5 20) (PyTime.Date 2025 5 31) false false 30)
    as [c_off|] eqn:Hoff; [|vm_compute in Hoff; discriminate].
  exists c_on, c_off. split; [reflexivity|]. split; [reflexivity|].
  destruct (proj1 (sessions_change_only_the_requests
                     _ _ _ _ _ _ _ _ _ _ Hon Hoff)
                  Compare.periodo1 (or_introl eq_refl))
    as (Hips & _).
  vm_compute in Hon. injection Hon as <-.
  vm_compute in Hoff. injection Hoff as <-.
  split; [reflexivity|]. split; [reflexivity|]. exact Hips.
Defined.

(** ** The sample of a file *)

Lemma crear_dataframe_lines_read clock lines read_fails max_lines chunk_size :
  Ingest.crear_dataframe clock (Ingest.Readable lines read_fails)
                         max_lines chunk_size
  = Ingest.crear_dataframe
      clock
      (Ingest.Readable
         (lines_read max_lines lines)
         (read_fails
          && (length lines <=? length (lines_read max_lines lines))%nat))
      None chunk_size.
Proof.
  unfold Ingest.crear_dataframe. rewrite read_loop_lines_read. reflexivity.
Qed.

Lemma sample_loop_spec clock sample_set lines : forall n read_fails datos e,
  Sample.sample_loop clock sample_set n lines read_fails datos e
  = (datos ++ records_of clock (sampled sample_set n lines),
     e + failures_of clock (sampled sample_set n lines),
     read_fails).
Proof.
  unfold records_of, failures_of.
  induction lines as [|line rest IH]; intros n read_fails datos e.
  - simpl. rewrite app_nil_r, Z.add_0_r. reflexivity.
  - cbn [Sample.sample_loop sampled].
    destruct (bool_decide (n ∈ sample_set)).
    + destruct (Log.parse_log_to_dict (clock n) line) as [r|] eqn:E;
        rewrite IH.
      * change (omap _ ((n, line) :: ?l))
          with (match Log.parse_log_to_dict (clock n) line with
                | Some y => y :: omap (fun '(n, line) =>
                                         Log.parse_log_to_dict (clock n) line)
                                      l
                | None => omap (fun '(n, line) =>
                                  Log.parse_log_to_dict (clock n) line) l
                end).
        cbn [List.filter]. rewrite E. rewrite <- app_assoc. reflexivity.
      * change (omap _ ((n, line) :: ?l))
          with (match Log.parse_log_to_dict (clock n) line with
                | Some y => y :: omap (fun '(n, line) =>
                                         Log.parse_log_to_dict (clock n) line)
                                      l
                | None => omap (fun '(n, line) =>
                                  Log.parse_log_to_dict (clock n) line) l
                end).
        cbn [List.filter]. rewrite E. cbn [length].
        f_equal. f_equal. lia.
    + apply IH.
Qed.

Lemma records_and_failures clock numbered :
  Z.of_nat (length (records_of clock numbered)) + failures_of clock numbered
  = Z.of_nat (length numbered).
Proof.
  unfold records_of, failures_of.
  induction numbered as [|[n line] l IH]; [reflexivity|].
  change (omap _ ((n, line) :: l))
    with (match Log.parse_log_to_dict (clock n) line with
          | Some y => y :: omap (fun '(n, line) =>
                                   Log.parse_log_to_dict (clock n) line) l
          | None => omap (fun '(n, line) =>
                            Log.parse_log_to_dict (clock n) line) l
          end).
  cbn [List.filter].
  destruct (Log.parse_log_to_dict (clock n) line); cbn [length]; lia.
Qed.

Lemma sampled_spec sample_set lines : forall n,
  Forall (fun p => fst p ∈ sample_set /\ n <= fst p
                   /\ nth_error lines (Z.to_nat (fst p - n)) = Some (snd p))
         (sampled sample_set n lines)
  /\ List.NoDup (map fst (sampled sample_set n lines)).
Proof.
  induction lines as [|line rest IH]; intros n.
  - split; constructor.
  - cbn [sampled]. destruct (IH (n + 1)) as [Hall Hnd].
    assert (Hall' : Forall
                      (fun p => fst p ∈ sample_set /\ n <= fst p
                                /\ nth_error (line :: rest)
                                             (Z.to_nat (fst p - n))
                                   = Some (snd p))
                      (sampled sample_set (n + 1) rest)).
    { eapply List.Forall_impl; [|exact Hall].
      intros [i l] (Hi & Hle & Hnth). simpl in *.
      split; [exact Hi|]. split; [lia|].
      replace (Z.to_nat (i - n)) with (S (Z.to_nat (i - (n + 1)))) by lia.
      exact Hnth. }
    destruct (bool_decide (n ∈ sample_set)) eqn:E; [|auto].
    apply bool_decide_eq_true in E. split.
    + constructor; [|exact Hall'].
      simpl. rewrite Z.sub_diag. auto with zarith.
    + simpl. constructor; [|exact Hnd].
      intros Hin. apply in_map_iff in Hin.
      destruct Hin as ([i l] & Hi & Hin). simpl in Hi. subst i.
      rewrite List.Forall_forall in Hall.
      specialize (Hall _ Hin). simpl in Hall. lia.
Qed.

Lemma sampled_length sample_set lines n :
  (length (sampled sample_set n lines) <= length sample_set)%nat.
Proof.
  destruct (sampled_spec sample_set lines n) as [Hall Hnd].
  rewrite <- (length_map fst (sampled sample_set n lines)).
  apply List.NoDup_incl_length; [exact Hnd|].
  intros i Hi. apply in_map_iff in Hi. destruct Hi as (p & <- & Hp).
  rewrite List.Forall_forall in Hall.
  apply list_elem_of_In. apply (Hall p Hp).
Qed.

(** X23: the estimate decides what the sample mode reads.  When the
    estimate of the number of lines is at most the sample size, the
    function hands over to [crear_dataframe] with the estimate as limit:
    it returns what an unlimited run over the first lines, as many as the
    estimate, returns (over all lines for an estimate of 0), so the lines
    beyond the estimate are left out.  The estimate of a file of 50000
    bytes with 200 lines is 100, that of a file of 99 bytes with one line
    is 0.  A file that cannot be opened makes the function raise. *)
Theorem small_estimates_cut_the_file :
  (forall (clock : Z -> PyTime.datetime) (lines : list string)
          (read_fails : bool) (file_size lines_in_sample : Z)
          (sample_lines : list Z) (sample_size total : Z),
      Sample.total_lines file_size lines_in_sample = Some (Some total) ->
      total <= sample_size ->
      Sample.crear_dataframe_sample
        clock (Ingest.Readable lines read_fails)
        (Sample.Probed file_size lines_in_sample) sample_lines sample_size
      = Sample.outcome_of
          (Ingest.crear_dataframe
             clock
             (Ingest.Readable
                (lines_read (Some total) lines)
                (read_fails
                 && (length lines
                     <=? length (lines_read (Some total) lines))%nat))
             None 10000))
  /\ Sample.total_lines 50000 200 = Some (Some 100)
  /\ Sample.total_lines 99 1 = Some (Some 0)
  /\ (forall (clock : Z -> PyTime.datetime) (probe : Sample.Probe)
             (sample_lines : list Z) (sample_size : Z),
         Sample.crear_dataframe_sample clock Ingest.Unreadable probe
                                       sample_lines sample_size
         = Sample.Raises).
Proof.
  split; [|split; [|split]].
  - intros clock lines read_fails file_size lines_in_sample sample_lines
           sample_size total Ht Hle.
    unfold Sample.crear_dataframe_sample. rewrite Ht.
    rewrite (proj2 (Z.leb_le total sample_size) Hle).
    rewrite crear_dataframe_lines_read. reflexivity.
  - vm_compute. reflexivity.
  - vm_compute. reflexivity.
  - reflexivity.
Qed.

Lemma small_estimates_cut_the_file_witness :
  Sample.crear_dataframe_sample
    example_clock (Ingest.Readable two_line_file false)
    (Sample.Probed 60000 2) [] 50000
  = Sample.Returns (Frame.Table [scenario_row]) 0.
Proof.
  rewrite (proj1 small_estimates_cut_the_file
                 example_clock two_line_file false 60000 2 [] 50000 1).
  - vm_compute. reflexivity.
  - vm_compute. reflexivity.
  - lia.
Defined.

(** X24: what a sample holds.  When the estimate exceeds a sample size
    that is not negative, the function reads the lines whose numbers were
    drawn: the count it returns is the number of those that do not parse,
    and a table it returns holds the records of those that parse, in the
    order of the file; rows and errors add up to the drawn lines that the
    file has, which are at most as many as were drawn. *)
Theorem sample_holds_the_drawn_lines :
  forall (clock : Z -> PyTime.datetime) (lines : list string)
         (read_fails : bool) (file_size lines_in_sample : Z)
         (sample_lines : list Z) (sample_size total : Z)
         (df : Frame.DataFrame) (e : Z),
    Sample.total_lines file_size lines_in_sample = Some (Some total) ->
    0 <= sample_size < total ->
    Sample.crear_dataframe_sample
      clock (Ingest.Readable lines read_fails)
      (Sample.Probed file_size lines_in_sample) sample_lines sample_size
    = Sample.Returns df e ->
    let drawn := sampled sample_lines 0 lines in
    e = failures_of clock drawn
    /\ (df = Frame.Empty
        \/ exists rows,
            df = Frame.Table rows /\ rows <> []
            /\ Z.of_nat (length rows) + e = Z.of_nat (length drawn)
            /\ Forall2 (fun row r =>
                          Ingest.row_of (Ingest.instant (Log.timestamp r)) r
                          = Some row)
                       rows (records_of clock drawn))
    /\ Z.of_nat (Frame.len df) + e <= Z.of_nat (length sample_lines)
    /\ Forall (fun p => fst p ∈ sample_lines
                        /\ nth_error lines (Z.to_nat (fst p)) = Some (snd p))
              drawn.
Proof.
  intros clock lines read_fails file_size lines_in_sample sample_lines
         sample_size total df e Ht [Hss Hlt] H drawn.
  unfold Sample.crear_dataframe_sample in H. rewrite Ht in H.
  rewrite (proj2 (Z.leb_gt total sample_size) Hlt) in H.
  rewrite (proj2 (Z.ltb_ge sample_size 0) Hss) in H.
  rewrite sample_loop_spec in H. fold drawn in H. simpl app in H.
  rewrite Z.add_0_l in H.
  pose proof (records_and_failures clock drawn) as Hsum.
  pose proof (sampled_length sample_lines lines 0) as Hlen. fold drawn in Hlen.
  assert (Hpos : 0 <= failures_of clock drawn)
    by (unfold failures_of; lia).
  assert (Hdrawn : Forall (fun p => fst p ∈ sample_lines
                                    /\ nth_error lines (Z.to_nat (fst p))
                                       = Some (snd p))
                          drawn).
  { eapply List.Forall_impl; [|exact (proj1 (sampled_spec sample_lines lines 0))].
    intros p (H1 & _ & H2). rewrite Z.sub_0_r in H2. auto. }
  assert (Hempty : Sample.Returns Frame.Empty (failures_of clock drawn)
                   = Sample.Returns df e ->
                   e = failures_of clock drawn
                   /\ (df = Frame.Empty
                       \/ exists rows,
                           df = Frame.Table rows /\ rows <> []
                           /\ Z.of_nat (length rows) + e
                              = Z.of_nat (length drawn)
                           /\ Forall2
                                (fun row r =>
                                   Ingest.row_of
                                     (Ingest.instant (Log.timestamp r)) r
                                   = Some row)
                                rows (records_of clock drawn))
                   /\ Z.of_nat (Frame.len df) + e
                      <= Z.of_nat (length sample_lines)
                   /\ Forall (fun p => fst p ∈ sample_lines
                                       /\ nth_error lines (Z.to_nat (fst p))
                                          = Some (snd p))
                             drawn).
  { intros E. injection E as <- <-. simpl. repeat split; auto. lia. }
  destruct read_fails; [exact (Hempty H)|].
  destruct (records_of clock drawn) as [|r0 rs] eqn:Er; [exact (Hempty H)|].
  unfold Ingest.to_datetime in H.
  destruct (forallb Ingest.aware (map Log.timestamp (r0 :: rs))
            || forallb (fun dt => negb (Ingest.aware dt))
                       (map Log.timestamp (r0 :: rs)))%bool;
    [|exact (Hempty H)].
  rewrite map_map in H.
  destruct (Ingest.rows_of _ (r0 :: rs)) as [rows|] eqn:Erows;
    [|discriminate].
  injection H as <- <-.
  apply rows_of_Forall2 in Erows.
  pose proof (Forall2_length _ _ _ Erows) as Hl. simpl length in Hl, Hsum.
  split; [reflexivity|]. split; [|split; [simpl; lia|exact Hdrawn]].
  right. exists rows. repeat split; auto.
  - intros ->. inversion Erows.
  - lia.
Qed.

Lemma sample_holds_the_drawn_lines_witness :
  Sample.crear_dataframe_sample
    example_clock (Ingest.Readable two_line_file false)
    (Sample.Probed 10000000 1000) [1; 7] 2
  = Sample.Returns Frame.Empty 1
  /\ 1 = failures_of example_clock (sampled [1; 7] 0 two_line_file).
Proof.
  assert (H : Sample.crear_dataframe_sample
                example_clock (Ingest.Readable two_line_file false)
                (Sample.Probed 10000000 1000) [1; 7] 2
              = Sample.Returns Frame.Empty 1)
    by (vm_compute; reflexivity).
  split; [exact H|].
  refine (proj1 (sample_holds_the_drawn_lines
                   example_clock two_line_file false 10000000 1000 [1; 7] 2
                   100000 Frame.Empty 1 _ _ H)).
  - vm_compute. reflexivity.
  - lia.
Defined.

(** ** The Apache parser, once more *)

(** X25: when the Apache parser gives up, and the time it records.  A
    line is rejected exactly when neither pattern matches it or the text
    between the brackets is only white space, whatever the clock shows;
    for every other line the record has the time that the text gives in
    the format with a zone, else the time that its first word gives in the
    format without, else the time of the clock. *)
Theorem apache_parser_keeps_every_other_line :
  forall (now : PyTime.datetime) (line : string),
    (Log.parse_apache_log_line now line = None
     <-> Log.match_groups (PyStr.strip line) = None
         \/ exists groups,
             Log.match_groups (PyStr.strip line) = Some groups
             /\ PyStr.split (nth 1 groups EmptyString) = [])
    /\ (forall now', Log.parse_apache_log_line now line = None
                     <-> Log.parse_apache_log_line now' line = None)
    /\ (forall groups r,
           Log.match_groups (PyStr.strip line) = Some groups ->
           Log.parse_apache_log_line now line = Some r ->
           let text := nth 1 groups EmptyString in
           Log.timestamp r
           = match PyTime.strptime text "%d/%b/%Y:%H:%M:%S %z" with
             | Some dt => dt
             | None =>
                 match PyTime.strptime (hd EmptyString (PyStr.split text))
                                       "%d/%b/%Y:%H:%M:%S" with
                 | Some dt => dt
                 | None => now
                 end
             end).
Proof.
  intros now line. split; [apply apache_rejection|]. split.
  - intros now'. rewrite (apache_rejection now line).
    rewrite (apache_rejection now' line). reflexivity.
  - intros groups r Hg H text.
    unfold Log.parse_apache_log_line in H. rewrite Hg in H.
    destruct (match_groups_length _ _ Hg) as [Hlen|Hlen];
      (destruct groups as [|g0 [|g1 rest]]; [discriminate Hlen..|]);
      cbn [nth_error] in H; subst text; cbn [nth];
      unfold Log.apache_timestamp in H;
      (destruct (PyTime.strptime g1 "%d/%b/%Y:%H:%M:%S %z") as [dt|];
       [injection H as <-; reflexivity|]);
      (destruct (PyStr.split g1) as [|first others]; [discriminate|]);
      cbn [hd];
      (destruct (PyTime.strptime first "%d/%b/%Y:%H:%M:%S") as [dt|];
       injection H as <-; reflexivity).
Qed.

Lemma apache_parser_keeps_every_other_line_witness :
  Log.timestamp scenario_record
  = match PyTime.strptime (nth 1 scenario_groups EmptyString)
                          "%d/%b/%Y:%H:%M:%S %z" with
    | Some dt => dt
    | None =>
        match PyTime.strptime
                (hd EmptyString
                    (PyStr.split (nth 1 scenario_groups EmptyString)))
                "%d/%b/%Y:%H:%M:%S" with
        | Some dt => dt
        | None => example_now
        end
    end.
Proof.
  apply (proj2 (proj2 (apache_parser_keeps_every_other_line
                         example_now scenario_line))
               scenario_groups scenario_record).
  - vm_compute. reflexivity.
  - vm_compute. reflexivity.
Defined.

Lemma string_of_list_ascii_snoc l c :
  string_of_list_ascii (l ++ [c])
  = string_of_list_ascii l +:+ String c EmptyString.
Proof.
  induction l as [|x l IH]; [reflexivity|].
  simpl. rewrite IH, append_cons. reflexivity.
Qed.

Lemma append_assoc_string a b c : (a +:+ b) +:+ c = a +:+ (b +:+ c).
Proof.
  induction a as [|x a IH]; [reflexivity|].
  rewrite !append_cons, IH. reflexivity.
Qed.

(** What a repetition takes: a run of characters of its class, followed
    by the rest. *)
Lemma rep_taken p lo hi s : forall n acc m,
  In m (Re.rep p lo hi n acc s) ->
  exists taken,
    Re.consumed m = string_of_list_ascii (rev acc) +:+ taken
    /\ s = taken +:+ Re.rest m
    /\ PyStr.all_chars p taken = true
    /\ (lo <= n + String.length taken)%nat.
Proof.
  induction s as [|c r IH]; intros n acc m Hin.
  - simpl in Hin. destruct (Nat.leb_spec lo n); [|destruct Hin].
    destruct Hin as [<-|[]]. exists EmptyString. simpl.
    rewrite append_empty_r. repeat split. lia.
  - cbn [Re.rep] in Hin.
    assert (Hhere : In m (if (lo <=? n)%nat
                          then [Re.Result (string_of_list_ascii (rev acc)) []
                                          (String c r)]
                          else []) ->
                    exists taken,
                      Re.consumed m = string_of_list_ascii (rev acc) +:+ taken
                      /\ String c r = taken +:+ Re.rest m
                      /\ PyStr.all_chars p taken = true
                      /\ (lo <= n + String.length taken)%nat).
    { intros H. destruct (Nat.leb_spec lo n); [|destruct H].
      destruct H as [<-|[]]. exists EmptyString. simpl.
      rewrite append_empty_r. repeat split. lia. }
    destruct (p c && Re.below n hi)%bool eqn:Ec; [|auto].
    apply in_app_or in Hin. destruct Hin as [Hin|Hin]; [|auto].
    apply andb_true_iff in Ec. destruct Ec as [Hc _].
    destruct (IH _ _ _ Hin) as (taken & Hcons & Hs & Hall & Hlen).
    exists (String c taken). split; [|split; [|split]].
    + rewrite Hcons. simpl rev. rewrite string_of_list_ascii_snoc.
      apply append_snoc_assoc.
    + rewrite append_cons, <- Hs. reflexivity.
    + simpl. rewrite Hc, Hall. reflexivity.
    + simpl. lia.
Qed.

(** A match of a pattern that begins with a group of characters that are
    no white space and a blank. *)
Lemma first_field_match name more s m :
  In m (Re.matches (Re.Cat (Re.Grp name Log.field_sp)
                           (Re.Cat (Re.lit " ") more)) s) ->
  exists a others tail,
    Re.groups m = (name, a) :: others
    /\ a <> EmptyString
    /\ PyStr.all_chars Re.non_space a = true
    /\ s = a +:+ String " " tail.
Proof.
  cbn [Re.matches]. intros Hin.
  apply in_concat in Hin. destruct Hin as (l & Hl & Hm).
  apply in_map_iff in Hl. destruct Hl as (m1 & <- & Hm1).
  apply in_map_iff in Hm. destruct Hm as (m2 & <- & Hm2).
  apply in_map_iff in Hm1. destruct Hm1 as (m0 & <- & Hm0).
  cbn [Re.groups Re.rest] in *.
  unfold Log.field_sp in Hm0. cbn [Re.matches] in Hm0.
  pose proof (rep_no_groups _ _ _ _ _ _ _ Hm0) as Hg.
  destruct (rep_taken _ _ _ _ _ _ _ Hm0) as (taken & Hcons & Hs & Hall & Hlen).
  simpl in Hcons, Hlen.
  apply in_concat in Hm2. destruct Hm2 as (l2 & Hl2 & _).
  apply in_map_iff in Hl2. destruct Hl2 as (m3 & _ & Hm3).
  unfold Re.lit in Hm3. cbn [Re.matches] in Hm3.
  destruct (Re.rest m0) as [|c t] eqn:Er; [destruct Hm3|].
  unfold Re.is_char in Hm3.
  destruct (Ascii.eqb_spec c " ") as [->|]; [|destruct Hm3].
  exists taken, (Re.groups m0 ++ Re.groups m2), t.
  rewrite Hcons. split; [reflexivity|]. split; [|split].
  - intros ->. simpl in Hlen. lia.
  - exact Hall.
  - exact Hs.
Qed.

Lemma split_acc_token taken : forall cur c t,
  PyStr.all_chars Re.non_space taken = true ->
  PyStr.is_space c = true ->
  cur <> [] \/ taken <> EmptyString ->
  PyStr.split_acc cur (taken +:+ String c t)
  = (string_of_list_ascii (rev cur) +:+ taken) :: PyStr.split_acc [] t.
Proof.
  induction taken as [|x xs IH]; intros cur c t Hall Hc Hne.
  - change (EmptyString +:+ String c t) with (String c t).
    cbn [PyStr.split_acc]. rewrite Hc, append_empty_r.
    destruct cur; [|reflexivity]. destruct Hne; congruence.
  - rewrite append_cons. cbn [PyStr.split_acc].
    simpl in Hall. apply andb_true_iff in Hall. destruct Hall as [Hx Hxs].
    unfold Re.non_space in Hx. apply negb_true_iff in Hx. rewrite Hx.
    rewrite (IH (x :: cur) c t Hxs Hc) by (left; discriminate).
    simpl rev. rewrite string_of_list_ascii_snoc, append_snoc_assoc.
    reflexivity.
Qed.

Lemma split_lstrip s : PyStr.split (PyStr.lstrip s) = PyStr.split s.
Proof.
  unfold PyStr.split.
  induction s as [|c r IH]; [reflexivity|].
  cbn [PyStr.lstrip]. destruct (PyStr.is_space c) eqn:Hc; [|reflexivity].
  rewrite IH. cbn [PyStr.split_acc]. rewrite Hc. reflexivity.
Qed.

Lemma split_acc_space cur c r :
  PyStr.is_space c = true ->
  PyStr.split_acc cur (String c r)
  = match cur with
    | [] => PyStr.split_acc [] r
    | _ => string_of_list_ascii (rev cur) :: PyStr.split_acc [] r
    end.
Proof. intros Hc. cbn [PyStr.split_acc]. rewrite Hc. reflexivity. Qed.

Lemma split_acc_other cur c r :
  PyStr.is_space c = false ->
  PyStr.split_acc cur (String c r) = PyStr.split_acc (c :: cur) r.
Proof. intros Hc. cbn [PyStr.split_acc]. rewrite Hc. reflexivity. Qed.

Lemma split_acc_rstrip s : forall cur,
  PyStr.split_acc cur (PyStr.rstrip s) = PyStr.split_acc cur s.
Proof.
  induction s as [|c r IH]; intros cur; [reflexivity|].
  destruct (PyStr.is_space c) eqn:Hc.
  - rewrite rstrip_cons_space by exact Hc.
    rewrite (split_acc_space cur c r Hc), <- (IH []).
    destruct (PyStr.rstrip r) as [|c' r'].
    + destruct cur; reflexivity.
    + rewrite (split_acc_space cur c _ Hc). reflexivity.
  - rewrite rstrip_cons by exact Hc.
    rewrite !split_acc_other by exact Hc. apply IH.
Qed.

Lemma split_strip s : PyStr.split (PyStr.strip s) = PyStr.split s.
Proof.
  unfold PyStr.strip, PyStr.split at 1. rewrite split_acc_rstrip.
  apply split_lstrip.
Qed.

Lemma match_groups_first_field s groups :
  Log.match_groups s = Some groups ->
  exists a others tail,
    groups = a :: others
    /\ a <> EmptyString
    /\ PyStr.all_chars Re.non_space a = true
    /\ s = a +:+ String " " tail.
Proof.
  unfold Log.match_groups.
  destruct (Re.re_match Log.pattern s) as [m|] eqn:E.
  - intros H. injection H as <-.
    apply re_match_In in E.
    destruct (first_field_match "1" _ s m E)
      as (a & others & tail & Hg & Hne & Hall & Hs).
    exists a, (map snd others), tail. rewrite Hg. auto.
  - destruct (Re.re_match Log.simple_pattern s) as [m|] eqn:E';
      [|discriminate].
    intros H. injection H as <-.
    apply re_match_In in E'.
    destruct (first_field_match "1" _ s m E')
      as (a & others & tail & Hg & Hne & Hall & Hs).
    exists a, (map snd others), tail. rewrite Hg. auto.
Qed.

(** X26: the address of an Apache record is the first word of the line.
    Whenever the Apache parser returns a record, its address is a text,
    not empty and without white space, and it is the first of the words
    into which [split] cuts the line; in the stripped line it is followed
    by a blank. *)
Theorem apache_address_is_the_first_word :
  forall (now : PyTime.datetime) (line : string) (r : Log.LogRecord),
    Log.parse_apache_log_line now line = Some r ->
    exists a words tail,
      Log.ip r = Json.VStr a
      /\ a <> EmptyString
      /\ PyStr.all_chars Re.non_space a = true
      /\ PyStr.split line = a :: words
      /\ PyStr.strip line = a +:+ String " " tail.
Proof.
  intros now line r H.
  unfold Log.parse_apache_log_line in H.
  destruct (Log.match_groups (PyStr.strip line)) as [groups|] eqn:Hg;
    [|discriminate].
  destruct (match_groups_first_field _ _ Hg)
    as (a & others & tail & -> & Hne & Hall & Hs).
  cbn [nth_error] in H.
  destruct others as [|ts others]; [discriminate|].
  destruct (Log.apache_timestamp now ts); [|discriminate].
  injection H as <-. cbn [Log.ip].
  exists a, (PyStr.split tail), tail.
  split; [reflexivity|]. split; [exact Hne|]. split; [exact Hall|].
  split; [|exact Hs].
  rewrite <- split_strip, Hs. unfold PyStr.split.
  rewrite (split_acc_token a [] " " tail Hall eq_refl) by (right; exact Hne).
  reflexivity.
Qed.

Lemma apache_address_is_the_first_word_witness :
  exists a words tail,
    Log.ip scenario_record = Json.VStr a
    /\ a <> EmptyString
    /\ PyStr.all_chars Re.non_space a = true
    /\ PyStr.split scenario_line = a :: words
    /\ PyStr.strip scenario_line = a +:+ String " " tail.
Proof.
  apply (apache_address_is_the_first_word example_now scenario_line).
  vm_compute. reflexivity.
Defined.
